(** * Commit-habit gist updater: a shallow embedding of its four script variants

    The repository holds four near-identical Node.js scripts:

    - [UpdateGist]  : src/script/update_gist.js (one page of public events),
    - [Part000]     : src/unnamed/part_000 (three pages of events, commit-count
                      fallback chain, percent column),
    - [Part001a]    : first script of src/unnamed/part_001 (commit search, dayjs),
    - [Part001b]    : second script of src/unnamed/part_001 (commit search,
                      date-fns-tz).

    JavaScript numbers are IEEE-754 binary64 values: the renderer's arithmetic is
    embedded with the Standard Library's [SpecFloat] at precision 53.  The
    counters of a CommitStats object hold integers; they are embedded as [Z],
    which is exact as long as they stay below 2^53.  In part_000 the counts
    come from the size fields the API answers with, which no array bounds:
    its counters are embedded a second time as Numbers ([Part000N]), the two
    embeddings are shown to agree below 2^53, and the properties of the sums
    of part_000 state that bound.  Strings are sequences of UTF-16 code units,
    so that [length] is JavaScript's [.length]. *)

From Stdlib Require Import String Ascii.
From Stdlib Require Import ZArith NArith QArith Qround Qpower Qabs.
From Stdlib Require Import List Bool Lia Lqa SpecFloat.
Import ListNotations.

Local Open Scope Z_scope.

(** ** JavaScript values and built-ins *)

Module JS.

(** *** Strings: lists of UTF-16 code units *)

Definition jsstring := list N.

(** Decoding of the UTF-8 bytes of a source literal into code points. *)
Fixpoint code_points (bs : list N) : list N :=
  match bs with
  | [] => []
  | b0 :: r0 =>
    if (b0 <? 128)%N then b0 :: code_points r0
    else
      match r0 with
      | [] => []
      | b1 :: r1 =>
        if (b0 <? 224)%N then ((b0 mod 32) * 64 + b1 mod 64)%N :: code_points r1
        else
          match r1 with
          | [] => []
          | b2 :: r2 =>
            if (b0 <? 240)%N
            then ((b0 mod 16) * 4096 + (b1 mod 64) * 64 + b2 mod 64)%N :: code_points r2
            else
              match r2 with
              | [] => []
              | b3 :: r3 =>
                ((b0 mod 8) * 262144 + (b1 mod 64) * 4096
                 + (b2 mod 64) * 64 + b3 mod 64)%N :: code_points r3
              end
          end
      end
  end.

(** A code point as one code unit, or as a surrogate pair above the BMP. *)
Definition utf16 (cp : N) : jsstring :=
  if (cp <? 65536)%N then [cp]
  else [(55296 + (cp - 65536) / 1024)%N; (56320 + (cp - 65536) mod 1024)%N].

(** The JavaScript string denoted by a source literal. *)
Definition js (s : string) : jsstring :=
  flat_map utf16 (code_points (map N_of_ascii (list_ascii_of_string s))).

(** *** Completion records: a value or a thrown exception *)

Inductive exn :=
| RangeError                    (* String.prototype.repeat: invalid count *)
| HttpError (status : Z)        (* a rejected Octokit request *)
| OutsideModel.                 (* a built-in used outside the part embedded here *)

Inductive result (A : Type) :=
| Ok (a : A)
| Throw (e : exn).
Arguments Ok {A} a.
Arguments Throw {A} e.

Definition rbind {A B} (r : result A) (k : A -> result B) : result B :=
  match r with
  | Ok a => k a
  | Throw e => Throw e
  end.

(** *** Numbers: binary64 *)

Definition prec : Z := 53.
Definition emax : Z := 1024.

Definition number := spec_float.

Definition num_div : number -> number -> number := SFdiv prec emax.
Definition num_mul : number -> number -> number := SFmul prec emax.
Definition num_sub : number -> number -> number := SFsub prec emax.
Definition num_add : number -> number -> number := SFadd prec emax.

(** The Number for an integer (nearest binary64 value; exact below 2^53). *)
Definition Z2SF (z : Z) : number := binary_normalize prec emax z 0 false.

(** [2^e] as a rational. *)
Definition pow2 (e : Z) : Q := Qpower 2 e.

(** The magnitude and the real value of a finite Number (0 for the others). *)
Definition SFmag (x : number) : Q :=
  match x with
  | S754_finite _ m e => inject_Z (Zpos m) * pow2 e
  | _ => 0
  end.

Definition SFsign (x : number) : bool :=
  match x with
  | S754_zero s | S754_infinity s | S754_finite s _ _ => s
  | S754_nan => false
  end.

Definition SF2Q (x : number) : Q :=
  if SFsign x then - SFmag x else SFmag x.

(** *** Number to string *)

(** Decimal digits of a natural number, most significant first. *)
Fixpoint dec_fuel (fuel : nat) (n : N) : jsstring :=
  match fuel with
  | O => []
  | S f =>
    if (n <? 10)%N then [(48 + n)%N]
    else dec_fuel f (n / 10) ++ [(48 + n mod 10)%N]
  end.

Definition dec (n : N) : jsstring := dec_fuel (S (N.to_nat (N.size n))) n.

(** [String(n)] for an integer Number [n] (below 10^21 in magnitude). *)
Definition NumberToString (z : Z) : jsstring :=
  (if z <? 0 then js "-" else []) ++ dec (Z.abs_N z).

(** [x.toFixed(1)]: with n the integer closest to 10*|x| (the larger one on a
    tie), the digits of n with a point before the last one.  From 10^21 on the
    built-in switches to exponent notation, which is not embedded. *)
Definition fixed1 (n : Z) : jsstring :=
  dec (Z.to_N (n / 10)) ++ js "." ++ dec (Z.to_N (n mod 10)).

Definition toFixed1 (x : number) : result jsstring :=
  match x with
  | S754_nan => Ok (js "NaN")
  | S754_infinity s => Ok (if s then js "-Infinity" else js "Infinity")
  | S754_zero _ => Ok (js "0.0")
  | S754_finite s _ _ =>
    if Qle_bool (inject_Z (10 ^ 21)) (SFmag x) then Throw OutsideModel
    else
      let n := Qfloor (SFmag x * 10 + (1 # 2))%Q in
      Ok ((if s then js "-" else []) ++ fixed1 n)
  end.

(** *** String to number *)

Definition is_digit (c : N) : bool := ((48 <=? c) && (c <=? 57))%N.

Fixpoint digits_value (acc : N) (s : jsstring) : option N :=
  match s with
  | [] => Some acc
  | c :: r => if is_digit c then digits_value (acc * 10 + (c - 48)) r else None
  end.

(** Split at the first point. *)
Fixpoint split_point (s : jsstring) : jsstring * option jsstring :=
  match s with
  | [] => ([], None)
  | c :: r =>
    if (c =? 46)%N then ([], Some r)
    else let '(a, b) := split_point r in (c :: a, b)
  end.

(** The Number nearest to the decimal [n / 10^f]: the correctly rounded
    quotient of the two integers. *)
Definition decimal_number (neg : bool) (n : N) (f : nat) : number :=
  match n with
  | N0 => S754_zero neg
  | Npos p => num_div (S754_finite neg p 0) (S754_finite false (Z.to_pos (10 ^ Z.of_nat f)) 0)
  end.

(** StringToNumber on plain decimal literals: digits, optionally a point and
    more digits, optionally a leading minus sign.  Other forms of numeric
    strings are not embedded. *)
Definition unsigned_literal (neg : bool) (s : jsstring) : result number :=
  let '(a, b) := split_point s in
  match a, digits_value 0 a, digits_value 0 (a ++ match b with Some f => f | None => [] end) with
  | _ :: _, Some _, Some n =>
    Ok (decimal_number neg n (match b with Some f => length f | None => O end))
  | _, _, _ => Throw OutsideModel
  end.

Definition StringToNumber (s : jsstring) : result number :=
  match s with
  | 45%N :: r => unsigned_literal true r
  | _ => unsigned_literal false s
  end.

(** *** Values that are a Number or a String *)

Inductive jsval :=
| JNum (x : number)
| JStr (s : jsstring).

Definition ToNumber (v : jsval) : result number :=
  match v with
  | JNum x => Ok x
  | JStr s => StringToNumber s
  end.

(** [String(v)] and template interpolation.  Number::toString is embedded for
    zeros, NaN, infinities and integers below 10^21. *)
Definition ToString (v : jsval) : result jsstring :=
  match v with
  | JStr s => Ok s
  | JNum S754_nan => Ok (js "NaN")
  | JNum (S754_infinity s) => Ok (if s then js "-Infinity" else js "Infinity")
  | JNum (S754_zero _) => Ok (js "0")
  | JNum (S754_finite s m e as x) =>
    let n := Qfloor (SFmag x) in
    if Qeq_bool (inject_Z n) (SFmag x) && (n <? 10 ^ 21)
    then Ok (NumberToString (if s then - n else n))
    else Throw OutsideModel
  end.

(** *** Math.round: the closest integer, the larger one on a tie; a result of
    zero keeps the sign of the argument. *)
Definition Math_round (x : number) : number :=
  match x with
  | S754_finite s _ _ =>
    let v := Qfloor (SF2Q x + (1 # 2))%Q in
    if v =? 0 then S754_zero s else Z2SF v
  | _ => x
  end.

(** *** String.prototype.repeat: the count goes through ToIntegerOrInfinity
    (NaN counts as 0, a fraction is truncated); a negative or infinite count
    throws a RangeError. *)
Definition String_repeat (s : jsstring) (count : number) : result jsstring :=
  match count with
  | S754_nan | S754_zero _ => Ok []
  | S754_infinity _ => Throw RangeError
  | S754_finite sg _ _ =>
    let n := Qfloor (SFmag count) in
    if sg && (0 <? n) then Throw RangeError
    else if sg then Ok []
    else Ok (concat (List.repeat s (Z.to_nat n)))
  end.

(** *** padStart, padEnd (filler: a space), Array.prototype.join *)

Definition padStart (s : jsstring) (targetLength : nat) : jsstring :=
  List.repeat 32%N (targetLength - length s) ++ s.

Definition padEnd (s : jsstring) (targetLength : nat) : jsstring :=
  s ++ List.repeat 32%N (targetLength - length s).

Fixpoint join (sep : jsstring) (l : list jsstring) : jsstring :=
  match l with
  | [] => []
  | [a] => a
  | a :: r => a ++ sep ++ join sep r
  end.

End JS.

(** ** The environment of a run: clock, remote API, console, date library *)

Module Env.
Import JS.

(** An absolute instant: milliseconds since the epoch (what [new Date(iso)]
    denotes for the ISO strings of the API). *)
Definition instant := Z.

(** The two time-zone operations the scripts use, from date-fns-tz resp. dayjs:
    the local hour of an instant in a zone ([utcToZonedTime(d, tz).getHours()],
    [dayjs(d).tz(tz).hour()]) and its rendering with the pattern
    year-month-day hours:minutes:seconds. *)
Class DateLib := {
  zonedHour : string -> instant -> Z;
  zonedFormat : string -> instant -> jsstring
}.

(** *** Records of the REST API *)

Record user := { login : string }.
Record commit := { sha : string }.
Record push_payload := {
  commits : option (list commit);     (* None: the field is absent *)
  size : option Z;
  distinct_size : option Z
}.
Record event := {
  type : string;
  payload : option push_payload;
  created_at : instant
}.
Record search_item := { author_date : instant }.   (* item.commit.author.date *)
Record search_data := {
  total_count : Z;
  items : option (list search_item)
}.

(** The remote API as the answers it gives during one run. *)
Record github := {
  users_getAuthenticated : result user;
  listPublicEventsForUser : option string -> Z -> result (list event);
  listEventsForAuthenticatedUser : string -> Z -> Z -> result (list event);
  search_commits : string -> instant -> Z -> Z -> result search_data;
  gists_update : option string -> jsstring -> result unit
}.

(** process.env *)
Record config := {
  GIST_TOKEN : option string;
  GIST_ID : option string;
  GH_USERNAME : option string
}.

(** *** The world a script acts on *)

Inductive call :=
| GetAuthenticated
| ListPublicEvents (per_page : Z)
| ListEvents (per_page page : Z)
| SearchCommits (per_page page : Z)
| GistsUpdate (content : jsstring).

Inductive level := Info | Warn | Error.

(** A console line: its level, the fixed text of the statement and the numbers
    interpolated into it. *)
Record line := { lvl : level; text : string; args : list Z }.

Record world := {
  clock : instant;          (* what [new Date()] reads *)
  calls : list call;        (* requests sent so far, oldest first *)
  console : list line       (* lines printed so far, oldest first *)
}.

(** *** Computations: a world transformer that returns or throws *)

Definition M (A : Type) : Type := world -> result A * world.

Definition ret {A} (a : A) : M A := fun w => (Ok a, w).

Definition bind {A B} (m : M A) (k : A -> M B) : M B :=
  fun w =>
    match m w with
    | (Ok a, w') => k a w'
    | (Throw e, w') => (Throw e, w')
    end.

Definition throw {A} (e : exn) : M A := fun w => (Throw e, w).

Definition lift {A} (r : result A) : M A := fun w => (r, w).

Definition try_catch {A} (body : M A) (handler : exn -> M A) : M A :=
  fun w =>
    match body w with
    | (Throw e, w') => handler e w'
    | r => r
    end.

Definition new_Date : M instant := fun w => (Ok (clock w), w).

Definition request {A} (c : call) (answer : result A) : M A :=
  fun w => (answer, {| clock := clock w; calls := calls w ++ [c]; console := console w |}).

Definition print (l : level) (t : string) (a : list Z) : M unit :=
  fun w => (Ok tt, {| clock := clock w; calls := calls w;
                      console := console w ++ [{| lvl := l; text := t; args := a |}] |}).

Declare Scope js_scope.
Delimit Scope js_scope with js.
Notation "x <- m ;; k" := (bind m (fun x => k))
  (at level 100, m at next level, right associativity) : js_scope.
Notation "m ;; k" := (bind m (fun _ => k))
  (at level 100, right associativity) : js_scope.
Notation "x <-- r ;; k" := (rbind r (fun x => k))
  (at level 100, r at next level, right associativity) : js_scope.
Local Open Scope js_scope.

(** [for (const a of l) body] over a loop state. *)
Fixpoint for_of {A S} (l : list A) (body : A -> S -> M S) (s : S) : M S :=
  match l with
  | [] => ret s
  | a :: r => s' <- body a s ;; for_of r body s'
  end.

(** [for (let page = first; page <= last; page++) body], where the body may
    [break]: [fuel] is the number of values of [page] left. *)
Inductive flow (S : Type) := Next (s : S) | Break (s : S).
Arguments Next {S} s.
Arguments Break {S} s.

Fixpoint for_pages {S} (fuel : nat) (page : Z) (body : Z -> S -> M (flow S)) (s : S)
  : M S :=
  match fuel with
  | O => ret s
  | Datatypes.S fuel' =>
    r <- body page s ;;
    match r with
    | Break s' => ret s'
    | Next s' => for_pages fuel' (page + 1) body s'
    end
  end.

Definition for_page_upto {S} (last : Z) (body : Z -> S -> M (flow S)) (s : S) : M S :=
  for_pages (Z.to_nat last) 1 body s.

(** *** CommitStats *)

Record counters := {
  morning : Z;
  daytime : Z;
  evening : Z;
  night : Z
}.

Record CommitStats := {
  buckets :> counters;
  total : Z
}.

Definition no_commits : counters :=
  {| morning := 0; daytime := 0; evening := 0; night := 0 |}.

Inductive bucket := Morning | Daytime | Evening | Night.

(** The classification all four scripts share:
    [if (hour >= 6 && hour < 12) .. else if (hour >= 12 && hour < 18) ..
     else if (hour >= 18 && hour < 24) .. else ..]. *)
Definition bucketOfHour (hour : Z) : bucket :=
  if (6 <=? hour) && (hour <? 12) then Morning
  else if (12 <=? hour) && (hour <? 18) then Daytime
  else if (18 <=? hour) && (hour <? 24) then Evening
  else Night.

(** [stats.<bucket> += n] *)
Definition add_to (b : bucket) (n : Z) (c : counters) : counters :=
  match b with
  | Morning => {| morning := morning c + n; daytime := daytime c;
                  evening := evening c; night := night c |}
  | Daytime => {| morning := morning c; daytime := daytime c + n;
                  evening := evening c; night := night c |}
  | Evening => {| morning := morning c; daytime := daytime c;
                  evening := evening c + n; night := night c |}
  | Night => {| morning := morning c; daytime := daytime c;
                evening := evening c; night := night c + n |}
  end.

Definition count_of (b : bucket) (c : counters) : Z :=
  match b with
  | Morning => morning c
  | Daytime => daytime c
  | Evening => evening c
  | Night => night c
  end.

Definition TIME_ZONE : string := "Asia/Shanghai".

End Env.

(** ** What the scripts share verbatim *)

Module Shared.
Import JS Env.
Local Open Scope js_scope.

Definition nl : jsstring := [10%N].

Definition empty_payload : push_payload :=
  {| commits := None; size := None; distinct_size := None |}.

Definition is_PushEvent (e : event) : bool := String.eqb (type e) "PushEvent".

(** [a || b] on a numeric field that may be absent: [undefined] and [0] are
    falsy. *)
Definition or_else (a : option Z) (b : Z) : Z :=
  match a with
  | Some z => if z =? 0 then b else z
  | None => b
  end.

(** [GH_USERNAME || user.login]: an unset or empty variable is falsy. *)
Definition username_or (v : option string) (l : string) : string :=
  match v with
  | Some u => if String.eqb u "" then l else u
  | None => l
  end.

(** update_gist.js:70, part_000:104, second script of part_001:
    [num => (stats.total === 0 ? 0 : ((num / stats.total) * 100).toFixed(1))] *)
Definition getPercent (stats : CommitStats) (num : Z) : result jsval :=
  if total stats =? 0 then Ok (JNum (Z2SF 0))
  else
    s <-- toFixed1 (num_mul (num_div (Z2SF num) (Z2SF (total stats))) (Z2SF 100)) ;;
    Ok (JStr s).

(** update_gist.js:71-74, part_000:105-108, second script of part_001:
    [filled = Math.round(percent / 5)], then
    ['█'.repeat(filled) + '░'.repeat(20 - filled)]. *)
Definition getBar (percent : jsval) : result jsstring :=
  p <-- ToNumber percent ;;
  let filled := Math_round (num_div p (Z2SF 5)) in
  a <-- String_repeat (js "█") filled ;;
  b <-- String_repeat (js "░") (num_sub (Z2SF 20) filled) ;;
  Ok (a ++ b).

(** The [lines] array of part_000 and part_001. *)
Record row := { emoji : jsstring; label : jsstring; count : Z }.

Definition lines (stats : CommitStats) : list row :=
  [ {| emoji := js "🌞"; label := js "Morning"; count := morning stats |};
    {| emoji := js "🏙️"; label := js "Daytime"; count := daytime stats |};
    {| emoji := js "🌆"; label := js "Evening"; count := evening stats |};
    {| emoji := js "🌙"; label := js "Night"; count := night stats |} ].

(** [Math.max(3, ...lines.map(l => String(l.count).length))] *)
Definition countWidth (ls : list row) : nat :=
  fold_left Nat.max (map (fun l => length (NumberToString (count l))) ls) 3%nat.

Fixpoint map_result {A B} (f : A -> result B) (l : list A) : result (list B) :=
  match l with
  | [] => Ok []
  | a :: r => b <-- f a ;; bs <-- map_result f r ;; Ok (b :: bs)
  end.

(** [`${content}\n> Last Updated: ${updateTime}\n`] *)
Definition with_update_time (content updateTime : jsstring) : jsstring :=
  content ++ nl ++ js "> Last Updated: " ++ updateTime ++ nl.

(** Step 3 of every script: overwrite the file commit-habit.md of the gist. *)
Definition updateGist (gh : github) (cfg : config) (content : jsstring) : M unit :=
  try_catch
    (request (GistsUpdate content) (gists_update gh (GIST_ID cfg) content) ;;
     print Info "Gist updated successfully!" [])
    (fun error => print Error "Failed to update Gist: " [] ;; throw error).

(** [main]: the exit status is 1 when a step throws. *)
Definition main (getCommitTimes : M CommitStats)
    (generateMarkdown : CommitStats -> M jsstring)
    (update : jsstring -> M unit) : M Z :=
  try_catch
    (stats <- getCommitTimes ;;
     markdown <- generateMarkdown stats ;;
     update markdown ;;
     ret 0)
    (fun error => print Error "Program execution failed: " [] ;; ret 1).

End Shared.

(** ** src/script/update_gist.js *)

Module UpdateGist.
Import JS Env Shared.
Local Open Scope js_scope.

Section Script.
Context {dates : DateLib} (gh : github) (cfg : config).

(** Lines 36-39: [const commits = event.payload?.commits || []],
    [commitCount = commits.length]. *)
Definition commitCount (e : event) : Z :=
  match payload e with
  | Some p =>
    match commits p with
    | Some l => Z.of_nat (length l)
    | None => 0
    end
  | None => 0
  end.

(** Lines 35-56: the body of [for (const event of events)]. *)
Definition count_event (stats : CommitStats) (e : event) : CommitStats :=
  if is_PushEvent e then
    let n := commitCount e in
    let hour := zonedHour TIME_ZONE (created_at e) in
    {| buckets := add_to (bucketOfHour hour) n stats; total := total stats + n |}
  else stats.

Definition getCommitTimes : M CommitStats :=
  try_catch
    (events <- request (ListPublicEvents 100)
                 (listPublicEventsForUser gh (GH_USERNAME cfg) 100) ;;
     ret (fold_left count_event events {| buckets := no_commits; total := 0 |}))
    (fun error => print Error "Failed to get commit data: " [] ;; throw error).

(** One line of the template of lines 81-86; [head] is the text before the
    count, emoji and padding included. *)
Definition template_line (stats : CommitStats) (head : jsstring) (n : Z)
  : result jsstring :=
  p <-- getPercent stats n ;;
  bar <-- getBar p ;;
  p' <-- getPercent stats n ;;
  pct <-- ToString p' ;;
  Ok (head ++ NumberToString n ++ js " commits    " ++ bar ++ js "    " ++ pct ++ js "%").

Definition generateMarkdown (stats : CommitStats) : M jsstring :=
  now <- new_Date ;;
  let updateTime := zonedFormat TIME_ZONE now in
  l1 <- lift (template_line stats (js "🌞 Morning    ") (morning stats)) ;;
  l2 <- lift (template_line stats (js "🏙️ Daytime    ") (daytime stats)) ;;
  l3 <- lift (template_line stats (js "🌆 Evening    ") (evening stats)) ;;
  l4 <- lift (template_line stats (js "🌙 Night      ") (night stats)) ;;
  ret (with_update_time (l1 ++ nl ++ l2 ++ nl ++ l3 ++ nl ++ l4) updateTime).

Definition script : M Z :=
  main getCommitTimes generateMarkdown (updateGist gh cfg).

End Script.
End UpdateGist.

(** ** src/unnamed/part_000 *)

Module Part000.
Import JS Env Shared.
Local Open Scope js_scope.

Section Script.
Context {dates : DateLib} (gh : github) (cfg : config).

(** Lines 60-63:
    [(Array.isArray(payload.commits) && payload.commits.length > 0)
       ? payload.commits.length
       : (payload.size || payload.distinct_size || 1)]
    with [payload = event.payload || {}]. *)
Definition commitCount (e : event) : Z :=
  let p := match payload e with Some p => p | None => empty_payload end in
  match commits p with
  | Some ((_ :: _) as l) => Z.of_nat (length l)
  | _ => or_else (size p) (or_else (distinct_size p) 1)
  end.

(** The variables the page loop updates. *)
Record progress := {
  stats : CommitStats;
  totalEvents : Z;
  pushEventCount : Z
}.

(** Lines 50-79: the body of [for (const event of events)].  The counters
    are kept as integers here; [Part000N] below has the same additions on
    Numbers. *)
Definition count_event (e : event) (s : progress) : M progress :=
  if is_PushEvent e then
    let pushes := pushEventCount s + 1 in
    (if pushes <=? 3
     then print Info "PushEvent payload keys" [pushes] ;;
          print Info "payload.size, payload.distinct_size" [] ;;
          print Info "payload.commits type, isArray, length" [] ;;
          print Info "event.created_at, repo" []
     else ret tt) ;;
    let n := commitCount e in
    let hour := zonedHour TIME_ZONE (created_at e) in
    ret {| stats := {| buckets := add_to (bucketOfHour hour) n (stats s);
                       total := total (stats s) + n |};
           totalEvents := totalEvents s;
           pushEventCount := pushes |}
  else ret s.

(** Lines 38-80: the body of [for (let page = 1; page <= 3; page++)]. *)
Definition fetch_page (username : string) (page : Z) (s : progress) : M (flow progress) :=
  events <- request (ListEvents 100 page)
              (listEventsForAuthenticatedUser gh username 100 page) ;;
  print Info "Page: fetched events" [page; Z.of_nat (length events)] ;;
  if (length events =? 0)%nat then ret (Break s)
  else
    s' <- for_of events count_event
            {| stats := stats s;
               totalEvents := totalEvents s + Z.of_nat (length events);
               pushEventCount := pushEventCount s |} ;;
    ret (Next s').

Definition getCommitTimes : M CommitStats :=
  try_catch
    (user <- request GetAuthenticated (users_getAuthenticated gh) ;;
     print Info "Authenticated as" [] ;;
     let username := username_or (GH_USERNAME cfg) (login user) in
     s <- for_page_upto 3 (fetch_page username)
            {| stats := {| buckets := no_commits; total := 0 |};
               totalEvents := 0; pushEventCount := 0 |} ;;
     print Info "Total events, PushEvents, Commits"
       [totalEvents s; pushEventCount s; total (stats s)] ;;
     (if totalEvents s =? 0
      then print Warn "No events found. Token likely needs broader permissions:" [] ;;
           print Warn "Fine-grained PAT: set Repository access to All repositories" [] ;;
           print Warn "Or use a Classic PAT with repo + gist scopes" []
      else ret tt) ;;
     ret (stats s))
    (fun error =>
       print Error "Failed to get commit data: " [] ;;
       (match error with
        | HttpError status =>
          if (status =? 401) || (status =? 403)
          then print Error "Token authentication failed. Check GIST_TOKEN in repository secrets." []
          else ret tt
        | _ => ret tt
        end) ;;
       throw error).

(** Lines 123-130: one element of [lines.map(...)], with the percent column. *)
Definition render_row (stats : CommitStats) (width : nat) (l : row) : result jsstring :=
  percent <-- getPercent stats (count l) ;;
  let col1 := emoji l ++ js " " ++ padEnd (label l) 7 in
  let col2 := padStart (NumberToString (count l)) width ++ js " commits" in
  col3 <-- getBar percent ;;
  text <-- ToString percent ;;
  let col4 := padStart text 5 ++ js "%" in
  Ok (col1 ++ js "   " ++ col2 ++ js "   " ++ col3 ++ js "   " ++ col4).

Definition generateMarkdown (stats : CommitStats) : M jsstring :=
  now <- new_Date ;;
  let updateTime := zonedFormat TIME_ZONE now in
  let ls := lines stats in
  rows <- lift (map_result (render_row stats (countWidth ls)) ls) ;;
  ret (with_update_time (join nl rows) updateTime).

Definition script : M Z :=
  main getCommitTimes generateMarkdown (updateGist gh cfg).

End Script.
End Part000.

(** ** src/unnamed/part_000, the counters as Numbers *)

Module Part000N.
Import JS Env Shared.

Section Script.
Context {dates : DateLib}.

(** The [stats] object of lines 27-33 with its fields as the Numbers they
    are. *)
Record NumberStats := {
  morningN : number;
  daytimeN : number;
  eveningN : number;
  nightN : number;
  totalN : number
}.

Definition zeros : NumberStats :=
  {| morningN := Z2SF 0; daytimeN := Z2SF 0; eveningN := Z2SF 0; nightN := Z2SF 0;
     totalN := Z2SF 0 |}.

(** Lines 64-78: [stats.total += commitCount], then [stats.<bucket> +=
    commitCount] for the bucket of the hour; [+=] is the addition of
    binary64. *)
Definition add_count (b : bucket) (n : number) (s : NumberStats) : NumberStats :=
  let t := num_add (totalN s) n in
  match b with
  | Morning => {| morningN := num_add (morningN s) n; daytimeN := daytimeN s;
                  eveningN := eveningN s; nightN := nightN s; totalN := t |}
  | Daytime => {| morningN := morningN s; daytimeN := num_add (daytimeN s) n;
                  eveningN := eveningN s; nightN := nightN s; totalN := t |}
  | Evening => {| morningN := morningN s; daytimeN := daytimeN s;
                  eveningN := num_add (eveningN s) n; nightN := nightN s; totalN := t |}
  | Night => {| morningN := morningN s; daytimeN := daytimeN s;
                eveningN := eveningN s; nightN := num_add (nightN s) n; totalN := t |}
  end.

(** Lines 50-79, the counters only: what one event does to [stats]. *)
Definition count_event (s : NumberStats) (e : event) : NumberStats :=
  if is_PushEvent e then
    let n := Z2SF (Part000.commitCount e) in
    let hour := zonedHour TIME_ZONE (created_at e) in
    add_count (bucketOfHour hour) n s
  else s.

(** [stats] after the events of the pages fetched, in the order of the
    loops. *)
Definition count_events (events : list event) : NumberStats :=
  fold_left count_event events zeros.

(** [stats.morning + stats.daytime + stats.evening + stats.night] *)
Definition sum_of_buckets (s : NumberStats) : number :=
  num_add (num_add (num_add (morningN s) (daytimeN s)) (eveningN s)) (nightN s).

End Script.
End Part000N.

(** ** src/unnamed/part_001, first script (dayjs) *)

Module Part001a.
Import JS Env Shared.
Local Open Scope js_scope.

Definition DAYS_LOOKBACK : Z := 365.
Definition MAX_PAGES : Z := 10.
Definition PER_PAGE : Z := 100.
Definition BAR_WIDTH : Z := 20.
Definition SEARCH_API_LIMIT : Z := MAX_PAGES * PER_PAGE.

Section Script.
Context {dates : DateLib} (gh : github) (cfg : config).

(** Lines 66-78: the body of [for (const item of items)]. *)
Definition count_item (stats : counters) (item : search_item) : counters :=
  let hour := zonedHour TIME_ZONE (author_date item) in
  add_to (bucketOfHour hour) 1 stats.

(** Lines 47-81: the body of [for (let page = 1; page <= MAX_PAGES; page++)]. *)
Definition fetch_page (username : string) (since : instant) (page : Z) (stats : counters)
  : M (flow counters) :=
  data <- request (SearchCommits PER_PAGE page)
            (search_commits gh username since PER_PAGE page) ;;
  (if page =? 1
   then print Info "Search found commits in the last year" [total_count data] ;;
        (if SEARCH_API_LIMIT <? total_count data
         then print Warn "Total commits, but Search API caps" [total_count data; SEARCH_API_LIMIT]
         else ret tt)
   else ret tt) ;;
  let items := match items data with Some l => l | None => [] end in
  if (length items =? 0)%nat then ret (Break stats)
  else
    let stats' := fold_left count_item items stats in
    if Z.of_nat (length items) <? PER_PAGE then ret (Break stats') else ret (Next stats').

Definition getCommitTimes : M CommitStats :=
  user <- request GetAuthenticated (users_getAuthenticated gh) ;;
  print Info "Authenticated as" [] ;;
  let username := username_or (GH_USERNAME cfg) (login user) in
  now <- new_Date ;;
  let since := now - DAYS_LOOKBACK * 86400000 in
  stats <- for_page_upto MAX_PAGES (fetch_page username since) no_commits ;;
  let total := morning stats + daytime stats + evening stats + night stats in
  print Info "Counted commits"
    [total; morning stats; daytime stats; evening stats; night stats] ;;
  ret {| buckets := stats; total := total |}.

(** Line 92:
    [num => (stats.total === 0 ? 0 : (num / stats.total) * 100).toFixed(1)] *)
Definition getPercent (stats : CommitStats) (num : Z) : result jsval :=
  s <-- toFixed1 (if total stats =? 0 then Z2SF 0
                  else num_mul (num_div (Z2SF num) (Z2SF (total stats))) (Z2SF 100)) ;;
  Ok (JStr s).

(** Lines 93-96: [filled = Math.round((percent / 100) * BAR_WIDTH)]. *)
Definition getBar (percent : jsval) : result jsstring :=
  p <-- ToNumber percent ;;
  let filled := Math_round (num_mul (num_div p (Z2SF 100)) (Z2SF BAR_WIDTH)) in
  a <-- String_repeat (js "█") filled ;;
  b <-- String_repeat (js "░") (num_sub (Z2SF BAR_WIDTH) filled) ;;
  Ok (a ++ b).

(** Lines 110-116: one element of [lines.map(...)]. *)
Definition render_row (stats : CommitStats) (width : nat) (l : row) : result jsstring :=
  percent <-- getPercent stats (count l) ;;
  let col1 := emoji l ++ js " " ++ padEnd (label l) 7 in
  let col2 := padStart (NumberToString (count l)) width ++ js " commits" in
  col3 <-- getBar percent ;;
  Ok (col1 ++ js "   " ++ col2 ++ js "   " ++ col3).

Definition generateMarkdown (stats : CommitStats) : M jsstring :=
  now <- new_Date ;;
  let updateTime := zonedFormat TIME_ZONE now in
  let ls := lines stats in
  rows <- lift (map_result (render_row stats (countWidth ls)) ls) ;;
  ret (with_update_time (join nl rows) updateTime).

(** [updateGist] without a handler (lines 124-134). *)
Definition updateGist (content : jsstring) : M unit :=
  request (GistsUpdate content) (gists_update gh (GIST_ID cfg) content) ;;
  print Info "Gist updated successfully!" [].

(** Lines 20-23 guard the whole script. *)
Definition script : M Z :=
  match GIST_TOKEN cfg, GIST_ID cfg with
  | Some (String _ _), Some (String _ _) =>
    main getCommitTimes generateMarkdown updateGist
  | _, _ => print Error "Missing required env: GIST_TOKEN or GIST_ID" [] ;; ret 1
  end.

End Script.
End Part001a.

(** ** src/unnamed/part_001, second script (date-fns-tz) *)

Module Part001b.
Import JS Env Shared.
Local Open Scope js_scope.

Section Script.
Context {dates : DateLib} (gh : github) (cfg : config).

(** The body of [for (const item of items)]: [stats.total++], then the bucket. *)
Definition count_item (stats : CommitStats) (item : search_item) : CommitStats :=
  let hour := zonedHour TIME_ZONE (author_date item) in
  {| buckets := add_to (bucketOfHour hour) 1 stats; total := total stats + 1 |}.

(** The body of [for (let page = 1; page <= 10; page++)]. *)
Definition fetch_page (username : string) (since : instant) (page : Z) (stats : CommitStats)
  : M (flow CommitStats) :=
  data <- request (SearchCommits 100 page) (search_commits gh username since 100 page) ;;
  (if page =? 1
   then print Info "Search found commits in the last year" [total_count data]
   else ret tt) ;;
  let items := match items data with Some l => l | None => [] end in
  if (length items =? 0)%nat then ret (Break stats)
  else
    let stats' := fold_left count_item items stats in
    if Z.of_nat (length items) <? 100 then ret (Break stats') else ret (Next stats').

Definition getCommitTimes : M CommitStats :=
  try_catch
    (user <- request GetAuthenticated (users_getAuthenticated gh) ;;
     print Info "Authenticated as" [] ;;
     let username := username_or (GH_USERNAME cfg) (login user) in
     now <- new_Date ;;
     let since := now - 365 * 86400000 in
     stats <- for_page_upto 10 (fetch_page username since)
                {| buckets := no_commits; total := 0 |} ;;
     print Info "Counted commits"
       [total stats; morning stats; daytime stats; evening stats; night stats] ;;
     ret stats)
    (fun error => print Error "Failed to get commit data: " [] ;; throw error).

(** One element of [lines.map(...)]: the percent only feeds the bar. *)
Definition render_row (stats : CommitStats) (width : nat) (l : row) : result jsstring :=
  percent <-- getPercent stats (count l) ;;
  let col1 := emoji l ++ js " " ++ padEnd (label l) 7 in
  let col2 := padStart (NumberToString (count l)) width ++ js " commits" in
  col3 <-- getBar percent ;;
  Ok (col1 ++ js "   " ++ col2 ++ js "   " ++ col3).

Definition generateMarkdown (stats : CommitStats) : M jsstring :=
  now <- new_Date ;;
  let updateTime := zonedFormat TIME_ZONE now in
  let ls := lines stats in
  rows <- lift (map_result (render_row stats (countWidth ls)) ls) ;;
  ret (with_update_time (join nl rows) updateTime).

Definition script : M Z :=
  main getCommitTimes generateMarkdown (updateGist gh cfg).

End Script.
End Part001b.

(** ** A date library instance: Asia/Shanghai as the fixed offset UTC+8

    From 1950 on the zone is at UTC+8, with daylight saving in the summers of
    1986 to 1991 only; the instance leaves those summers out, so it is the
    zone's time at every instant from 1950 on outside them.  The properties
    below hold for every date library; the instance serves the examples,
    which are evaluated at instants of 1970. *)

Module Shanghai.
Import JS Env.

Definition two (n : Z) : jsstring := [Z.to_N (48 + n / 10); Z.to_N (48 + n mod 10)].

Definition four (n : Z) : jsstring := two (n / 100) ++ two (n mod 100).

(** Year, month and day of a day number counted from 1970-01-01. *)
Definition civil (days : Z) : Z * Z * Z :=
  let z := days + 719468 in
  let era := z / 146097 in
  let doe := z mod 146097 in
  let yoe := (doe - doe / 1460 + doe / 36524 - doe / 146096) / 365 in
  let doy := doe - (365 * yoe + yoe / 4 - yoe / 100) in
  let mp := (5 * doy + 2) / 153 in
  let d := doy - (153 * mp + 2) / 5 + 1 in
  let m := if mp <? 10 then mp + 3 else mp - 9 in
  (yoe + era * 400 + (if m <=? 2 then 1 else 0), m, d).

Definition local (t : instant) : Z := t + 8 * 3600000.

Definition hour (t : instant) : Z := (local t / 3600000) mod 24.

Definition format (t : instant) : jsstring :=
  let '(y, m, d) := civil (local t / 86400000) in
  let s := (local t / 1000) mod 86400 in
  four y ++ js "-" ++ two m ++ js "-" ++ two d ++ js " "
    ++ two (s / 3600) ++ js ":" ++ two ((s / 60) mod 60) ++ js ":" ++ two (s mod 60).

#[export] Instance dates : DateLib :=
  {| zonedHour := fun _ => hour; zonedFormat := fun _ => format |}.

End Shanghai.

(** * Properties *)

Import JS Env Shared.
Local Open Scope js_scope.

(** ** The collector: commit counts and buckets *)


Definition stats_of (m d e n t : Z) : CommitStats :=
  {| buckets := {| morning := m; daytime := d; evening := e; night := n |}; total := t |}.

Definition push (p : push_payload) (t : instant) : event :=
  {| type := "PushEvent"; payload := Some p; created_at := t |}.

Definition bucket_eqb (a b : bucket) : bool :=
  match a, b with
  | Morning, Morning | Daytime, Daytime | Evening, Evening | Night, Night => true
  | _, _ => false
  end.

Definition consistent (s : CommitStats) : Prop :=
  total s = morning s + daytime s + evening s + night s.

Definition sum_of (c : counters) : Z :=
  morning c + daytime c + evening c + night c.

Lemma sum_of_add_to b n c : sum_of (add_to b n c) = sum_of c + n.
Proof. destruct b; unfold sum_of; simpl; lia. Qed.

Lemma count_of_add_to b b' n c :
  count_of b (add_to b' n c) = if bucket_eqb b b' then count_of b c + n else count_of b c.
Proof. destruct b, b'; reflexivity. Qed.

Definition payload_size3 : push_payload :=
  {| commits := None; size := Some 3; distinct_size := None |}.





(** C2.  Every hour from 0 to 23 falls in exactly one bucket: 6..11 morning,
    12..17 daytime, 18..23 evening, 0..5 night; the chain then changes the
    counter of that bucket and no other, in the loop body of each script. *)
Theorem C2_hour_buckets (h : Z) (Hh : 0 <= h < 24) :
  (bucketOfHour h = Morning <-> 6 <= h < 12)
  /\ (bucketOfHour h = Daytime <-> 12 <= h < 18)
  /\ (bucketOfHour h = Evening <-> 18 <= h < 24)
  /\ (bucketOfHour h = Night <-> 0 <= h < 6)
  /\ (forall b n c,
        count_of b (add_to (bucketOfHour h) n c)
        = if bucket_eqb b (bucketOfHour h) then count_of b c + n else count_of b c)
  /\ (forall (dates : DateLib) e s b,
        is_PushEvent e = true -> zonedHour TIME_ZONE (created_at e) = h ->
        count_of b (UpdateGist.count_event s e)
        = if bucket_eqb b (bucketOfHour h)
          then count_of b s + UpdateGist.commitCount e else count_of b s)
  /\ (forall (dates : DateLib) e s w b,
        is_PushEvent e = true -> zonedHour TIME_ZONE (created_at e) = h ->
        exists s' w',
          Part000.count_event e s w = (Ok s', w')
          /\ count_of b (Part000.stats s')
             = if bucket_eqb b (bucketOfHour h)
               then count_of b (Part000.stats s) + Part000.commitCount e
               else count_of b (Part000.stats s))
  /\ (forall (dates : DateLib) item c b,
        zonedHour TIME_ZONE (author_date item) = h ->
        count_of b (Part001a.count_item c item)
        = if bucket_eqb b (bucketOfHour h) then count_of b c + 1 else count_of b c)
  /\ (forall (dates : DateLib) item s b,
        zonedHour TIME_ZONE (author_date item) = h ->
        count_of b (Part001b.count_item s item)
        = if bucket_eqb b (bucketOfHour h) then count_of b s + 1 else count_of b s).
Proof.
  assert (Hadd : forall b n c,
             count_of b (add_to (bucketOfHour h) n c)
             = if bucket_eqb b (bucketOfHour h) then count_of b c + n else count_of b c)
    by (intros; apply count_of_add_to).
  assert (Hrest :
    (forall (dates : DateLib) e s b,
        is_PushEvent e = true -> zonedHour TIME_ZONE (created_at e) = h ->
        count_of b (UpdateGist.count_event s e)
        = if bucket_eqb b (bucketOfHour h)
          then count_of b s + UpdateGist.commitCount e else count_of b s)
    /\ (forall (dates : DateLib) e s w b,
          is_PushEvent e = true -> zonedHour TIME_ZONE (created_at e) = h ->
          exists s' w',
            Part000.count_event e s w = (Ok s', w')
            /\ count_of b (Part000.stats s')
               = if bucket_eqb b (bucketOfHour h)
                 then count_of b (Part000.stats s) + Part000.commitCount e
                 else count_of b (Part000.stats s))
    /\ (forall (dates : DateLib) item c b,
          zonedHour TIME_ZONE (author_date item) = h ->
          count_of b (Part001a.count_item c item)
          = if bucket_eqb b (bucketOfHour h) then count_of b c + 1 else count_of b c)
    /\ (forall (dates : DateLib) item s b,
          zonedHour TIME_ZONE (author_date item) = h ->
          count_of b (Part001b.count_item s item)
          = if bucket_eqb b (bucketOfHour h) then count_of b s + 1 else count_of b s)).
  { split; [| split; [| split]].
    - intros dates e s b Hp <-. unfold UpdateGist.count_event. rewrite Hp.
      apply count_of_add_to.
    - intros dates e s w b Hp <-. unfold Part000.count_event. rewrite Hp.
      destruct (Part000.pushEventCount s + 1 <=? 3);
        unfold bind, print, ret; simpl; eexists; eexists;
        (split; [reflexivity | apply count_of_add_to]).
    - intros dates item c b <-. apply count_of_add_to.
    - intros dates item s b <-. apply count_of_add_to. }
  assert (Hclass :
    (bucketOfHour h = Morning <-> 6 <= h < 12)
    /\ (bucketOfHour h = Daytime <-> 12 <= h < 18)
    /\ (bucketOfHour h = Evening <-> 18 <= h < 24)
    /\ (bucketOfHour h = Night <-> 0 <= h < 6)).
  { clear Hadd Hrest. unfold bucketOfHour.
    destruct (Z.leb_spec 6 h), (Z.ltb_spec h 12), (Z.leb_spec 12 h),
      (Z.ltb_spec h 18), (Z.leb_spec 18 h), (Z.ltb_spec h 24); simpl;
      (split; [| split; [| split]]);
      split; intros; try lia; try discriminate; try reflexivity. }
  destruct Hclass as (Hm & Hd & He & Hn).
  split; [exact Hm |]. split; [exact Hd |]. split; [exact He |].
  split; [exact Hn |]. split; [exact Hadd | exact Hrest].
Qed.

Lemma C2_hour_buckets_witness :
  bucketOfHour 6 = Morning /\ bucketOfHour 12 = Daytime
  /\ bucketOfHour 18 = Evening /\ bucketOfHour 0 = Night.
Proof.
  pose proof (C2_hour_buckets 6 ltac:(lia)) as (H6 & _).
  pose proof (C2_hour_buckets 12 ltac:(lia)) as (_ & H12 & _).
  pose proof (C2_hour_buckets 18 ltac:(lia)) as (_ & _ & H18 & _).
  pose proof (C2_hour_buckets 0 ltac:(lia)) as (_ & _ & _ & H0 & _).
  split; [| split; [| split]]; [apply H6 | apply H12 | apply H18 | apply H0]; lia.
Defined.

(** ** Reasoning about computations *)

Lemma bind_Ok {A B} (m : M A) (k : A -> M B) w b w' :
  bind m k w = (Ok b, w') ->
  exists a w1, m w = (Ok a, w1) /\ k a w1 = (Ok b, w').
Proof.
  unfold bind. destruct (m w) as [[a | e] w1]; [eauto | discriminate].
Qed.

Lemma try_catch_print_throw_Ok {A} (body : M A) (h : exn -> M unit) w a w' :
  try_catch body (fun error => bind (h error) (fun _ => throw error)) w = (Ok a, w') ->
  body w = (Ok a, w').
Proof.
  unfold try_catch, bind, throw. destruct (body w) as [[b | e] w1]; [tauto |].
  destruct (h e w1) as [[[] | e'] w2]; discriminate.
Qed.

Ltac bind_inv H :=
  let a := fresh "a" in
  let w1 := fresh "w" in
  let E := fresh "E" in
  apply bind_Ok in H; destruct H as (a & w1 & E & H).

Lemma for_of_inv {A S} (P : S -> Prop) (body : A -> S -> M S) :
  (forall a s w s' w', P s -> body a s w = (Ok s', w') -> P s') ->
  forall l s w s' w', P s -> for_of l body s w = (Ok s', w') -> P s'.
Proof.
  intros Hbody l. induction l as [| a l IH]; simpl; intros s w s' w' Hs H.
  - inversion H; subst; assumption.
  - bind_inv H. eauto.
Qed.

Definition flow_state {S} (r : flow S) : S :=
  match r with Next s | Break s => s end.

Lemma for_pages_inv {S} (P : S -> Prop) (body : Z -> S -> M (flow S)) :
  (forall page s w r w', P s -> body page s w = (Ok r, w') -> P (flow_state r)) ->
  forall fuel page s w s' w', P s -> for_pages fuel page body s w = (Ok s', w') -> P s'.
Proof.
  intros Hbody fuel. induction fuel as [| fuel IH]; simpl; intros page s w s' w' Hs H.
  - inversion H; subst; assumption.
  - bind_inv H. apply Hbody in E; [| assumption].
    destruct a as [s1 | s1]; simpl in E.
    + eauto.
    + inversion H; subst; assumption.
Qed.

Lemma fold_left_inv {A S} (P : S -> Prop) (f : S -> A -> S) :
  (forall s a, P s -> P (f s a)) -> forall l s, P s -> P (fold_left f l s).
Proof. intros Hf l. induction l; simpl; auto. Qed.

(** ** The collector: what every returned CommitStats satisfies *)

(** [stats.total += n] together with [stats.<bucket> += n]: what each script
    does for a record that counts [n]. *)
Definition bump (b : bucket) (n : Z) (s : CommitStats) : CommitStats :=
  {| buckets := add_to b n s; total := total s + n |}.

(** No bucket is negative and the total is their sum. *)
Definition within_total (s : CommitStats) : Prop :=
  0 <= morning s /\ 0 <= daytime s /\ 0 <= evening s /\ 0 <= night s /\ consistent s.

Lemma for_of_inv_In {A S} (P : S -> Prop) (body : A -> S -> M S) (l : list A) :
  (forall a s w s' w', In a l -> P s -> body a s w = (Ok s', w') -> P s') ->
  forall s w s' w', P s -> for_of l body s w = (Ok s', w') -> P s'.
Proof.
  induction l as [| a l IH]; simpl; intros Hbody s w s' w' Hs H.
  - inversion H; subst; assumption.
  - bind_inv H. eapply IH; [| | exact H].
    + intros; eapply Hbody; eauto.
    + eapply Hbody; eauto.
Qed.

Section Collector.
Context {dates : DateLib} (gh : github) (cfg : config).

(** A property [P] of CommitStats that holds at the start and is kept
    whenever a count satisfying [Q] is added to a bucket and to the total;
    list lengths satisfy [Q]. *)
Variable P : CommitStats -> Prop.
Variable Q : Z -> Prop.
Hypothesis P_start : P {| buckets := no_commits; total := 0 |}.
Hypothesis P_bump : forall b n s, Q n -> P s -> P (bump b n s).
Hypothesis Q_length : forall k : nat, Q (Z.of_nat k).

Lemma UpdateGist_collects w s w' :
  UpdateGist.getCommitTimes gh cfg w = (Ok s, w') -> P s.
Proof.
  unfold UpdateGist.getCommitTimes. intros H.
  apply try_catch_print_throw_Ok in H. bind_inv H. inversion H; subst.
  apply fold_left_inv; [| exact P_start].
  intros s e Hs. unfold UpdateGist.count_event.
  destruct (is_PushEvent e); [| exact Hs].
  apply (P_bump _ _ s); [| exact Hs].
  unfold UpdateGist.commitCount.
  destruct (payload e) as [p |]; [destruct (commits p) |];
    first [apply Q_length | apply (Q_length 0)].
Qed.

(** In part_000 the count may come from the size fields of the payload: [Q]
    has to hold for the counts of the push events the API answers with. *)
Lemma Part000_collects w s w' :
  (forall u page events e,
      listEventsForAuthenticatedUser gh u 100 page = Ok events ->
      In e events -> is_PushEvent e = true -> Q (Part000.commitCount e)) ->
  Part000.getCommitTimes gh cfg w = (Ok s, w') -> P s.
Proof.
  intros Hapi. unfold Part000.getCommitTimes. intros H.
  match type of H with
  | try_catch ?body _ _ = _ => assert (Hb : body w = (Ok s, w'))
  end.
  { revert H. unfold try_catch.
    match goal with |- context [match ?b with _ => _ end] =>
      destruct b as [[b1 | e] w1] eqn:Eb end; [tauto |].
    intros H. bind_inv H. bind_inv H. discriminate. }
  clear H. do 5 bind_inv Hb. inversion Hb; subst.
  match goal with
  | Hloop : for_page_upto _ _ _ _ = _ |- _ =>
    unfold for_page_upto in Hloop;
    eapply (for_pages_inv (fun p => P (Part000.stats p))) in Hloop;
      [exact Hloop | | exact P_start]
  end.
  intros page s0 wa r wb Hs Hp. unfold Part000.fetch_page in Hp.
  do 2 bind_inv Hp.
  match goal with
  | Hreq : request _ ?ans _ = (Ok ?evs, _) |- _ =>
    assert (Hans : ans = Ok evs) by (unfold request in Hreq; congruence)
  end.
  destruct (_ =? _)%nat in Hp.
  - inversion Hp; subst; assumption.
  - bind_inv Hp. inversion Hp; subst; simpl.
    match goal with
    | Hfor : for_of _ _ _ _ = _ |- _ =>
      eapply (for_of_inv_In (fun p => P (Part000.stats p))) in Hfor;
        [exact Hfor | | exact Hs]
    end.
    intros e p wc p' wd Hin Hcons Hstep. unfold Part000.count_event in Hstep.
    destruct (is_PushEvent e) eqn:Epush.
    + bind_inv Hstep. inversion Hstep; subst; simpl.
      apply (P_bump _ _ (Part000.stats p)); [| exact Hcons].
      eapply Hapi; eassumption.
    + inversion Hstep; subst. exact Hcons.
Qed.

Lemma Part001a_collects w s w' :
  Part001a.getCommitTimes gh cfg w = (Ok s, w') -> P s.
Proof.
  unfold Part001a.getCommitTimes. intros H.
  do 5 bind_inv H. inversion H; subst.
  match goal with
  | Hloop : for_page_upto _ _ _ _ = _ |- _ =>
    unfold for_page_upto in Hloop;
    eapply (for_pages_inv (fun c => P {| buckets := c; total := sum_of c |})) in Hloop;
      [exact Hloop | | exact P_start]
  end.
  intros page c wa r wb Hc Hp. unfold Part001a.fetch_page in Hp.
  do 2 bind_inv Hp.
  assert (Hfold : forall l, P {| buckets := fold_left Part001a.count_item l c;
                                 total := sum_of (fold_left Part001a.count_item l c) |}).
  { intros l. apply (fold_left_inv (fun c => P {| buckets := c; total := sum_of c |}));
      [| exact Hc].
    intros c0 i H0. unfold Part001a.count_item. rewrite sum_of_add_to.
    apply (P_bump _ 1 {| buckets := c0; total := sum_of c0 |}); [apply (Q_length 1) | exact H0]. }
  destruct (_ =? _)%nat in Hp.
  - inversion Hp; subst; assumption.
  - destruct (_ <? Part001a.PER_PAGE) in Hp; inversion Hp; subst; apply Hfold.
Qed.

Lemma Part001b_collects w s w' :
  Part001b.getCommitTimes gh cfg w = (Ok s, w') -> P s.
Proof.
  unfold Part001b.getCommitTimes. intros H.
  apply try_catch_print_throw_Ok in H. do 5 bind_inv H. inversion H; subst.
  match goal with
  | Hloop : for_page_upto _ _ _ _ = _ |- _ =>
    unfold for_page_upto in Hloop;
    eapply (for_pages_inv P) in Hloop; [exact Hloop | | exact P_start]
  end.
  intros page s0 wa r wb Hs Hp. unfold Part001b.fetch_page in Hp.
  do 2 bind_inv Hp.
  assert (Hfold : forall l, P (fold_left Part001b.count_item l s0)).
  { intros l. apply fold_left_inv; [| exact Hs].
    intros s1 i H1. apply (P_bump _ 1 s1); [apply (Q_length 1) | exact H1]. }
  destruct (_ =? _)%nat in Hp.
  - inversion Hp; subst; assumption.
  - destruct (_ <? 100) in Hp; inversion Hp; subst; apply Hfold.
Qed.

End Collector.

Lemma consistent_bump b n s : consistent s -> consistent (bump b n s).
Proof.
  unfold consistent. intros H. change (total (bump b n s) = sum_of (add_to b n s)).
  rewrite sum_of_add_to. unfold sum_of. simpl. lia.
Qed.

Lemma within_total_bump b n s : 0 <= n -> within_total s -> within_total (bump b n s).
Proof.
  intros Hn (H1 & H2 & H3 & H4 & Hc). unfold within_total.
  pose proof (consistent_bump b n s Hc) as Hc'.
  destruct b; simpl; repeat split; try lia; exact Hc'.
Qed.

Lemma within_total_counts s b : within_total s -> 0 <= count_of b s <= total s.
Proof.
  intros (H1 & H2 & H3 & H4 & Hc). unfold consistent in Hc. destruct b; simpl; lia.
Qed.

(** A run against an API with one page of three events. *)
Definition sample_events : list event :=
  [ push {| commits := Some [ {| sha := "a1" |}; {| sha := "b2" |} ];
            size := Some 2; distinct_size := Some 2 |} 0;
    push payload_size3 (5 * 3600000);
    {| type := "WatchEvent"; payload := None; created_at := 0 |} ].

Definition sample_github : github :=
  {| users_getAuthenticated := Ok {| login := "octocat" |};
     listPublicEventsForUser := fun _ _ => Ok sample_events;
     listEventsForAuthenticatedUser :=
       fun _ _ page => if page =? 1 then Ok sample_events else Ok [];
     search_commits :=
       fun _ _ _ page =>
         Ok {| total_count := 2;
               items := if page =? 1
                        then Some [ {| author_date := 0 |}; {| author_date := 36000000 |} ]
                        else Some [] |};
     gists_update := fun _ _ => Ok tt |}.

Definition sample_config : config :=
  {| GIST_TOKEN := Some "token"%string; GIST_ID := Some "gist"%string;
     GH_USERNAME := None |}.

Definition sample_world : world := {| clock := 0; calls := []; console := [] |}.

(** The size fields the API answers with are not negative. *)
Definition sizes_not_negative (gh : github) : Prop :=
  forall u page events e p,
    listEventsForAuthenticatedUser gh u 100 page = Ok events ->
    In e events -> payload e = Some p ->
    (forall n, size p = Some n -> 0 <= n) /\ (forall n, distinct_size p = Some n -> 0 <= n).

Lemma or_else_not_negative a b :
  (forall n, a = Some n -> 0 <= n) -> 0 <= b -> 0 <= or_else a b.
Proof.
  intros Ha Hb. unfold or_else. destruct a as [n |]; [| exact Hb].
  destruct (n =? 0); [exact Hb | apply Ha; reflexivity].
Qed.

Lemma Part000_commitCount_not_negative e :
  (forall p, payload e = Some p ->
     (forall n, size p = Some n -> 0 <= n) /\ (forall n, distinct_size p = Some n -> 0 <= n)) ->
  0 <= Part000.commitCount e.
Proof.
  intros H. unfold Part000.commitCount. destruct (payload e) as [p |].
  - destruct (H p eq_refl) as (Hs & Hd).
    destruct (commits p) as [[| c l] |]; try lia;
      apply or_else_not_negative; try assumption;
      apply or_else_not_negative; try assumption; lia.
  - simpl. lia.
Qed.

(** Every CommitStats a collector returns has each bucket between 0 and the
    total. *)
Lemma collected_within_total
    (dates : DateLib) (gh : github) (cfg : config) (w w' : world) (s : CommitStats) :
  sizes_not_negative gh ->
  UpdateGist.getCommitTimes gh cfg w = (Ok s, w')
  \/ Part000.getCommitTimes gh cfg w = (Ok s, w')
  \/ Part001a.getCommitTimes gh cfg w = (Ok s, w')
  \/ Part001b.getCommitTimes gh cfg w = (Ok s, w') ->
  within_total s.
Proof.
  intros Hsizes H.
  assert (H0 : within_total {| buckets := no_commits; total := 0 |})
    by (unfold within_total, consistent; simpl; lia).
  assert (Hb : forall b n s0, 0 <= n -> within_total s0 -> within_total (bump b n s0))
    by (intros; apply within_total_bump; assumption).
  assert (Hl : forall k : nat, 0 <= Z.of_nat k) by (intros; lia).
  destruct H as [H | [H | [H | H]]].
  - exact (UpdateGist_collects gh cfg within_total (fun n => 0 <= n) H0 Hb Hl _ _ _ H).
  - apply (Part000_collects gh cfg within_total (fun n => 0 <= n) H0 Hb _ _ _) in H;
      [exact H |].
    intros u page events e Hans Hin _. apply Part000_commitCount_not_negative.
    intros p Hp. exact (Hsizes u page events e p Hans Hin Hp).
  - exact (Part001a_collects gh cfg within_total (fun n => 0 <= n) H0 Hb Hl _ _ _ H).
  - exact (Part001b_collects gh cfg within_total (fun n => 0 <= n) H0 Hb Hl _ _ _ H).
Qed.

(** ** The collector: which pages are requested *)

(** A computation that sends no request. *)
Definition quiet {A} (m : M A) : Prop := forall w, calls (snd (m w)) = calls w.

Lemma quiet_ret {A} (a : A) : quiet (ret a).
Proof. intros w; reflexivity. Qed.

Lemma quiet_throw {A} (e : exn) : quiet (@throw A e).
Proof. intros w; reflexivity. Qed.

Lemma quiet_print l t a : quiet (print l t a).
Proof. intros w; reflexivity. Qed.

Lemma quiet_new_Date : quiet new_Date.
Proof. intros w; reflexivity. Qed.

Lemma quiet_bind {A B} (m : M A) (k : A -> M B) :
  quiet m -> (forall a, quiet (k a)) -> quiet (bind m k).
Proof.
  intros Hm Hk w. unfold bind. specialize (Hm w).
  destruct (m w) as [[a | e] w1]; simpl in *; [rewrite Hk |]; assumption.
Qed.

Lemma quiet_for_of {A S} (body : A -> S -> M S) (l : list A) :
  (forall a s, quiet (body a s)) -> forall s, quiet (for_of l body s).
Proof.
  intros Hbody. induction l as [| a l IH]; intros s; simpl.
  - apply quiet_ret.
  - apply quiet_bind; auto.
Qed.

Lemma quiet_try_catch {A} (body : M A) (h : exn -> M A) w :
  (forall e, quiet (h e)) ->
  calls (snd (try_catch body h w)) = calls (snd (body w)).
Proof.
  intros Hh. unfold try_catch. destruct (body w) as [[a | e] w1]; simpl; [reflexivity |].
  apply Hh.
Qed.

Create HintDb quiet.
Create HintDb returns.
#[local] Hint Resolve quiet_ret quiet_throw quiet_print quiet_new_Date : quiet.

Ltac quiet :=
  repeat first
    [ apply quiet_bind; [| intros ?]
    | apply quiet_for_of; intros ? ?
    | solve [auto with quiet]
    | match goal with
      | |- quiet (if ?b then _ else _) => destruct b
      | |- quiet (match ?x with _ => _ end) => destruct x
      end ].

(** One request, then none. *)
Lemma calls_request_bind {A B} (c : call) (ans : result A) (k : A -> M B) w :
  (forall a, quiet (k a)) ->
  calls (snd (bind (request c ans) k w)) = calls w ++ [c].
Proof.
  intros Hk. unfold bind, request. destruct ans as [a | e]; simpl; [| reflexivity].
  rewrite Hk. reflexivity.
Qed.

(** The pages [first .. first + k - 1]. *)
Definition pages_from (first : Z) (k : nat) : list Z :=
  map (fun i => first + Z.of_nat i) (seq 0 k).

Lemma pages_from_S first k : pages_from first (S k) = first :: pages_from (first + 1) k.
Proof.
  unfold pages_from. simpl. rewrite Z.add_0_r. f_equal.
  rewrite <- seq_shift, map_map. apply map_ext. intros i. lia.
Qed.

(** The page loop sends one request per page it visits, for consecutive pages,
    and visits no page after one whose body does not ask for the next. *)
Lemma for_pages_calls {St} (body : Z -> St -> M (flow St)) (mk : Z -> call)
    (halts : Z -> Prop) :
  (forall page s w, calls (snd (body page s w)) = calls w ++ [mk page]) ->
  (forall page s w s' w', halts page -> body page s w <> (Ok (Next s'), w')) ->
  forall fuel page s w,
  exists k, (k <= fuel)%nat
    /\ calls (snd (for_pages fuel page body s w)) = calls w ++ map mk (pages_from page k)
    /\ forall j, (j < fuel)%nat -> halts (page + Z.of_nat j) -> (k <= S j)%nat.
Proof.
  intros Hcalls Hhalt fuel. induction fuel as [| fuel IH]; intros page s w.
  - exists O. simpl. rewrite app_nil_r. repeat split; [lia | intros; lia].
  - simpl. unfold bind. pose proof (Hcalls page s w) as Hc.
    destruct (body page s w) as [[[s1 | s1] | e] w1] eqn:Eb; simpl in Hc.
    + destruct (IH (page + 1) s1 w1) as (k & Hk & Hcs & Hstop).
      exists (S k). split; [lia |]. split.
      * rewrite Hcs, Hc, pages_from_S, <- app_assoc. reflexivity.
      * intros [| j] Hj Hh.
        -- exfalso. rewrite Z.add_0_r in Hh. exact (Hhalt _ _ _ _ _ Hh Eb).
        -- apply le_n_S, Hstop; [lia |].
           replace (page + 1 + Z.of_nat j) with (page + Z.of_nat (S j)) by lia.
           exact Hh.
    + exists 1%nat. simpl. rewrite Z.add_0_r.
      repeat split; [lia | assumption | intros; lia].
    + exists 1%nat. simpl. rewrite Z.add_0_r.
      repeat split; [lia | assumption | intros; lia].
Qed.

Definition items_or_empty (d : search_data) : list search_item :=
  match items d with Some l => l | None => [] end.

(** A search answer with fewer records than the page size (none included). *)
Definition short_batch (r : result search_data) (per_page : Z) : Prop :=
  exists d, r = Ok d /\ Z.of_nat (length (items_or_empty d)) < per_page.

Section Pagination.
Context {dates : DateLib} (gh : github) (cfg : config).

Lemma Part000_fetch_page_calls u page s w :
  calls (snd (Part000.fetch_page gh u page s w)) = calls w ++ [ListEvents 100 page].
Proof.
  unfold Part000.fetch_page. apply calls_request_bind. intros events.
  unfold Part000.count_event. quiet.
Qed.

Lemma Part000_fetch_page_halts u page s w s' w' :
  (forall u, listEventsForAuthenticatedUser gh u 100 page = Ok []) ->
  Part000.fetch_page gh u page s w <> (Ok (Next s'), w').
Proof.
  intros Hempty. unfold Part000.fetch_page, bind, request, print, ret.
  rewrite Hempty. simpl. discriminate.
Qed.

Lemma Part001a_fetch_page_calls u since page s w :
  calls (snd (Part001a.fetch_page gh u since page s w))
  = calls w ++ [SearchCommits 100 page].
Proof.
  unfold Part001a.fetch_page. apply calls_request_bind. intros data. quiet.
Qed.

Lemma Part001a_fetch_page_halts u since page s w s' w' :
  (forall u since, short_batch (search_commits gh u since 100 page) 100) ->
  Part001a.fetch_page gh u since page s w <> (Ok (Next s'), w').
Proof.
  intros Hshort H. destruct (Hshort u since) as (d & Hd & Hlen).
  unfold Part001a.fetch_page, Part001a.PER_PAGE in H. do 2 bind_inv H.
  match goal with
  | Hreq : request _ _ _ = (Ok ?x, _) |- _ =>
    unfold request in Hreq; rewrite Hd in Hreq;
    assert (Hx : x = d) by (inversion Hreq; reflexivity); subst x
  end.
  fold (items_or_empty d) in H.
  destruct (_ =? _)%nat in H; [discriminate |].
  destruct (Z.ltb_spec (Z.of_nat (length (items_or_empty d))) 100); [discriminate | lia].
Qed.

Lemma Part001b_fetch_page_calls u since page s w :
  calls (snd (Part001b.fetch_page gh u since page s w))
  = calls w ++ [SearchCommits 100 page].
Proof.
  unfold Part001b.fetch_page. apply calls_request_bind. intros data. quiet.
Qed.

Lemma Part001b_fetch_page_halts u since page s w s' w' :
  (forall u since, short_batch (search_commits gh u since 100 page) 100) ->
  Part001b.fetch_page gh u since page s w <> (Ok (Next s'), w').
Proof.
  intros Hshort H. destruct (Hshort u since) as (d & Hd & Hlen).
  unfold Part001b.fetch_page in H. do 2 bind_inv H.
  match goal with
  | Hreq : request _ _ _ = (Ok ?x, _) |- _ =>
    unfold request in Hreq; rewrite Hd in Hreq;
    assert (Hx : x = d) by (inversion Hreq; reflexivity); subst x
  end.
  fold (items_or_empty d) in H.
  destruct (_ =? _)%nat in H; [discriminate |].
  destruct (Z.ltb_spec (Z.of_nat (length (items_or_empty d))) 100); [discriminate | lia].
Qed.

Lemma calls_bind_quiet {A B} (m : M A) (k : A -> M B) w :
  (forall a, quiet (k a)) -> calls (snd (bind m k w)) = calls (snd (m w)).
Proof.
  intros Hk. unfold bind. destruct (m w) as [[a | e] w1]; simpl; [apply Hk | reflexivity].
Qed.

Lemma for_page_upto_calls {St} (body : Z -> St -> M (flow St)) (mk : Z -> call)
    (halts : Z -> Prop) (last : Z) (init : St) w :
  (forall page s w, calls (snd (body page s w)) = calls w ++ [mk page]) ->
  (forall page s w s' w', halts page -> body page s w <> (Ok (Next s'), w')) ->
  exists k, (k <= Z.to_nat last)%nat
    /\ calls (snd (for_page_upto last body init w)) = calls w ++ map mk (pages_from 1 k)
    /\ forall p, (1 <= p)%nat -> halts (Z.of_nat p) -> (k <= p)%nat.
Proof.
  intros Hcalls Hhalt. unfold for_page_upto.
  destruct (for_pages_calls body mk halts Hcalls Hhalt (Z.to_nat last) 1 init w)
    as (k & Hk & Hcs & Hstop).
  exists k. split; [exact Hk |]. split; [exact Hcs |].
  intros p Hp Hh. destruct (Nat.lt_ge_cases (p - 1) (Z.to_nat last)) as [Hlt | Hge].
  - replace p with (Datatypes.S (p - 1)) by lia. apply Hstop; [exact Hlt |].
    replace (1 + Z.of_nat (p - 1)) with (Z.of_nat p) by lia. exact Hh.
  - lia.
Qed.

(** After the authentication request, the page loop is all that sends
    requests. *)
Ltac after_authentication :=
  unfold bind at 1, request;
  destruct (users_getAuthenticated gh) as [user | e]; simpl;
  [ | exists O; split; [lia |]; split; [reflexivity | intros; lia] ].

Ltac loop_calls Hloop :=
  destruct Hloop as (k & Hk & Hcs & Hstop);
  exists k; split; [exact Hk |]; split;
  [ rewrite Hcs; simpl; rewrite <- app_assoc; reflexivity | exact Hstop ].

Lemma Part000_calls w :
  exists k, (k <= 3)%nat
    /\ calls (snd (Part000.getCommitTimes gh cfg w))
       = calls w ++ GetAuthenticated :: map (ListEvents 100) (pages_from 1 k)
    /\ forall p, (1 <= p)%nat ->
         (forall u, listEventsForAuthenticatedUser gh u 100 (Z.of_nat p) = Ok []) ->
         (k <= p)%nat.
Proof.
  unfold Part000.getCommitTimes. rewrite quiet_try_catch by (intros e; quiet).
  after_authentication.
  unfold bind at 1, print at 1. simpl.
  rewrite calls_bind_quiet by (intros s; quiet).
  match goal with
  | |- context [for_page_upto ?n ?b ?i ?w1] =>
    pose proof (for_page_upto_calls b (ListEvents 100)
                  (fun page => forall u, listEventsForAuthenticatedUser gh u 100 page = Ok [])
                  n i w1
                  ltac:(intros; apply Part000_fetch_page_calls)
                  ltac:(intros; apply Part000_fetch_page_halts; assumption)) as Hloop
  end.
  loop_calls Hloop.
Qed.

Lemma Part001a_calls w :
  exists k, (k <= 10)%nat
    /\ calls (snd (Part001a.getCommitTimes gh cfg w))
       = calls w ++ GetAuthenticated :: map (SearchCommits 100) (pages_from 1 k)
    /\ forall p, (1 <= p)%nat ->
         (forall u since, short_batch (search_commits gh u since 100 (Z.of_nat p)) 100) ->
         (k <= p)%nat.
Proof.
  unfold Part001a.getCommitTimes.
  after_authentication.
  unfold bind at 1, print at 1. simpl. unfold bind at 1, new_Date at 1. simpl.
  rewrite calls_bind_quiet by (intros s; quiet).
  match goal with
  | |- context [for_page_upto ?n ?b ?i ?w1] =>
    pose proof (for_page_upto_calls b (SearchCommits 100)
                  (fun page => forall u since,
                       short_batch (search_commits gh u since 100 page) 100)
                  n i w1
                  ltac:(intros; apply Part001a_fetch_page_calls)
                  ltac:(intros; apply Part001a_fetch_page_halts; assumption)) as Hloop
  end.
  loop_calls Hloop.
Qed.

Lemma Part001b_calls w :
  exists k, (k <= 10)%nat
    /\ calls (snd (Part001b.getCommitTimes gh cfg w))
       = calls w ++ GetAuthenticated :: map (SearchCommits 100) (pages_from 1 k)
    /\ forall p, (1 <= p)%nat ->
         (forall u since, short_batch (search_commits gh u since 100 (Z.of_nat p)) 100) ->
         (k <= p)%nat.
Proof.
  unfold Part001b.getCommitTimes. rewrite quiet_try_catch by (intros e; quiet).
  after_authentication.
  unfold bind at 1, print at 1. simpl. unfold bind at 1, new_Date at 1. simpl.
  rewrite calls_bind_quiet by (intros s; quiet).
  match goal with
  | |- context [for_page_upto ?n ?b ?i ?w1] =>
    pose proof (for_page_upto_calls b (SearchCommits 100)
                  (fun page => forall u since,
                       short_batch (search_commits gh u since 100 page) 100)
                  n i w1
                  ltac:(intros; apply Part001b_fetch_page_calls)
                  ltac:(intros; apply Part001b_fetch_page_halts; assumption)) as Hloop
  end.
  loop_calls Hloop.
Qed.

Lemma UpdateGist_calls w :
  calls (snd (UpdateGist.getCommitTimes gh cfg w)) = calls w ++ [ListPublicEvents 100].
Proof.
  unfold UpdateGist.getCommitTimes. rewrite quiet_try_catch by (intros e; quiet).
  apply calls_request_bind. intros events. quiet.
Qed.

End Pagination.

(** *** Every run ends, with a result when no request is rejected *)

(** The API rejects no request. *)
Definition answers_all (gh : github) : Prop :=
  (exists u, users_getAuthenticated gh = Ok u)
  /\ (forall u pp, exists events, listPublicEventsForUser gh u pp = Ok events)
  /\ (forall u pp page, exists events,
        listEventsForAuthenticatedUser gh u pp page = Ok events)
  /\ (forall u since pp page, exists data, search_commits gh u since pp page = Ok data).

Definition returns {A} (m : M A) : Prop := forall w, exists a w', m w = (Ok a, w').

Lemma returns_ret {A} (a : A) : returns (ret a).
Proof. intros w. exists a, w. reflexivity. Qed.

Lemma returns_print l t a : returns (print l t a).
Proof. intros w. eexists. eexists. reflexivity. Qed.

Lemma returns_new_Date : returns new_Date.
Proof. intros w. eexists. eexists. reflexivity. Qed.

Lemma returns_request {A} c (a : A) : returns (request c (Ok a)).
Proof. intros w. eexists. eexists. reflexivity. Qed.

Lemma returns_bind {A B} (m : M A) (k : A -> M B) :
  returns m -> (forall a, returns (k a)) -> returns (bind m k).
Proof.
  intros Hm Hk w. destruct (Hm w) as (a & w1 & E). destruct (Hk a w1) as (b & w2 & E').
  exists b, w2. unfold bind. rewrite E. exact E'.
Qed.

Lemma returns_for_of {A S} (body : A -> S -> M S) (l : list A) :
  (forall a s, returns (body a s)) -> forall s, returns (for_of l body s).
Proof.
  intros Hbody. induction l as [| a l IH]; intros s; simpl.
  - apply returns_ret.
  - apply returns_bind; auto.
Qed.

Lemma returns_for_pages {S} (body : Z -> S -> M (flow S)) :
  (forall page s, returns (body page s)) ->
  forall fuel page s, returns (for_pages fuel page body s).
Proof.
  intros Hbody fuel. induction fuel as [| fuel IH]; intros page s; simpl.
  - apply returns_ret.
  - apply returns_bind; [apply Hbody |]. intros [s' | s']; [apply IH | apply returns_ret].
Qed.

Lemma returns_try_catch {A} (body : M A) (h : exn -> M A) :
  returns body -> returns (try_catch body h).
Proof.
  intros Hb w. destruct (Hb w) as (a & w' & E). exists a, w'.
  unfold try_catch. rewrite E. reflexivity.
Qed.

#[local] Hint Resolve returns_ret returns_print returns_new_Date returns_request : returns.

Ltac returns :=
  repeat match goal with
         | |- returns (try_catch _ _) => apply returns_try_catch
         | |- returns (bind _ _) => apply returns_bind; [| intros ?]
         | |- returns (for_of _ _ _) => apply returns_for_of; intros ? ?
         | |- returns (for_page_upto _ _ _) =>
           unfold for_page_upto; apply returns_for_pages; intros ? ?
         | |- returns (if ?b then _ else _) => destruct b
         | |- returns _ => solve [auto with returns]
         end.

Lemma collectors_return (dates : DateLib) (gh : github) (cfg : config) :
  answers_all gh ->
  returns (UpdateGist.getCommitTimes gh cfg)
  /\ returns (Part000.getCommitTimes gh cfg)
  /\ returns (Part001a.getCommitTimes gh cfg)
  /\ returns (Part001b.getCommitTimes gh cfg).
Proof.
  intros ((u & Hu) & Hpub & Hev & Hsearch).
  split; [| split; [| split]].
  - unfold UpdateGist.getCommitTimes.
    destruct (Hpub (GH_USERNAME cfg) 100) as (events & ->). returns.
  - unfold Part000.getCommitTimes, Part000.fetch_page, Part000.count_event.
    rewrite Hu. returns.
    match goal with
    | |- returns (request _ (listEventsForAuthenticatedUser _ ?a ?b ?c)) =>
      destruct (Hev a b c) as (events & ->)
    end.
    returns.
  - unfold Part001a.getCommitTimes, Part001a.fetch_page.
    rewrite Hu. returns.
    match goal with
    | |- returns (request _ (search_commits _ ?a ?b ?c ?d)) =>
      destruct (Hsearch a b c d) as (data & ->)
    end.
    returns.
  - unfold Part001b.getCommitTimes, Part001b.fetch_page.
    rewrite Hu. returns.
    match goal with
    | |- returns (request _ (search_commits _ ?a ?b ?c ?d)) =>
      destruct (Hsearch a b c d) as (data & ->)
    end.
    returns.
Qed.

(** The page loop sends one request per page it visits, for consecutive
    pages; it visits no page after one that halts it, and it leaves pages
    unvisited only after a page that stops it. *)
Lemma for_pages_requests {St} (body : Z -> St -> M (flow St)) (mk : Z -> call)
    (halts stops : Z -> Prop) :
  (forall page s w, calls (snd (body page s w)) = calls w ++ [mk page]) ->
  (forall page s w s' w', halts page -> body page s w <> (Ok (Next s'), w')) ->
  (forall page s w, (exists s' w', body page s w = (Ok (Next s'), w')) \/ stops page) ->
  forall fuel page s w,
  exists k, (k <= fuel)%nat /\ (0 < fuel -> 0 < k)%nat
    /\ calls (snd (for_pages fuel page body s w)) = calls w ++ map mk (pages_from page k)
    /\ (forall j, (j < fuel)%nat -> halts (page + Z.of_nat j) -> (k <= S j)%nat)
    /\ ((k < fuel)%nat -> stops (page + Z.of_nat k - 1)).
Proof.
  intros Hcalls Hhalt Hstop fuel. induction fuel as [| fuel IH]; intros page s w.
  - exists O. simpl. rewrite app_nil_r. repeat split; intros; lia.
  - simpl. unfold bind. pose proof (Hcalls page s w) as Hc.
    pose proof (Hstop page s w) as Hs.
    destruct (body page s w) as [[[s1 | s1] | e] w1] eqn:Eb; simpl in Hc.
    + destruct (IH (page + 1) s1 w1) as (k & Hk & _ & Hcs & Hearly & Hlate).
      exists (S k). split; [lia |]. split; [lia |]. split; [| split].
      * rewrite Hcs, Hc, pages_from_S, <- app_assoc. reflexivity.
      * intros [| j] Hj Hh.
        -- exfalso. rewrite Z.add_0_r in Hh. exact (Hhalt _ _ _ _ _ Hh Eb).
        -- apply le_n_S, Hearly; [lia |].
           replace (page + 1 + Z.of_nat j) with (page + Z.of_nat (S j)) by lia.
           exact Hh.
      * intros Hlt.
        replace (page + Z.of_nat (S k) - 1) with (page + 1 + Z.of_nat k - 1) by lia.
        apply Hlate. lia.
    + exists 1%nat. simpl. rewrite Z.add_0_r.
      split; [lia |]. split; [lia |]. split; [exact Hc |]. split; [intros; lia |].
      intros _. replace (page + 1 - 1) with page by lia.
      destruct Hs as [(s' & w' & Hn) | Hs]; [discriminate | exact Hs].
    + exists 1%nat. simpl. rewrite Z.add_0_r.
      split; [lia |]. split; [lia |]. split; [exact Hc |]. split; [intros; lia |].
      intros _. replace (page + 1 - 1) with page by lia.
      destruct Hs as [(s' & w' & Hn) | Hs]; [discriminate | exact Hs].
Qed.

(** An answer that ends the loop of part_000: no event, or a rejection. *)
Definition no_events (r : result (list event)) : Prop :=
  r = Ok [] \/ exists e, r = Throw e.

(** An answer that ends the loop of part_001: fewer records than the page
    size, none included, or a rejection. *)
Definition short_or_rejected (r : result search_data) : Prop :=
  short_batch r 100 \/ exists e, r = Throw e.

Section Requests.
Context {dates : DateLib} (gh : github) (cfg : config).

Lemma Part000_fetch_page_halts_for u page s w s' w' :
  listEventsForAuthenticatedUser gh u 100 page = Ok [] ->
  Part000.fetch_page gh u page s w <> (Ok (Next s'), w').
Proof.
  intros Hempty. unfold Part000.fetch_page, bind, request, print, ret.
  rewrite Hempty. simpl. discriminate.
Qed.

Lemma Part000_fetch_page_goes_on u page s w :
  (exists s' w', Part000.fetch_page gh u page s w = (Ok (Next s'), w'))
  \/ no_events (listEventsForAuthenticatedUser gh u 100 page).
Proof.
  unfold Part000.fetch_page, no_events.
  destruct (listEventsForAuthenticatedUser gh u 100 page) as [[| e events] | err];
    [right; left; reflexivity | | right; right; eauto].
  left. unfold bind at 1, request. unfold bind at 1, print at 1.
  cbn [length Nat.eqb].
  match goal with
  | |- context [bind (for_of ?l ?b ?i) _ ?w0] =>
    assert (Hret : returns (for_of l b i))
  end.
  { unfold Part000.count_event. returns. }
  match goal with
  | |- context [bind (for_of ?l ?b ?i) _ ?w0] => destruct (Hret w0) as (s1 & w1 & E)
  end.
  exists s1, w1. unfold bind. rewrite E. reflexivity.
Qed.

Lemma Part001a_fetch_page_halts_for u since page s w s' w' :
  short_batch (search_commits gh u since 100 page) 100 ->
  Part001a.fetch_page gh u since page s w <> (Ok (Next s'), w').
Proof.
  intros (d & Hd & Hlen) H.
  unfold Part001a.fetch_page, Part001a.PER_PAGE in H. do 2 bind_inv H.
  match goal with
  | Hreq : request _ _ _ = (Ok ?x, _) |- _ =>
    unfold request in Hreq; rewrite Hd in Hreq;
    assert (Hx : x = d) by (inversion Hreq; reflexivity); subst x
  end.
  fold (items_or_empty d) in H.
  destruct (_ =? _)%nat in H; [discriminate |].
  destruct (Z.ltb_spec (Z.of_nat (length (items_or_empty d))) 100); [discriminate | lia].
Qed.

Lemma Part001a_fetch_page_goes_on u since page s w :
  (exists s' w', Part001a.fetch_page gh u since page s w = (Ok (Next s'), w'))
  \/ short_or_rejected (search_commits gh u since 100 page).
Proof.
  unfold Part001a.fetch_page, Part001a.PER_PAGE, short_or_rejected, short_batch.
  destruct (search_commits gh u since 100 page) as [d | err]; [| right; right; eauto].
  destruct (Z.ltb_spec (Z.of_nat (length (items_or_empty d))) 100) as [Hlt | Hge];
    [right; left; eauto |].
  left. unfold bind at 1, request.
  match goal with
  | |- context [bind ?m _ ?w0] =>
    assert (Hret : returns m) by returns; destruct (Hret w0) as ([] & w1 & E);
    unfold bind at 1; rewrite E
  end.
  cbv zeta. fold (items_or_empty d).
  destruct (Nat.eqb_spec (length (items_or_empty d)) 0) as [H0 | H0]; [lia |].
  destruct (Z.ltb_spec (Z.of_nat (length (items_or_empty d))) 100); [lia |].
  unfold ret. eauto.
Qed.

Lemma Part001b_fetch_page_halts_for u since page s w s' w' :
  short_batch (search_commits gh u since 100 page) 100 ->
  Part001b.fetch_page gh u since page s w <> (Ok (Next s'), w').
Proof.
  intros (d & Hd & Hlen) H.
  unfold Part001b.fetch_page in H. do 2 bind_inv H.
  match goal with
  | Hreq : request _ _ _ = (Ok ?x, _) |- _ =>
    unfold request in Hreq; rewrite Hd in Hreq;
    assert (Hx : x = d) by (inversion Hreq; reflexivity); subst x
  end.
  fold (items_or_empty d) in H.
  destruct (_ =? _)%nat in H; [discriminate |].
  destruct (Z.ltb_spec (Z.of_nat (length (items_or_empty d))) 100); [discriminate | lia].
Qed.

Lemma Part001b_fetch_page_goes_on u since page s w :
  (exists s' w', Part001b.fetch_page gh u since page s w = (Ok (Next s'), w'))
  \/ short_or_rejected (search_commits gh u since 100 page).
Proof.
  unfold Part001b.fetch_page, short_or_rejected, short_batch.
  destruct (search_commits gh u since 100 page) as [d | err]; [| right; right; eauto].
  destruct (Z.ltb_spec (Z.of_nat (length (items_or_empty d))) 100) as [Hlt | Hge];
    [right; left; eauto |].
  left. unfold bind at 1, request.
  match goal with
  | |- context [bind ?m _ ?w0] =>
    assert (Hret : returns m) by returns; destruct (Hret w0) as ([] & w1 & E);
    unfold bind at 1; rewrite E
  end.
  cbv zeta. fold (items_or_empty d).
  destruct (Nat.eqb_spec (length (items_or_empty d)) 0) as [H0 | H0]; [lia |].
  destruct (Z.ltb_spec (Z.of_nat (length (items_or_empty d))) 100); [lia |].
  unfold ret. eauto.
Qed.

(** The pages a run of the loop asks for: [1 .. k], where [k] is at most
    [last], at least 1, at most the number of any page that halts the loop,
    and less than [last] only when page [k] stops the loop. *)
Definition pages_asked (last k : nat) (halts stops : nat -> Prop) : Prop :=
  (1 <= k <= last)%nat
  /\ (forall p, (1 <= p)%nat -> halts p -> (k <= p)%nat)
  /\ ((k < last)%nat -> stops k).

Lemma for_page_upto_requests {St} (body : Z -> St -> M (flow St)) (mk : Z -> call)
    (halts stops : Z -> Prop) (last : Z) (init : St) w :
  0 < last ->
  (forall page s w, calls (snd (body page s w)) = calls w ++ [mk page]) ->
  (forall page s w s' w', halts page -> body page s w <> (Ok (Next s'), w')) ->
  (forall page s w, (exists s' w', body page s w = (Ok (Next s'), w')) \/ stops page) ->
  exists k,
    calls (snd (for_page_upto last body init w)) = calls w ++ map mk (pages_from 1 k)
    /\ pages_asked (Z.to_nat last) k (fun p => halts (Z.of_nat p)) (fun p => stops (Z.of_nat p)).
Proof.
  intros Hlast Hcalls Hhalt Hstop. unfold for_page_upto.
  destruct (for_pages_requests body mk halts stops Hcalls Hhalt Hstop (Z.to_nat last) 1 init w)
    as (k & Hk & Hk0 & Hcs & Hearly & Hlate).
  exists k. split; [exact Hcs |]. split; [lia |]. split.
  - intros p Hp Hh. destruct (Nat.lt_ge_cases (p - 1) (Z.to_nat last)) as [Hlt | Hge]; [| lia].
    replace p with (Datatypes.S (p - 1)) by lia. apply Hearly; [exact Hlt |].
    replace (1 + Z.of_nat (p - 1)) with (Z.of_nat p) by lia. exact Hh.
  - intros Hlt. specialize (Hlate Hlt).
    replace (1 + Z.of_nat k - 1) with (Z.of_nat k) in Hlate by lia. exact Hlate.
Qed.

(** The requests of getCommitTimes in part_000, once the API has answered the
    authentication with [user]. *)
Lemma Part000_requests w user :
  users_getAuthenticated gh = Ok user ->
  let answer p :=
    listEventsForAuthenticatedUser gh (username_or (GH_USERNAME cfg) (login user)) 100
      (Z.of_nat p) in
  exists k,
    calls (snd (Part000.getCommitTimes gh cfg w))
    = calls w ++ GetAuthenticated :: map (ListEvents 100) (pages_from 1 k)
    /\ pages_asked 3 k (fun p => answer p = Ok []) (fun p => no_events (answer p)).
Proof.
  intros Hu answer. unfold Part000.getCommitTimes.
  rewrite quiet_try_catch by (intros e; quiet).
  unfold bind at 1, request. rewrite Hu.
  unfold bind at 1, print at 1. cbn [login].
  rewrite calls_bind_quiet by (intros s; quiet).
  match goal with
  | |- context [for_page_upto ?n ?b ?i ?w1] =>
    destruct (for_page_upto_requests b (ListEvents 100)
                (fun page => listEventsForAuthenticatedUser gh
                               (username_or (GH_USERNAME cfg) (login user)) 100 page = Ok [])
                (fun page => no_events (listEventsForAuthenticatedUser gh
                               (username_or (GH_USERNAME cfg) (login user)) 100 page))
                n i w1 ltac:(lia)
                ltac:(intros; apply Part000_fetch_page_calls)
                ltac:(intros; apply Part000_fetch_page_halts_for; assumption)
                ltac:(intros; apply Part000_fetch_page_goes_on)) as (k & Hcs & Hk)
  end.
  exists k. split; [| exact Hk].
  rewrite Hcs. simpl. rewrite <- app_assoc. reflexivity.
Qed.

Lemma Part001a_requests w user :
  users_getAuthenticated gh = Ok user ->
  let answer p :=
    search_commits gh (username_or (GH_USERNAME cfg) (login user))
      (clock w - 365 * 86400000) 100 (Z.of_nat p) in
  exists k,
    calls (snd (Part001a.getCommitTimes gh cfg w))
    = calls w ++ GetAuthenticated :: map (SearchCommits 100) (pages_from 1 k)
    /\ pages_asked 10 k (fun p => short_batch (answer p) 100)
         (fun p => short_or_rejected (answer p)).
Proof.
  intros Hu answer. unfold Part001a.getCommitTimes.
  unfold bind at 1, request. rewrite Hu.
  unfold bind at 1, print at 1. unfold bind at 1, new_Date at 1. cbn [login clock].
  rewrite calls_bind_quiet by (intros s; quiet).
  match goal with
  | |- context [for_page_upto ?n ?b ?i ?w1] =>
    destruct (for_page_upto_requests b (SearchCommits 100)
                (fun page => short_batch
                               (search_commits gh (username_or (GH_USERNAME cfg) (login user))
                                  (clock w - 365 * 86400000) 100 page) 100)
                (fun page => short_or_rejected
                               (search_commits gh (username_or (GH_USERNAME cfg) (login user))
                                  (clock w - 365 * 86400000) 100 page))
                n i w1 ltac:(reflexivity)
                ltac:(intros; apply Part001a_fetch_page_calls)
                ltac:(intros; apply Part001a_fetch_page_halts_for; assumption)
                ltac:(intros; apply Part001a_fetch_page_goes_on)) as (k & Hcs & Hk)
  end.
  exists k. split; [| exact Hk].
  rewrite Hcs. simpl. rewrite <- app_assoc. reflexivity.
Qed.

Lemma Part001b_requests w user :
  users_getAuthenticated gh = Ok user ->
  let answer p :=
    search_commits gh (username_or (GH_USERNAME cfg) (login user))
      (clock w - 365 * 86400000) 100 (Z.of_nat p) in
  exists k,
    calls (snd (Part001b.getCommitTimes gh cfg w))
    = calls w ++ GetAuthenticated :: map (SearchCommits 100) (pages_from 1 k)
    /\ pages_asked 10 k (fun p => short_batch (answer p) 100)
         (fun p => short_or_rejected (answer p)).
Proof.
  intros Hu answer. unfold Part001b.getCommitTimes.
  rewrite quiet_try_catch by (intros e; quiet).
  unfold bind at 1, request. rewrite Hu.
  unfold bind at 1, print at 1. unfold bind at 1, new_Date at 1. cbn [login clock].
  rewrite calls_bind_quiet by (intros s; quiet).
  match goal with
  | |- context [for_page_upto ?n ?b ?i ?w1] =>
    destruct (for_page_upto_requests b (SearchCommits 100)
                (fun page => short_batch
                               (search_commits gh (username_or (GH_USERNAME cfg) (login user))
                                  (clock w - 365 * 86400000) 100 page) 100)
                (fun page => short_or_rejected
                               (search_commits gh (username_or (GH_USERNAME cfg) (login user))
                                  (clock w - 365 * 86400000) 100 page))
                n i w1 ltac:(reflexivity)
                ltac:(intros; apply Part001b_fetch_page_calls)
                ltac:(intros; apply Part001b_fetch_page_halts_for; assumption)
                ltac:(intros; apply Part001b_fetch_page_goes_on)) as (k & Hcs & Hk)
  end.
  exists k. split; [| exact Hk].
  rewrite Hcs. simpl. rewrite <- app_assoc. reflexivity.
Qed.

(** When the authentication is rejected no page is asked for. *)
Lemma no_page_without_user w e :
  users_getAuthenticated gh = Throw e ->
  calls (snd (Part000.getCommitTimes gh cfg w)) = calls w ++ [GetAuthenticated]
  /\ calls (snd (Part001a.getCommitTimes gh cfg w)) = calls w ++ [GetAuthenticated]
  /\ calls (snd (Part001b.getCommitTimes gh cfg w)) = calls w ++ [GetAuthenticated].
Proof.
  intros Hu. split; [| split].
  - unfold Part000.getCommitTimes. rewrite quiet_try_catch by (intros e'; quiet).
    unfold bind at 1, request. rewrite Hu. reflexivity.
  - unfold Part001a.getCommitTimes. unfold bind at 1, request. rewrite Hu. reflexivity.
  - unfold Part001b.getCommitTimes. rewrite quiet_try_catch by (intros e'; quiet).
    unfold bind at 1, request. rewrite Hu. reflexivity.
Qed.

End Requests.

(** C8.  The page loop is bounded and stops early.  Once the API has answered
    the authentication with a user, the requests of getCommitTimes in part_000
    are the authentication and the event pages 1..k of that user (GH_USERNAME
    when it is set and not empty, else the login) with 1 <= k <= 3; k <= p for
    every page p of that user that is empty, and k < 3 only when page k is
    empty or rejected.  In the two scripts of part_001 they are the
    authentication and the search pages 1..k, for that user and the instant
    365 days before the clock, with 1 <= k <= 10; k <= p for every page p of
    that search whose batch is empty or shorter than the page size of 100, and
    k < 10 only when the batch of page k is such or rejected.  When the
    authentication is rejected no page is asked for.  update_gist.js has no
    loop: it sends one request.  The loop is a structural recursion on the
    number of pages left, so every run ends; it ends with a CommitStats when
    the API rejects no request. *)
Theorem C8_pagination_is_bounded
    (dates : DateLib) (gh : github) (cfg : config) (w : world) :
  (forall user, users_getAuthenticated gh = Ok user ->
     let events p :=
       listEventsForAuthenticatedUser gh (username_or (GH_USERNAME cfg) (login user)) 100
         (Z.of_nat p) in
     let batch p :=
       search_commits gh (username_or (GH_USERNAME cfg) (login user))
         (clock w - 365 * 86400000) 100 (Z.of_nat p) in
     (exists k,
        calls (snd (Part000.getCommitTimes gh cfg w))
        = calls w ++ GetAuthenticated :: map (ListEvents 100) (pages_from 1 k)
        /\ (1 <= k <= 3)%nat
        /\ (forall p, (1 <= p)%nat -> events p = Ok [] -> (k <= p)%nat)
        /\ ((k < 3)%nat -> events k = Ok [] \/ exists e, events k = Throw e))
     /\ (exists k,
           calls (snd (Part001a.getCommitTimes gh cfg w))
           = calls w ++ GetAuthenticated :: map (SearchCommits 100) (pages_from 1 k)
           /\ (1 <= k <= 10)%nat
           /\ (forall p, (1 <= p)%nat -> short_batch (batch p) 100 -> (k <= p)%nat)
           /\ ((k < 10)%nat -> short_batch (batch k) 100 \/ exists e, batch k = Throw e))
     /\ (exists k,
           calls (snd (Part001b.getCommitTimes gh cfg w))
           = calls w ++ GetAuthenticated :: map (SearchCommits 100) (pages_from 1 k)
           /\ (1 <= k <= 10)%nat
           /\ (forall p, (1 <= p)%nat -> short_batch (batch p) 100 -> (k <= p)%nat)
           /\ ((k < 10)%nat -> short_batch (batch k) 100 \/ exists e, batch k = Throw e)))
  /\ (forall e, users_getAuthenticated gh = Throw e ->
      calls (snd (Part000.getCommitTimes gh cfg w)) = calls w ++ [GetAuthenticated]
      /\ calls (snd (Part001a.getCommitTimes gh cfg w)) = calls w ++ [GetAuthenticated]
      /\ calls (snd (Part001b.getCommitTimes gh cfg w)) = calls w ++ [GetAuthenticated])
  /\ calls (snd (UpdateGist.getCommitTimes gh cfg w)) = calls w ++ [ListPublicEvents 100]
  /\ (answers_all gh ->
      (exists s w', UpdateGist.getCommitTimes gh cfg w = (Ok s, w'))
      /\ (exists s w', Part000.getCommitTimes gh cfg w = (Ok s, w'))
      /\ (exists s w', Part001a.getCommitTimes gh cfg w = (Ok s, w'))
      /\ (exists s w', Part001b.getCommitTimes gh cfg w = (Ok s, w')))
  /\ (forall l, username_or None l = l /\ username_or (Some ""%string) l = l)
  /\ (forall u l, u <> ""%string -> username_or (Some u) l = u).
Proof.
  split; [| split; [| split; [| split; [| split]]]].
  - intros user Hu events batch. split; [| split].
    + destruct (Part000_requests gh cfg w user Hu) as (k & Hc & Hk & Hearly & Hlate).
      exists k. auto.
    + destruct (Part001a_requests gh cfg w user Hu) as (k & Hc & Hk & Hearly & Hlate).
      exists k. auto.
    + destruct (Part001b_requests gh cfg w user Hu) as (k & Hc & Hk & Hearly & Hlate).
      exists k. auto.
  - intros e He. exact (no_page_without_user gh cfg w e He).
  - apply UpdateGist_calls.
  - intros Hall. destruct (collectors_return dates gh cfg Hall) as (H1 & H2 & H3 & H4).
    split; [apply H1 |]. split; [apply H2 |]. split; [apply H3 | apply H4].
  - intros l. split; reflexivity.
  - intros u l Hu. unfold username_or.
    destruct (String.eqb_spec u ""); [contradiction | reflexivity].
Qed.

Lemma C8_pagination_is_bounded_witness :
  calls (snd (@Part000.getCommitTimes Shanghai.dates sample_github sample_config
                sample_world))
  = [GetAuthenticated; ListEvents 100 1; ListEvents 100 2].
Proof.
  destruct (C8_pagination_is_bounded Shanghai.dates sample_github sample_config sample_world)
    as (H & _).
  destruct (H {| login := "octocat" |} eq_refl) as ((k & Hcalls & Hk & Hearly & Hlate) & _).
  assert (Hk2 : (k <= 2)%nat) by (apply Hearly; [lia | reflexivity]).
  rewrite Hcalls.
  destruct k as [| [| [| k]]]; try lia; [| reflexivity].
  exfalso. destruct (Hlate ltac:(lia)) as [Hc | (e & Hc)]; discriminate.
Defined.

(** ** The renderer: no effect, and no input but the stats and the clock *)

(** A computation that leaves the world as it is and whose outcome depends on
    the world through the clock only. *)
Definition reads_clock_only {A} (m : M A) : Prop :=
  forall w, snd (m w) = w /\ forall w', clock w' = clock w -> fst (m w') = fst (m w).

Lemma reads_clock_only_ret {A} (a : A) : reads_clock_only (ret a).
Proof. intros w; split; reflexivity. Qed.

Lemma reads_clock_only_lift {A} (r : result A) : reads_clock_only (lift r).
Proof. intros w; split; reflexivity. Qed.

Lemma reads_clock_only_new_Date : reads_clock_only new_Date.
Proof. intros w; split; [reflexivity |]. intros w' Hc. simpl. congruence. Qed.

Lemma reads_clock_only_bind {A B} (m : M A) (k : A -> M B) :
  reads_clock_only m -> (forall a, reads_clock_only (k a)) -> reads_clock_only (bind m k).
Proof.
  intros Hm Hk w. destruct (Hm w) as (Hw & Hout). split.
  - unfold bind. destruct (m w) as [[a | e] w1] eqn:E; simpl in Hw; subst w1.
    + apply Hk.
    + reflexivity.
  - intros w' Hc. specialize (Hout w' Hc). destruct (Hm w') as (Hw' & _).
    unfold bind.
    destruct (m w) as [[a | e] w1]; destruct (m w') as [[a' | e'] w1'];
      simpl in *; subst; try discriminate.
    + inversion Hout; subst. apply Hk. exact Hc.
    + inversion Hout; subst. reflexivity.
Qed.

#[local] Hint Resolve reads_clock_only_ret reads_clock_only_lift
  reads_clock_only_new_Date : quiet.

Ltac reads_clock_only :=
  repeat first
    [ apply reads_clock_only_bind; [| intros ?]
    | solve [auto with quiet] ].

Section Renderer.
Context {dates : DateLib}.

Lemma UpdateGist_generateMarkdown_pure stats :
  reads_clock_only (UpdateGist.generateMarkdown stats).
Proof. unfold UpdateGist.generateMarkdown. reads_clock_only. Qed.

Lemma Part000_generateMarkdown_pure stats :
  reads_clock_only (Part000.generateMarkdown stats).
Proof. unfold Part000.generateMarkdown. reads_clock_only. Qed.

Lemma Part001a_generateMarkdown_pure stats :
  reads_clock_only (Part001a.generateMarkdown stats).
Proof. unfold Part001a.generateMarkdown. reads_clock_only. Qed.

Lemma Part001b_generateMarkdown_pure stats :
  reads_clock_only (Part001b.generateMarkdown stats).
Proof. unfold Part001b.generateMarkdown. reads_clock_only. Qed.

End Renderer.

(** C7.  In each script generateMarkdown changes nothing in the world (no
    request, no console line, no clock change), and two renderings of the same
    stats at the same instant give the same outcome, character for
    character, whatever else differs between the two worlds. *)
Theorem C7_generateMarkdown_is_pure
    (dates : DateLib) (stats : CommitStats) (w1 w2 : world) :
  clock w1 = clock w2 ->
  (fst (UpdateGist.generateMarkdown stats w1) = fst (UpdateGist.generateMarkdown stats w2)
   /\ snd (UpdateGist.generateMarkdown stats w1) = w1)
  /\ (fst (Part000.generateMarkdown stats w1) = fst (Part000.generateMarkdown stats w2)
      /\ snd (Part000.generateMarkdown stats w1) = w1)
  /\ (fst (Part001a.generateMarkdown stats w1) = fst (Part001a.generateMarkdown stats w2)
      /\ snd (Part001a.generateMarkdown stats w1) = w1)
  /\ (fst (Part001b.generateMarkdown stats w1) = fst (Part001b.generateMarkdown stats w2)
      /\ snd (Part001b.generateMarkdown stats w1) = w1).
Proof.
  intros Hc.
  destruct (UpdateGist_generateMarkdown_pure stats w2) as (_ & H1).
  destruct (UpdateGist_generateMarkdown_pure stats w1) as (H1' & _).
  destruct (Part000_generateMarkdown_pure stats w2) as (_ & H2).
  destruct (Part000_generateMarkdown_pure stats w1) as (H2' & _).
  destruct (Part001a_generateMarkdown_pure stats w2) as (_ & H3).
  destruct (Part001a_generateMarkdown_pure stats w1) as (H3' & _).
  destruct (Part001b_generateMarkdown_pure stats w2) as (_ & H4).
  destruct (Part001b_generateMarkdown_pure stats w1) as (H4' & _).
  repeat split; auto.
Qed.


Lemma C7_generateMarkdown_is_pure_witness :
  let w1 := {| clock := 1700000000000; calls := []; console := [] |} in
  let w2 := {| clock := 1700000000000; calls := [GetAuthenticated];
               console := [ {| lvl := Info; text := "Authenticated as"; args := [] |} ] |} in
  fst (@Part000.generateMarkdown Shanghai.dates (stats_of 2 1 1 0 4) w1)
  = fst (@Part000.generateMarkdown Shanghai.dates (stats_of 2 1 1 0 4) w2)
  /\ snd (@Part000.generateMarkdown Shanghai.dates (stats_of 2 1 1 0 4) w2) = w2.
Proof.
  intros w1 w2.
  pose proof (C7_generateMarkdown_is_pure Shanghai.dates (stats_of 2 1 1 0 4) w1 w2 eq_refl)
    as (_ & (H12 & _) & _).
  pose proof (C7_generateMarkdown_is_pure Shanghai.dates (stats_of 2 1 1 0 4) w2 w1 eq_refl)
    as (_ & (_ & H2) & _).
  split; [exact H12 | exact H2].
Defined.

(** ** Binary64 arithmetic: values and bounds *)

Definition dyadic (m e : Z) : Q := inject_Z m * pow2 e.

Lemma pow2_pos e : (0 < pow2 e)%Q.
Proof. apply Qpower_0_lt. reflexivity. Qed.

Lemma pow2_add a b : (pow2 (a + b) == pow2 a * pow2 b)%Q.
Proof. apply Qpower_plus. discriminate. Qed.

Lemma pow2_inject e : 0 <= e -> (pow2 e == inject_Z (2 ^ e))%Q.
Proof. intros He. unfold pow2. rewrite Zpower_Qpower by assumption. reflexivity. Qed.

Lemma pow2_le a b : a <= b -> (pow2 a <= pow2 b)%Q.
Proof. intros H. apply Qpower_le_compat_l; [assumption | discriminate]. Qed.

Lemma pow2_lt_inv a b : (pow2 a < pow2 b)%Q -> a < b.
Proof. intros H. apply (Qpower_lt_compat_l_inv 2); [assumption | reflexivity]. Qed.

Lemma dyadic_le_same a b e : a <= b -> (dyadic a e <= dyadic b e)%Q.
Proof.
  intros H. unfold dyadic. apply Qmult_le_compat_r.
  - rewrite <- Zle_Qle. assumption.
  - apply Qlt_le_weak, pow2_pos.
Qed.

Lemma dyadic_lt_same_inv a b e : (dyadic a e < dyadic b e)%Q -> a < b.
Proof.
  unfold dyadic. intros H. apply Qmult_lt_r in H; [| apply pow2_pos].
  rewrite <- Zlt_Qlt in H. assumption.
Qed.

(** Moving a factor [2^n] between mantissa and exponent. *)
Lemma dyadic_shift m e n : 0 <= n -> (dyadic (m * 2 ^ n) e == dyadic m (e + n))%Q.
Proof.
  intros Hn. unfold dyadic. rewrite pow2_add, (pow2_inject n Hn), inject_Z_mult. ring.
Qed.

Lemma dyadic_div_le m e n : 0 <= m -> 0 <= n -> (dyadic (m / 2 ^ n) (e + n) <= dyadic m e)%Q.
Proof.
  intros Hm Hn. rewrite <- dyadic_shift by assumption. apply dyadic_le_same.
  rewrite Z.mul_comm. apply Z.mul_div_le. apply Z.pow_pos_nonneg; lia.
Qed.

Lemma dyadic_div_lt m e n :
  0 <= n -> m mod 2 ^ n <> 0 -> (dyadic (m / 2 ^ n) (e + n) < dyadic m e)%Q.
Proof.
  intros Hn Hmod. rewrite <- dyadic_shift by assumption.
  unfold dyadic. apply Qmult_lt_r; [apply pow2_pos |]. rewrite <- Zlt_Qlt.
  assert (0 < 2 ^ n) by (apply Z.pow_pos_nonneg; lia).
  pose proof (Z.div_mod m (2 ^ n) ltac:(lia)).
  pose proof (Z.mod_pos_bound m (2 ^ n) ltac:(lia)). lia.
Qed.

(** On the grid of exponent [e], the next point after [m] is [m + 1]. *)
Lemma dyadic_succ_le m e y k :
  e <= k -> (dyadic m e < dyadic y k)%Q -> (dyadic (m + 1) e <= dyadic y k)%Q.
Proof.
  intros Hek H.
  assert (E : (dyadic y k == dyadic (y * 2 ^ (k - e)) e)%Q).
  { rewrite dyadic_shift by lia. replace (e + (k - e)) with k by lia. reflexivity. }
  rewrite E in H. rewrite E. apply dyadic_lt_same_inv in H. apply dyadic_le_same. lia.
Qed.

Lemma digits2_pos_size p : digits2_pos p = Pos.size p.
Proof. induction p; simpl; congruence. Qed.

Lemma Zdigits2_bounds m : 0 < m -> 2 ^ (Zdigits2 m - 1) <= m < 2 ^ Zdigits2 m.
Proof.
  destruct m as [| p | p]; try lia. intros _.
  change (Zdigits2 (Z.pos p)) with (Z.pos (digits2_pos p)). rewrite digits2_pos_size.
  pose proof (Pos.size_gt p) as Hgt. pose proof (Pos.size_le p) as Hle.
  split.
  - assert (2 ^ Z.pos (Pos.size p) <= 2 * Z.pos p).
    { change (2 * Z.pos p) with (Z.pos p~0). rewrite <- Pos2Z.inj_pow. apply Pos2Z.pos_le_pos. exact Hle. }
    assert (E : 2 ^ Z.pos (Pos.size p) = 2 * 2 ^ (Z.pos (Pos.size p) - 1)).
    { rewrite <- Z.pow_succ_r by lia. f_equal. lia. }
    lia.
  - rewrite <- Pos2Z.inj_pow. apply Pos2Z.pos_lt_pos. exact Hgt.
Qed.

Lemma Zdigits2_nonneg m : 0 <= m -> 0 <= Zdigits2 m.
Proof. destruct m; simpl; lia. Qed.

(** *** Shifting a mantissa right *)

Lemma iter_pos_nat {A} (f : A -> A) p x : iter_pos f p x = Nat.iter (Pos.to_nat p) f x.
Proof.
  revert x. induction p as [p IH | p IH |]; intros x; cbn [iter_pos].
  - rewrite !IH, Pos2Nat.inj_xI, <- Nat.iter_add, Nat.iter_swap, <- Nat.iter_succ.
    f_equal. lia.
  - rewrite !IH, Pos2Nat.inj_xO, <- Nat.iter_add. f_equal. lia.
  - reflexivity.
Qed.

Lemma shr_1_m mrs : 0 <= shr_m mrs -> shr_m (shr_1 mrs) = shr_m mrs / 2.
Proof.
  destruct mrs as [m r s]. simpl. intros Hm.
  destruct m as [| [p | p |] | p]; cbn [shr_1 shr_m]; try lia; try reflexivity.
  - apply Z.div_unique with (r := 1); lia.
  - apply Z.div_unique with (r := 0); lia.
Qed.

Lemma shr_1_r mrs : 0 <= shr_m mrs -> shr_r (shr_1 mrs) = Z.odd (shr_m mrs).
Proof.
  destruct mrs as [m r s]. simpl. intros Hm.
  destruct m as [| [p | p |] | p]; simpl; try lia; reflexivity.
Qed.

Lemma shr_1_s mrs : shr_s (shr_1 mrs) = shr_r mrs || shr_s mrs.
Proof. destruct mrs as [m r s]. simpl. destruct m as [| [p | p |] | [p | p |]]; reflexivity. Qed.

(** [n] steps divide the mantissa by [2^n]; the result is still exact when
    the start was and the bits shifted out are zero. *)
Lemma shr_iter m r s n :
  0 <= m ->
  let mrs := Nat.iter n shr_1 {| shr_m := m; shr_r := r; shr_s := s |} in
  shr_m mrs = m / 2 ^ Z.of_nat n
  /\ (r = false -> s = false -> m mod 2 ^ Z.of_nat n = 0 ->
      shr_r mrs = false /\ shr_s mrs = false).
Proof.
  intros Hm. simpl. apply Nat.iter_ind.
  - simpl. rewrite Z.div_1_r. auto.
  - intros k mrs (IHm & IHe).
    assert (Hpow : 0 < 2 ^ Z.of_nat k) by (apply Z.pow_pos_nonneg; lia).
    assert (Hnn : 0 <= shr_m mrs) by (rewrite IHm; apply Z.div_pos; lia).
    rewrite Nat2Z.inj_succ, Z.pow_succ_r by lia. split.
    + rewrite shr_1_m, IHm by assumption. rewrite Z.div_div by lia. f_equal. lia.
    + intros Hr Hs Hmod. rewrite shr_1_r, shr_1_s by assumption.
      assert (Hdiv : m mod 2 ^ Z.of_nat k = 0 /\ (m / 2 ^ Z.of_nat k) mod 2 = 0).
      { rewrite (Z.mul_comm 2), Z.rem_mul_r in Hmod by lia.
        pose proof (Z.mod_pos_bound m (2 ^ Z.of_nat k) Hpow).
        pose proof (Z.mod_pos_bound (m / 2 ^ Z.of_nat k) 2 ltac:(lia)). nia. }
      destruct Hdiv as (Hd1 & Hd2). destruct (IHe Hr Hs Hd1) as (-> & ->).
      rewrite IHm. split; [| reflexivity].
      rewrite Zodd_mod, Hd2. reflexivity.
Qed.

Definition is_exact (l : location) : bool :=
  match l with loc_Exact => true | _ => false end.

Lemma loc_of_record_of_loc m l : loc_of_shr_record (shr_record_of_loc m l) = l.
Proof. destruct l as [| []]; reflexivity. Qed.

Lemma shr_m_record_of_loc m l : shr_m (shr_record_of_loc m l) = m.
Proof. destruct l as [| []]; reflexivity. Qed.

(** What [shr] gives for a mantissa [m >= 0] located by [l]: the exponent
    grows by [max n 0], the mantissa is divided accordingly, and an inexact
    result means the start was inexact or a nonzero bit was shifted out. *)
Lemma shr_spec m e l n :
  0 <= m ->
  let '(mrs, e') := shr (shr_record_of_loc m l) e n in
  e' = e + Z.max n 0
  /\ shr_m mrs = m / 2 ^ Z.max n 0
  /\ (is_exact (loc_of_shr_record mrs) = false ->
      is_exact l = false \/ (0 < n /\ m mod 2 ^ n <> 0)).
Proof.
  intros Hm. destruct n as [| p | p]; simpl.
  - rewrite Z.add_0_r, Z.div_1_r, shr_m_record_of_loc, loc_of_record_of_loc. auto.
  - rewrite iter_pos_nat.
    assert (Hrec : exists r s, shr_record_of_loc m l = {| shr_m := m; shr_r := r; shr_s := s |}
                          /\ (is_exact l = true -> r = false /\ s = false)).
    { destruct l as [| []]; simpl;
        (eexists; eexists; split; [reflexivity |]; (discriminate || auto)). }
    destruct Hrec as (r & s & -> & Hex).
    pose proof (shr_iter m r s (Pos.to_nat p) Hm) as Hit. cbv zeta in Hit.
    rewrite positive_nat_Z in Hit. destruct Hit as (Hq & Hexact).
    split; [reflexivity |]. split; [exact Hq |].
    intros Hl. destruct (is_exact l) eqn:El; [| auto]. right. split; [lia |].
    intros Hmod. destruct (Hex eq_refl) as (-> & ->).
    destruct (Hexact eq_refl eq_refl Hmod) as (Hr & Hs).
    destruct (Nat.iter _ _ _) as [m' r' s']. simpl in *. subst. discriminate.
  - rewrite Z.add_0_r, Z.div_1_r, shr_m_record_of_loc, loc_of_record_of_loc. auto.
Qed.

(** *** Rounding never crosses a representable bound *)

Lemma fexp_eq e : fexp prec emax e = Z.max (e - 53) (-1074).
Proof. reflexivity. Qed.

Lemma dyadic_lower m e : 0 < m -> (pow2 (Zdigits2 m - 1 + e) <= dyadic m e)%Q.
Proof.
  intros Hm. pose proof (Zdigits2_bounds m Hm) as (Hlo & _).
  assert (Hd : 0 <= Zdigits2 m - 1).
  { destruct m as [| p | p]; try lia.
    change (Zdigits2 (Z.pos p)) with (Z.pos (digits2_pos p)). lia. }
  rewrite pow2_add, (pow2_inject _ Hd). unfold dyadic.
  apply Qmult_le_compat_r; [| apply Qlt_le_weak, pow2_pos].
  rewrite <- Zle_Qle. exact Hlo.
Qed.

Lemma dyadic_upper y k p : 0 <= p -> y < 2 ^ p -> (dyadic y k < pow2 (p + k))%Q.
Proof.
  intros Hp Hy. rewrite pow2_add, (pow2_inject _ Hp). unfold dyadic.
  apply Qmult_lt_r; [apply pow2_pos |]. rewrite <- Zlt_Qlt. exact Hy.
Qed.

Lemma round_nearest_even_cases m l :
  round_nearest_even m l = m
  \/ (round_nearest_even m l = m + 1 /\ is_exact l = false).
Proof.
  destruct l as [| []]; simpl; auto. destruct (Z.even m); auto.
Qed.

Definition located (x : Q) (m e : Z) (l : location) : Prop :=
  if is_exact l then (x == dyadic m e)%Q else (dyadic m e < x)%Q.

Lemma located_ge x m e l : located x m e l -> (dyadic m e <= x)%Q.
Proof.
  unfold located. destruct (is_exact l); intros H; [rewrite H; apply Qle_refl |].
  apply Qlt_le_weak; assumption.
Qed.

Lemma binary_round_aux_le (s : bool) (m e : Z) (l : location) (x : Q) (y k : Z) :
  0 <= m ->
  located x m e l ->
  (is_exact l = false -> e <= fexp prec emax (Zdigits2 m + e)) ->
  (x <= dyadic y k)%Q ->
  0 < y < 2 ^ 53 ->
  -1074 <= k <= 919 ->
  match binary_round_aux prec emax s m e l with
  | S754_zero s' => s' = s
  | S754_finite s' m' e' => s' = s /\ (dyadic (Z.pos m') e' <= dyadic y k)%Q
  | _ => False
  end.
Proof.
  intros Hm Hloc Hprec Hx Hy Hk.
  pose proof (located_ge _ _ _ _ Hloc) as Hge.
  unfold binary_round_aux, shr_fexp.
  set (n1 := fexp prec emax (Zdigits2 m + e) - e).
  pose proof (shr_spec m e l n1 Hm) as H1.
  destruct (shr (shr_record_of_loc m l) e n1) as [mrs1 e1].
  destruct H1 as (He1 & Hm1 & Hl1).
  set (m1 := shr_m mrs1) in *. set (l1 := loc_of_shr_record mrs1) in *.
  assert (Hpow1 : 0 < 2 ^ Z.max n1 0) by (apply Z.pow_pos_nonneg; lia).
  assert (Hm1nn : 0 <= m1) by (rewrite Hm1; apply Z.div_pos; lia).
  assert (HA : (dyadic m1 e1 <= dyadic m e)%Q).
  { rewrite Hm1, He1. apply dyadic_div_le; lia. }
  assert (HC : (dyadic (round_nearest_even m1 l1) e1 <= dyadic y k)%Q).
  { destruct (round_nearest_even_cases m1 l1) as [-> | (-> & Hinex)].
    - apply Qle_trans with (dyadic m e); [exact HA |].
      apply Qle_trans with x; assumption.
    - apply dyadic_succ_le.
      + (* the bound lies on the grid of the rounding exponent *)
        assert (Hn1 : 0 <= n1).
        { destruct (Hl1 Hinex) as [Hl | (Hn & _)]; [| lia].
          specialize (Hprec Hl). unfold n1. lia. }
        assert (E1 : e1 = fexp prec emax (Zdigits2 m + e)) by (unfold n1 in *; lia).
        rewrite E1, fexp_eq. apply Z.max_lub; [| lia].
        destruct (Z.eq_dec m 0) as [-> | Hm0].
        * unfold n1 in Hn1. rewrite fexp_eq in Hn1. simpl in *. lia.
        * assert (Hlt : (pow2 (Zdigits2 m - 1 + e) < pow2 (53 + k))%Q).
          { eapply Qle_lt_trans; [apply dyadic_lower; lia |].
            eapply Qle_lt_trans; [exact Hge |].
            eapply Qle_lt_trans; [exact Hx |]. apply dyadic_upper; lia. }
          apply pow2_lt_inv in Hlt. lia.
      + destruct (Hl1 Hinex) as [Hl | (Hn & Hmod)].
        * unfold located in Hloc. rewrite Hl in Hloc.
          apply Qle_lt_trans with (dyadic m e); [exact HA |].
          apply Qlt_le_trans with x; assumption.
        * apply Qlt_le_trans with (dyadic m e); [| apply Qle_trans with x; assumption].
          rewrite Hm1, He1. replace (Z.max n1 0) with n1 by lia.
          apply dyadic_div_lt; [lia | assumption]. }
  set (m2 := round_nearest_even m1 l1) in *.
  assert (Hm2 : 0 <= m2).
  { unfold m2. destruct (round_nearest_even_cases m1 l1) as [-> | (-> & _)]; lia. }
  set (n2 := fexp prec emax (Zdigits2 m2 + e1) - e1).
  pose proof (shr_spec m2 e1 loc_Exact n2 Hm2) as H2.
  destruct (shr (shr_record_of_loc m2 loc_Exact) e1 n2) as [mrs2 e2].
  destruct H2 as (He2 & Hm3 & _).
  assert (Hpow2 : 0 < 2 ^ Z.max n2 0) by (apply Z.pow_pos_nonneg; lia).
  assert (HD : (dyadic (shr_m mrs2) e2 <= dyadic y k)%Q).
  { eapply Qle_trans; [| exact HC]. rewrite Hm3, He2. apply dyadic_div_le; lia. }
  assert (Hm3nn : 0 <= shr_m mrs2) by (rewrite Hm3; apply Z.div_pos; lia).
  destruct (shr_m mrs2) as [| p | p]; [reflexivity | | lia].
  assert (Hlt : (pow2 (Zdigits2 (Z.pos p) - 1 + e2) < pow2 (53 + k))%Q).
  { eapply Qle_lt_trans; [apply dyadic_lower; lia |].
    eapply Qle_lt_trans; [exact HD |]. apply dyadic_upper; lia. }
  apply pow2_lt_inv in Hlt.
  pose proof (Zdigits2_bounds (Z.pos p) ltac:(lia)) as (_ & Hd).
  assert (0 < Zdigits2 (Z.pos p)) by (change (Zdigits2 (Z.pos p)) with (Z.pos (digits2_pos p)); lia).
  replace (e2 <=? emax - prec) with true by (symmetry; apply Z.leb_le; unfold emax, prec; lia).
  split; [reflexivity | exact HD].
Qed.

(** *** Bounds on products and quotients *)

Lemma dyadic_mul a e b f : (dyadic a e * dyadic b f == dyadic (a * b) (e + f))%Q.
Proof. unfold dyadic. rewrite pow2_add, inject_Z_mult. ring. Qed.

Lemma dyadic_pos p e : (0 < dyadic (Z.pos p) e)%Q.
Proof.
  unfold dyadic. apply Qmult_lt_0_compat; [| apply pow2_pos].
  change 0%Q with (inject_Z 0). rewrite <- Zlt_Qlt. lia.
Qed.

Definition bounded_by (s : bool) (y k : Z) (r : number) : Prop :=
  match r with
  | S754_zero s' => s' = s
  | S754_finite s' m' e' => s' = s /\ (dyadic (Z.pos m') e' <= dyadic y k)%Q
  | _ => False
  end.

Lemma num_mul_bound sx mx ex sy my ey y k :
  (dyadic (Z.pos mx) ex * dyadic (Z.pos my) ey <= dyadic y k)%Q ->
  0 < y < 2 ^ 53 -> -1074 <= k <= 919 ->
  bounded_by (xorb sx sy) y k (num_mul (S754_finite sx mx ex) (S754_finite sy my ey)).
Proof.
  intros Hx Hy Hk. unfold num_mul, SFmul, bounded_by.
  apply (binary_round_aux_le _ _ _ _ (dyadic (Z.pos mx) ex * dyadic (Z.pos my) ey)).
  - lia.
  - unfold located. simpl. rewrite dyadic_mul. reflexivity.
  - discriminate.
  - exact Hx.
  - exact Hy.
  - exact Hk.
Qed.

Lemma is_exact_new_location d r : is_exact (new_location d r) = (r =? 0).
Proof.
  unfold new_location, new_location_even, new_location_odd.
  destruct (Z.even d); destruct (r =? 0); reflexivity.
Qed.

Definition located2 (x : Q) (m e : Z) (l : location) : Prop :=
  located x m e l /\ (x < dyadic (m + 1) e)%Q.

(** The quotient and remainder the division hands to the rounding locate the
    exact quotient, with at least 53 bits or at the smallest exponent. *)
Lemma SFdiv_core_located mx ex my ey :
  let '(q, e', l) := SFdiv_core_binary prec emax (Z.pos mx) ex (Z.pos my) ey in
  0 <= q
  /\ located2 (dyadic (Z.pos mx) ex / dyadic (Z.pos my) ey) q e' l
  /\ (is_exact l = false -> e' <= fexp prec emax (Zdigits2 q + e')).
Proof.
  unfold SFdiv_core_binary.
  set (d1 := Zdigits2 (Z.pos mx)). set (d2 := Zdigits2 (Z.pos my)).
  set (e' := Z.min (fexp prec emax (d1 + ex - (d2 + ey))) (ex - ey)).
  set (s := ex - ey - e').
  assert (Hs : 0 <= s) by (unfold s, e'; lia).
  set (m' := match s with Z.pos _ => Z.shiftl (Z.pos mx) s | 0 => Z.pos mx | Z.neg _ => 0 end).
  assert (Em' : m' = Z.pos mx * 2 ^ s).
  { unfold m'. destruct s as [| p | p]; [simpl; lia | | lia].
    apply Z.shiftl_mul_pow2. lia. }
  pose proof (Z_div_mod m' (Z.pos my) ltac:(lia)) as Hdm.
  destruct (Z.div_eucl m' (Z.pos my)) as [q r]. destruct Hdm as (Hqr & Hr).
  assert (Hpow : 0 < 2 ^ s) by (apply Z.pow_pos_nonneg; lia).
  assert (Hq : 0 <= q) by nia.
  set (D := dyadic (Z.pos my) ey). set (N := dyadic (Z.pos mx) ex).
  assert (HD : (0 < D)%Q) by apply dyadic_pos.
  assert (EN : (N == dyadic m' (e' + ey))%Q).
  { unfold N. rewrite Em', dyadic_shift by assumption.
    replace (e' + ey + s) with ex by (unfold s; lia). reflexivity. }
  assert (Hprod : forall a, (dyadic a e' * D == dyadic (a * Z.pos my) (e' + ey))%Q)
    by (intros a; apply dyadic_mul).
  split; [exact Hq |]. split; [split |].
  - unfold located. rewrite is_exact_new_location.
    destruct (Z.eqb_spec r 0) as [-> | Hr0].
    + assert (E : (N == dyadic q e' * D)%Q).
      { rewrite Hprod, EN. replace m' with (q * Z.pos my) by lia. reflexivity. }
      rewrite E. apply Qdiv_mult_l. intros H0. rewrite H0 in HD. discriminate.
    + apply Qlt_shift_div_l; [exact HD |]. rewrite Hprod, EN.
      unfold dyadic. apply Qmult_lt_r; [apply pow2_pos |]. rewrite <- Zlt_Qlt. lia.
  - apply Qlt_shift_div_r; [exact HD |]. rewrite Hprod, EN.
    unfold dyadic. apply Qmult_lt_r; [apply pow2_pos |]. rewrite <- Zlt_Qlt. lia.
  - intros _. rewrite fexp_eq. destruct (Z_le_gt_dec e' (-1074)) as [Hle | Hgt]; [lia |].
    assert (HF : d1 + ex - (d2 + ey) - 53 >= e').
    { unfold e' in Hgt |- *. rewrite fexp_eq in Hgt |- *. lia. }
    assert (Hq52 : 2 ^ 52 <= q).
    { pose proof (Zdigits2_bounds (Z.pos mx) ltac:(lia)) as (H1 & _).
      pose proof (Zdigits2_bounds (Z.pos my) ltac:(lia)) as (_ & H2).
      fold d1 in H1. fold d2 in H2.
      assert (Hd1 : 0 < d1)
        by (unfold d1; change (Zdigits2 (Z.pos mx)) with (Z.pos (digits2_pos mx)); lia).
      assert (Hd2 : 0 < d2)
        by (unfold d2; change (Zdigits2 (Z.pos my)) with (Z.pos (digits2_pos my)); lia).
      assert (Hle : 2 ^ (52 + d2) <= 2 ^ (d1 - 1 + s)).
      { apply Z.pow_le_mono_r; [lia |]. unfold s. lia. }
      rewrite !Z.pow_add_r in Hle by lia.
      assert (2 ^ 52 * Z.pos my <= m') by nia.
      assert (E : q = m' / Z.pos my).
      { apply Z.div_unique with (r := r); lia. }
      rewrite E. apply Z.div_le_lower_bound; lia. }
    pose proof (Zdigits2_bounds q ltac:(lia)) as (_ & Hdq).
    assert (52 < Zdigits2 q).
    { apply (Z.pow_lt_mono_r_iff 2); [lia | apply Zdigits2_nonneg; lia | lia]. }
    lia.
Qed.

Lemma num_div_bound sx mx ex sy my ey y k :
  (dyadic (Z.pos mx) ex <= dyadic y k * dyadic (Z.pos my) ey)%Q ->
  0 < y < 2 ^ 53 -> -1074 <= k <= 919 ->
  bounded_by (xorb sx sy) y k (num_div (S754_finite sx mx ex) (S754_finite sy my ey)).
Proof.
  intros Hx Hy Hk. unfold num_div, SFdiv, bounded_by.
  pose proof (SFdiv_core_located mx ex my ey) as Hcore.
  destruct (SFdiv_core_binary prec emax (Z.pos mx) ex (Z.pos my) ey) as [[q e'] l].
  destruct Hcore as (Hq & (Hloc & _) & Hprec).
  apply (binary_round_aux_le _ _ _ _ (dyadic (Z.pos mx) ex / dyadic (Z.pos my) ey)%Q);
    try assumption.
  apply Qle_shift_div_r; [apply dyadic_pos | exact Hx].
Qed.

(** *** Integers below 2^53 are Numbers *)

Lemma binary_round_aux_exact s p e :
  fexp prec emax (Zdigits2 (Z.pos p) + e) <= e -> e <= 971 ->
  binary_round_aux prec emax s (Z.pos p) e loc_Exact = S754_finite s p e.
Proof.
  intros Hf He. unfold binary_round_aux, shr_fexp.
  assert (Hshr : shr (shr_record_of_loc (Z.pos p) loc_Exact) e
                   (fexp prec emax (Zdigits2 (Z.pos p) + e) - e)
                 = (shr_record_of_loc (Z.pos p) loc_Exact, e)).
  { destruct (fexp prec emax (Zdigits2 (Z.pos p) + e) - e) eqn:E; [reflexivity | lia | reflexivity]. }
  rewrite Hshr, shr_m_record_of_loc, loc_of_record_of_loc.
  cbn [round_nearest_even]. rewrite Hshr, shr_m_record_of_loc.
  replace (e <=? emax - prec) with true by (symmetry; apply Z.leb_le; unfold emax, prec; lia).
  reflexivity.
Qed.

Lemma iter_xO p n :
  Z.pos (Nat.iter n xO p) = Z.pos p * 2 ^ Z.of_nat n
  /\ digits2_pos (Nat.iter n xO p) = (digits2_pos p + Pos.of_nat n)%positive \/ n = O.
Proof.
  destruct n as [| n]; [right; reflexivity | left].
  induction n as [| n (IHv & IHd)].
  - simpl. split; [lia |]. rewrite Pos.add_1_r. reflexivity.
  - rewrite Nat.iter_succ. split.
    + rewrite Pos2Z.inj_xO, IHv, (Nat2Z.inj_succ (S n)), Z.pow_succ_r by lia. ring.
    + cbn [digits2_pos]. rewrite IHd. lia.
Qed.

Lemma Z2SF_exact z :
  0 < z < 2 ^ 53 ->
  exists m e, Z2SF z = S754_finite false m e /\ (dyadic (Z.pos m) e == inject_Z z)%Q.
Proof.
  intros Hz. destruct z as [| p | p]; try lia.
  pose proof (Zdigits2_bounds (Z.pos p) ltac:(lia)) as (Hlo & Hhi).
  change (Zdigits2 (Z.pos p)) with (Z.pos (digits2_pos p)) in Hlo, Hhi.
  assert (Hd : Z.pos (digits2_pos p) <= 53).
  { assert (Z.pos (digits2_pos p) - 1 < 53); [| lia].
    apply (Z.pow_lt_mono_r_iff 2); lia. }
  unfold Z2SF, binary_normalize, binary_round, shl_align.
  rewrite fexp_eq, Z.add_0_r, Z.max_l, Z.sub_0_r by lia.
  destruct (Z.pos (digits2_pos p) - 53) as [| d | d] eqn:Ed; [| lia |].
  - exists p, 0. split.
    + apply binary_round_aux_exact; [| lia].
      rewrite fexp_eq. change (Zdigits2 (Z.pos p)) with (Z.pos (digits2_pos p)). lia.
    + unfold dyadic. change (pow2 0) with 1%Q. ring.
  - rewrite Pos2Nat.inj_iter.
    destruct (iter_xO p (Pos.to_nat d)) as [(Hv & Hdig) | H0]; [| lia].
    rewrite Pos2Nat.id in Hdig. rewrite positive_nat_Z in Hv.
    exists (Nat.iter (Pos.to_nat d) xO p), (Z.neg d). split.
    + apply binary_round_aux_exact; [| lia].
      rewrite fexp_eq. change (Zdigits2 (Z.pos ?q)) with (Z.pos (digits2_pos q)).
      rewrite Hdig. lia.
    + rewrite Hv, dyadic_shift by lia. replace (Z.neg d + Z.pos d) with 0 by lia.
      unfold dyadic. change (pow2 0) with 1%Q. ring.
Qed.


(** The shape of a rounding: the exponent [e1] it rounds at, the mantissa
    [m2] it picks there, which is the truncated one or the next, and the
    result, which has the value [m2 * 2^e1]. *)
Lemma binary_round_aux_shape (s : bool) (m e : Z) (l : location) :
  0 <= m ->
  (is_exact l = false -> e <= fexp prec emax (Zdigits2 m + e)) ->
  exists m2 e1,
    e1 = Z.max e (fexp prec emax (Zdigits2 m + e))
    /\ (m2 = m / 2 ^ (e1 - e)
        \/ (m2 = m / 2 ^ (e1 - e) + 1
            /\ (is_exact l = false \/ m mod 2 ^ (e1 - e) <> 0)))
    /\ match binary_round_aux prec emax s m e l with
       | S754_zero s' => s' = s /\ m2 = 0
       | S754_finite s' m' e' =>
         s' = s /\ (dyadic (Z.pos m') e' == dyadic m2 e1)%Q
       | S754_infinity s' => s' = s /\ (pow2 972 <= dyadic m2 e1)%Q
       | S754_nan => False
       end.
Proof.
  intros Hm Hprec.
  unfold binary_round_aux, shr_fexp.
  set (n1 := fexp prec emax (Zdigits2 m + e) - e).
  pose proof (shr_spec m e l n1 Hm) as H1.
  destruct (shr (shr_record_of_loc m l) e n1) as [mrs1 e1].
  destruct H1 as (He1 & Hm1 & Hl1).
  set (m1 := shr_m mrs1) in *. set (l1 := loc_of_shr_record mrs1) in *.
  assert (Ee1 : e1 = Z.max e (fexp prec emax (Zdigits2 m + e))) by (unfold n1 in He1; lia).
  assert (Ek : Z.max n1 0 = e1 - e) by lia.
  rewrite Ek in Hm1.
  assert (Hpow1 : 0 < 2 ^ (e1 - e)) by (apply Z.pow_pos_nonneg; lia).
  assert (Hm1nn : 0 <= m1) by (rewrite Hm1; apply Z.div_pos; lia).
  set (m2 := round_nearest_even m1 l1).
  assert (Hm2 : m2 = m1 \/ (m2 = m1 + 1 /\ (is_exact l = false \/ m mod 2 ^ (e1 - e) <> 0))).
  { unfold m2. destruct (round_nearest_even_cases m1 l1) as [-> | (-> & Hinex)]; [auto |].
    right. split; [reflexivity |].
    destruct (Hl1 Hinex) as [Hl | (Hn & Hmod)]; [auto |].
    right. replace (e1 - e) with n1 by lia. exact Hmod. }
  assert (Hm2nn : 0 <= m2) by (destruct Hm2 as [-> | (-> & _)]; lia).
  exists m2, e1. split; [exact Ee1 |]. split; [rewrite <- Hm1; exact Hm2 |].
  (* the second shift is exact *)
  set (n2 := fexp prec emax (Zdigits2 m2 + e1) - e1).
  assert (Hn2 : n2 <= 0 \/ (m2 = 2 ^ 53 /\ n2 = 1)).
  { destruct (Z_lt_ge_dec n1 0) as [Hneg | Hnn].
    - (* no first shift: the input was exact and is kept *)
      assert (Hl : is_exact l = true).
      { destruct (is_exact l) eqn:El; [reflexivity |]. specialize (Hprec eq_refl). lia. }
      assert (E1 : e1 = e) by lia.
      assert (Em1 : m1 = m) by (rewrite Hm1, E1, Z.sub_diag, Z.div_1_r; reflexivity).
      assert (Em2 : m2 = m).
      { destruct Hm2 as [-> | (_ & [Hc | Hc])]; [exact Em1 | congruence |].
        rewrite E1, Z.sub_diag, Z.mod_1_r in Hc. congruence. }
      left. unfold n2. rewrite Em2, E1. fold n1. lia.
    - assert (E1 : e1 = fexp prec emax (Zdigits2 m + e)) by lia.
      rewrite fexp_eq in E1.
      assert (Hlt : m1 < 2 ^ 53).
      { rewrite Hm1. apply Z.div_lt_upper_bound; [lia |].
        rewrite <- Z.pow_add_r by lia.
        destruct (Z.eq_dec m 0) as [-> | Hm0]; [apply Z.pow_pos_nonneg; lia |].
        pose proof (Zdigits2_bounds m ltac:(lia)) as (_ & Hd).
        eapply Z.lt_le_trans; [exact Hd |].
        apply Z.pow_le_mono_r; lia. }
      unfold n2. rewrite fexp_eq.
      destruct (Z_le_gt_dec (Zdigits2 m2) 53) as [Hd2 | Hd2]; [left; lia |].
      right.
      assert (Hm2pos : 0 < m2).
      { destruct (Z.eq_dec m2 0) as [E0 | ]; [rewrite E0 in Hd2; simpl in Hd2; lia | lia]. }
      pose proof (Zdigits2_bounds m2 Hm2pos) as (Hlo & _).
      assert (2 ^ 53 <= 2 ^ (Zdigits2 m2 - 1)) by (apply Z.pow_le_mono_r; lia).
      assert (Em2 : m2 = 2 ^ 53) by (destruct Hm2 as [E | (E & _)]; lia).
      split; [exact Em2 |]. rewrite Em2.
      change (Zdigits2 (2 ^ 53)) with 54. lia. }
  pose proof (shr_spec m2 e1 loc_Exact n2 Hm2nn) as H2.
  destruct (shr (shr_record_of_loc m2 loc_Exact) e1 n2) as [mrs2 e2].
  destruct H2 as (He2 & Hm3 & _).
  assert (Hval : (dyadic (shr_m mrs2) e2 == dyadic m2 e1)%Q).
  { rewrite Hm3, He2. destruct Hn2 as [Hle | (Em2 & En2)].
    - replace (Z.max n2 0) with 0 by lia. rewrite Z.div_1_r, Z.add_0_r. reflexivity.
    - rewrite En2, Em2. change (Z.max 1 0) with 1.
      rewrite <- dyadic_shift by lia. reflexivity. }
  assert (Hm3nn : 0 <= shr_m mrs2).
  { rewrite Hm3. apply Z.div_pos; [lia |]. apply Z.pow_pos_nonneg; lia. }
  destruct (shr_m mrs2) as [| p | p] eqn:E3; [| | lia].
  - split; [reflexivity |]. destruct Hn2 as [Hle | (Em2 & En2)].
    + replace (Z.max n2 0) with 0 in Hm3 by lia. rewrite Z.div_1_r in Hm3. congruence.
    + rewrite Em2, En2 in Hm3. discriminate.
  - destruct (Z.leb_spec e2 (emax - prec)) as [Hle | Hgt].
    + split; [reflexivity | exact Hval].
    + split; [reflexivity |]. rewrite <- Hval.
      apply Qle_trans with (pow2 e2).
      * apply pow2_le. unfold emax, prec in Hgt. lia.
      * unfold dyadic. rewrite <- (Qmult_1_l (pow2 e2)) at 1.
        apply Qmult_le_compat_r; [| apply Qlt_le_weak, pow2_pos].
        change 1%Q with (inject_Z 1). rewrite <- Zle_Qle. lia.
Qed.

Definition finite_or_zero (s : bool) (r : number) : Prop :=
  r = S754_zero s \/ exists m e, r = S754_finite s m e.

Lemma dyadic_succ m e : (dyadic (m + 1) e == dyadic m e + pow2 e)%Q.
Proof. unfold dyadic. rewrite inject_Z_plus. ring. Qed.

(** A rounding lands within one unit of the exponent it rounds at. *)
Lemma binary_round_aux_near (s : bool) (m e : Z) (l : location) (x : Q) (E : Z) :
  0 <= m ->
  located2 x m e l ->
  (is_exact l = false -> e <= fexp prec emax (Zdigits2 m + e)) ->
  (x < pow2 (E + 53))%Q ->
  -1074 <= E <= 918 ->
  let r := binary_round_aux prec emax s m e l in
  finite_or_zero s r /\ (x - pow2 E <= SFmag r <= x + pow2 E)%Q.
Proof.
  intros Hm (Hloc & Hup) Hprec Hx HE r.
  pose proof (located_ge _ _ _ _ Hloc) as Hge.
  destruct (binary_round_aux_shape s m e l Hm Hprec) as (m2 & e1 & Ee1 & Hm2 & Hres).
  fold r in Hres.
  assert (HpE : (0 < pow2 E)%Q) by apply pow2_pos.
  assert (Hval : (x - pow2 E <= dyadic m2 e1 <= x + pow2 E)%Q).
  { destruct (Z_lt_ge_dec (fexp prec emax (Zdigits2 m + e)) e) as [Hlt | Hnn].
    - (* nothing is shifted out: the value is kept *)
      assert (Hl : is_exact l = true).
      { destruct (is_exact l) eqn:El; [reflexivity |]. specialize (Hprec eq_refl). lia. }
      assert (E1 : e1 = e) by lia.
      rewrite E1, Z.sub_diag, Z.div_1_r, Z.mod_1_r in Hm2.
      assert (Em2 : m2 = m) by (destruct Hm2 as [-> | (_ & [Hc | Hc])]; congruence).
      unfold located in Hloc. rewrite Hl in Hloc. rewrite Em2, E1, <- Hloc. lra.
    - assert (E1 : e1 = fexp prec emax (Zdigits2 m + e)) by lia.
      assert (Hk : 0 <= e1 - e) by lia.
      assert (Hpow : 0 < 2 ^ (e1 - e)) by (apply Z.pow_pos_nonneg; lia).
      assert (He1 : e1 <= E).
      { rewrite E1, fexp_eq. apply Z.max_lub; [| lia].
        destruct (Z.eq_dec m 0) as [-> | Hm0].
        - rewrite E1, fexp_eq in Hk. simpl in *. lia.
        - assert (Hlt : (pow2 (Zdigits2 m - 1 + e) < pow2 (E + 53))%Q).
          { eapply Qle_lt_trans; [apply dyadic_lower; lia |].
            eapply Qle_lt_trans; [exact Hge | exact Hx]. }
          apply pow2_lt_inv in Hlt. lia. }
      pose proof (pow2_le _ _ He1) as Hp1.
      set (m1 := m / 2 ^ (e1 - e)) in *.
      assert (Ha : (dyadic m1 e1 <= x)%Q).
      { apply Qle_trans with (dyadic m e); [| exact Hge].
        replace e1 with (e + (e1 - e)) by lia. apply dyadic_div_le; lia. }
      assert (Hb : (x < dyadic (m1 + 1) e1)%Q).
      { apply Qlt_le_trans with (dyadic (m + 1) e); [exact Hup |].
        replace e1 with (e + (e1 - e)) at 1 by lia.
        rewrite <- dyadic_shift by lia. apply dyadic_le_same.
        pose proof (Z.div_mod m (2 ^ (e1 - e)) ltac:(lia)).
        pose proof (Z.mod_pos_bound m (2 ^ (e1 - e)) Hpow). fold m1 in H. nia. }
      rewrite dyadic_succ in Hb.
      destruct Hm2 as [-> | (-> & _)]; [| rewrite dyadic_succ]; lra. }
  destruct r as [s' | s' | | s' m' e'].
  - destruct Hres as (-> & ->). split; [left; reflexivity |].
    simpl. unfold dyadic in Hval. rewrite Qmult_0_l in Hval. exact Hval.
  - exfalso. destruct Hres as (_ & Hbig).
    assert (Hc : (pow2 972 < pow2 (E + 54))%Q).
    { eapply Qle_lt_trans; [exact Hbig |].
      eapply Qle_lt_trans; [apply Hval |].
      replace (E + 54) with (1 + (E + 53)) by lia. rewrite pow2_add.
      change (pow2 1) with 2%Q.
      assert (pow2 E <= pow2 (E + 53))%Q by (apply pow2_le; lia). lra. }
    apply pow2_lt_inv in Hc. lia.
  - contradiction.
  - destruct Hres as (-> & Hv). split; [right; eauto |].
    change (SFmag (S754_finite s m' e')) with (dyadic (Z.pos m') e').
    rewrite Hv. exact Hval.
Qed.

Lemma num_mul_near sx mx ex sy my ey E :
  let x := (dyadic (Z.pos mx) ex * dyadic (Z.pos my) ey)%Q in
  (x < pow2 (E + 53))%Q -> -1074 <= E <= 918 ->
  let r := num_mul (S754_finite sx mx ex) (S754_finite sy my ey) in
  finite_or_zero (xorb sx sy) r /\ (x - pow2 E <= SFmag r <= x + pow2 E)%Q.
Proof.
  intros x Hx HE. unfold num_mul, SFmul.
  apply binary_round_aux_near; try assumption; try lia; try discriminate.
  assert (Ex : (x == dyadic (Z.pos (mx * my)) (ex + ey))%Q)
    by (unfold x; rewrite dyadic_mul; reflexivity).
  split.
  - exact Ex.
  - rewrite Ex, dyadic_succ. pose proof (pow2_pos (ex + ey)). lra.
Qed.

Lemma num_div_near sx mx ex sy my ey E :
  let x := (dyadic (Z.pos mx) ex / dyadic (Z.pos my) ey)%Q in
  (x < pow2 (E + 53))%Q -> -1074 <= E <= 918 ->
  let r := num_div (S754_finite sx mx ex) (S754_finite sy my ey) in
  finite_or_zero (xorb sx sy) r /\ (x - pow2 E <= SFmag r <= x + pow2 E)%Q.
Proof.
  intros x Hx HE. unfold num_div, SFdiv.
  pose proof (SFdiv_core_located mx ex my ey) as Hcore.
  destruct (SFdiv_core_binary prec emax (Z.pos mx) ex (Z.pos my) ey) as [[q e'] l].
  destruct Hcore as (Hq & Hloc & Hprec).
  apply binary_round_aux_near; assumption.
Qed.


(** *** The percent of a count *)

Definition percent_number (num total : Z) : number :=
  num_mul (num_div (Z2SF num) (Z2SF total)) (Z2SF 100).

Lemma Z2SF_100 : Z2SF 100 = S754_finite false 7036874417766400 (-46).
Proof. reflexivity. Qed.

Lemma dyadic_100 : (dyadic 7036874417766400 (-46) == 100)%Q.
Proof. reflexivity. Qed.

Lemma SFmag_zero s : SFmag (S754_zero s) = 0%Q.
Proof. reflexivity. Qed.

Lemma inject_Z_pos z : 0 < z -> (0 < inject_Z z)%Q.
Proof. intros H. change 0%Q with (inject_Z 0). rewrite <- Zlt_Qlt. exact H. Qed.

(** The percent is at most [cap * 100] when the count is at most
    [cap * total], for a power of two [cap = 2^k]. *)
Lemma percent_number_bound num total k :
  0 <= num < 2 ^ 53 -> 0 < total < 2 ^ 53 -> 0 <= k <= 53 -> num <= 2 ^ k * total ->
  bounded_by false 25 (k + 2) (percent_number num total).
Proof.
  intros Hn Ht Hk Hle. unfold percent_number.
  destruct (Z2SF_exact total ltac:(lia)) as (mt & et & -> & Et).
  destruct (Z.eq_dec num 0) as [-> | Hn0]; [reflexivity |].
  destruct (Z2SF_exact num ltac:(lia)) as (mc & ec & -> & Ec).
  assert (Hpk : (dyadic 1 k == pow2 k)%Q) by (unfold dyadic; ring).
  assert (Epk : (pow2 k == inject_Z (2 ^ k))%Q) by (apply pow2_inject; lia).
  assert (Hq : bounded_by false 1 k
                 (num_div (S754_finite false mc ec) (S754_finite false mt et))).
  { apply (num_div_bound false mc ec false mt et 1 k); try lia.
    rewrite Ec, Et, Hpk, Epk, <- inject_Z_mult, <- Zle_Qle. exact Hle. }
  destruct (num_div (S754_finite false mc ec) (S754_finite false mt et))
    as [sq | sq | | sq mq eq]; simpl in Hq; try contradiction.
  - subst sq. reflexivity.
  - destruct Hq as (-> & Hq). rewrite Z2SF_100.
    apply (num_mul_bound false mq eq false _ _ 25 (k + 2)); try lia.
    rewrite dyadic_100. rewrite Hpk in Hq.
    assert (E25 : (dyadic 25 (k + 2) == pow2 k * 100)%Q).
    { unfold dyadic. rewrite pow2_add. change (pow2 2) with 4%Q. ring. }
    rewrite E25. pose proof (pow2_pos k). lra.
Qed.

(** The tenths [toFixed(1)] prints for a Number [p >= 0]. *)
Definition tenths_of (p : number) : Z := Qfloor (SFmag p * 10 + (1 # 2)).

Lemma SFmag_nonneg p : (0 <= SFmag p)%Q.
Proof.
  destruct p as [| | | s m e]; simpl; try apply Qle_refl.
  apply Qlt_le_weak, dyadic_pos.
Qed.

Lemma toFixed1_bounded p y k :
  bounded_by false y k p -> 0 < y -> (dyadic y k < inject_Z (10 ^ 21))%Q ->
  toFixed1 p = Ok (fixed1 (tenths_of p))
  /\ 0 <= tenths_of p <= Qfloor (dyadic y k * 10 + (1 # 2)).
Proof.
  intros Hb Hpos Hy. pose proof (SFmag_nonneg p) as H0.
  assert (Hlo : 0 <= tenths_of p).
  { unfold tenths_of. change 0 with (Qfloor 0). apply Qfloor_resp_le. lra. }
  destruct p as [s | s | | s m e]; simpl in Hb; try contradiction.
  - subst s. split; [reflexivity |]. split; [exact Hlo |].
    change (tenths_of (S754_zero false)) with (Qfloor 0). apply Qfloor_resp_le.
    assert (0 < dyadic y k)%Q; [| lra].
    destruct y as [| y | y]; try lia. apply dyadic_pos.
  - destruct Hb as (-> & Hb). split; [| split; [exact Hlo |]].
    + unfold toFixed1.
      replace (Qle_bool (inject_Z (10 ^ 21)) (SFmag (S754_finite false m e))) with false.
      * reflexivity.
      * symmetry. apply not_true_is_false. intros Hc. apply Qle_bool_iff in Hc.
        change (SFmag (S754_finite false m e)) with (dyadic (Z.pos m) e) in Hc. lra.
    + apply Qfloor_resp_le.
      change (SFmag (S754_finite false m e)) with (dyadic (Z.pos m) e). lra.
Qed.

(** *** How far the computed percent is from the exact one *)

Definition percent_error : Q := 41 # 1125899906842624.   (* 2^-46 + 100 * 2^-52 *)

Lemma pow2_m46 : (pow2 (-46) == 1 # 70368744177664)%Q.
Proof. reflexivity. Qed.

Lemma pow2_m52 : (pow2 (-52) == 1 # 4503599627370496)%Q.
Proof. reflexivity. Qed.

Lemma percent_number_near num total :
  0 <= num <= total -> 0 < total < 2 ^ 53 ->
  let x := (100 * inject_Z num / inject_Z total)%Q in
  (x - percent_error <= SFmag (percent_number num total) <= x + percent_error)%Q.
Proof.
  intros Hn Ht x. unfold percent_number.
  pose proof (inject_Z_pos total ltac:(lia)) as HT.
  assert (Hx : (0 <= x <= 100)%Q).
  { unfold x. split.
    - apply Qle_shift_div_l; [exact HT |]. rewrite Qmult_0_l.
      change 0%Q with (100 * inject_Z 0)%Q. apply Qmult_le_l; [reflexivity |].
      rewrite <- Zle_Qle. lia.
    - apply Qle_shift_div_r; [exact HT |]. apply Qmult_le_l; [reflexivity |].
      rewrite <- Zle_Qle. lia. }
  destruct (Z2SF_exact total ltac:(lia)) as (mt & et & -> & Et).
  destruct (Z.eq_dec num 0) as [-> | Hn0].
  { simpl. unfold x, percent_error. change (inject_Z 0) with 0%Q.
    unfold Qdiv. rewrite Qmult_0_r, Qmult_0_l. split; discriminate. }
  destruct (Z2SF_exact num ltac:(lia)) as (mc & ec & -> & Ec).
  pose proof (num_div_near false mc ec false mt et (-52)) as Hq.
  cbv zeta in Hq. rewrite Ec, Et in Hq.
  assert (Ex : (x == 100 * (inject_Z num / inject_Z total))%Q).
  { unfold x. field. intros H0. rewrite H0 in HT. discriminate. }
  set (x1 := (inject_Z num / inject_Z total)%Q) in *.
  assert (Hx1 : (x1 <= 1)%Q).
  { unfold x1. apply Qle_shift_div_r; [exact HT |]. rewrite Qmult_1_l, <- Zle_Qle. lia. }
  destruct Hq as (Hfz & Hnear); [| lia |].
  { change (pow2 (-52 + 53)) with 2%Q. lra. }
  rewrite pow2_m52 in Hnear. simpl xorb in Hfz. rewrite Z2SF_100.
  destruct Hfz as [Hz | (mq & eq & Hz)]; rewrite Hz in *.
  - simpl in Hnear |- *. unfold percent_error. lra.
  - change (SFmag (S754_finite false mq eq)) with (dyadic (Z.pos mq) eq) in Hnear.
    pose proof (num_mul_near false mq eq false 7036874417766400 (-46) (-46)) as Hp.
    cbv zeta in Hp. rewrite dyadic_100 in Hp.
    destruct Hp as (_ & Hp); [| lia |].
    { change (pow2 (-46 + 53)) with 128%Q. lra. }
    rewrite pow2_m46 in Hp. unfold percent_error. lra.
Qed.

(** Within the range where that error cannot cross a half tenth, the printed
    tenths are a closest integer to the exact [1000 * num / total]. *)
Lemma tenths_nearest num total :
  0 <= num <= total -> 0 < total <= 2 ^ 40 ->
  let n := tenths_of (percent_number num total) in
  - total <= 2 * (n * total - 1000 * num) <= total.
Proof.
  intros Hn Ht n.
  pose proof (percent_number_near num total Hn ltac:(lia)) as Hnear. cbv zeta in Hnear.
  set (P := SFmag (percent_number num total)) in *.
  pose proof (Qfloor_le (P * 10 + (1 # 2))) as Hfl.
  pose proof (Qlt_floor (P * 10 + (1 # 2))) as Hfu.
  change (Qfloor (P * 10 + (1 # 2))) with n in Hfl, Hfu.
  rewrite inject_Z_plus in Hfu. change (inject_Z 1) with 1%Q in Hfu.
  set (N := inject_Z n) in *. set (T := inject_Z total) in *. set (C := inject_Z num) in *.
  assert (HT : (0 < T)%Q) by (apply inject_Z_pos; lia).
  assert (HT40 : (T <= 1099511627776)%Q).
  { unfold T. change 1099511627776%Q with (inject_Z (2 ^ 40)). rewrite <- Zle_Qle. lia. }
  assert (Ediv : (100 * C / T * T == 100 * C)%Q).
  { field. intros H0. rewrite H0 in HT. discriminate. }
  set (x := (100 * C / T)%Q) in *. unfold percent_error in Hnear.
  assert (H1 : (P * T <= (x + (41 # 1125899906842624)) * T)%Q)
    by (apply Qmult_le_compat_r; lra).
  assert (H2 : ((x - (41 # 1125899906842624)) * T <= P * T)%Q)
    by (apply Qmult_le_compat_r; lra).
  assert (H3 : (N * T <= (P * 10 + (1 # 2)) * T)%Q)
    by (apply Qmult_le_compat_r; lra).
  assert (H4 : ((P * 10 + (1 # 2)) * T <= (N + 1) * T)%Q)
    by (apply Qmult_le_compat_r; lra).
  assert (Hup : (2 * (N * T - 1000 * C) < T + 1)%Q) by lra.
  assert (Hlo : (- T - 1 < 2 * (N * T - 1000 * C))%Q) by lra.
  unfold N, T, C, Qlt, Qminus, Qplus, Qmult, Qopp, inject_Z in Hup, Hlo.
  cbn [Qnum Qden] in Hup, Hlo. nia.
Qed.


(** ** The renderer: percent texts and bars *)

(** *** The text of a percent *)

Lemma dec_fuel_digits fuel n : Forall (fun c => is_digit c = true) (dec_fuel fuel n).
Proof.
  revert n. induction fuel as [| fuel IH]; intros n; cbn [dec_fuel]; [constructor |].
  destruct (N.ltb_spec n 10).
  - constructor; [| constructor]. unfold is_digit.
    apply andb_true_intro. split; apply N.leb_le; lia.
  - apply Forall_app. split; [apply IH |]. constructor; [| constructor].
    unfold is_digit. pose proof (N.mod_lt n 10 ltac:(discriminate)) as Hd.
    set (d := (n mod 10)%N) in *. clearbody d.
    apply andb_true_intro. split; apply N.leb_le; lia.
Qed.

Lemma dec_nonempty n : dec n <> [].
Proof.
  unfold dec. cbn [dec_fuel]. destruct (n <? 10)%N; [discriminate |].
  intros H. apply app_eq_nil in H. destruct H; discriminate.
Qed.

Lemma dec_digit d : (d < 10)%N -> dec d = [(48 + d)%N].
Proof. intros H. unfold dec. cbn [dec_fuel]. apply N.ltb_lt in H. rewrite H. reflexivity. Qed.

(** A text with exactly one decimal: digits, a point, one digit. *)
Definition one_decimal (s : jsstring) : Prop :=
  exists int_part d,
    s = int_part ++ [46%N; d]
    /\ int_part <> []
    /\ Forall (fun c => is_digit c = true) int_part
    /\ is_digit d = true.

Lemma fixed1_one_decimal n : 0 <= n -> one_decimal (fixed1 n).
Proof.
  intros Hn. unfold fixed1.
  pose proof (Z.mod_pos_bound n 10 ltac:(lia)) as Hd.
  set (r := n mod 10) in *. clearbody r.
  exists (dec (Z.to_N (n / 10))), (48 + Z.to_N r)%N.
  rewrite (dec_digit (Z.to_N r)) by lia. split; [reflexivity |].
  split; [apply dec_nonempty |]. split; [apply dec_fuel_digits |].
  unfold is_digit. apply andb_true_intro. split; apply N.leb_le; lia.
Qed.

(** *** Bars *)

(** [k] copies of a glyph. *)
Definition glyphs (g : jsstring) (k : Z) : jsstring :=
  concat (List.repeat g (Z.to_nat k)).

(** [filled] cells of the full block, then light shade up to 20 cells. *)
Definition bar (filled : Z) : jsstring :=
  glyphs (js "█") filled ++ glyphs (js "░") (20 - filled).

Lemma glyphs_length c k : length (glyphs [c] k) = Z.to_nat k.
Proof.
  unfold glyphs. induction (Z.to_nat k) as [| i IH]; simpl; [reflexivity |].
  rewrite IH. reflexivity.
Qed.

Lemma bar_length filled : 0 <= filled <= 20 -> length (bar filled) = 20%nat.
Proof.
  intros H. unfold bar. rewrite length_app.
  change (js "█") with [9608%N]. change (js "░") with [9617%N].
  rewrite !glyphs_length. lia.
Qed.

(** [round(percent / 100 * 20)] for the percent [n / 10], in exact arithmetic,
    halves rounded up as Math.round does. *)
Definition filled_cells (n : Z) : Z := Qfloor ((n # 10) / 100 * 20 + (1 # 2)).

Definition jsstring_eqb (a b : jsstring) : bool :=
  if list_eq_dec N.eq_dec a b then true else false.

Lemma jsstring_eqb_eq a b : jsstring_eqb a b = true -> a = b.
Proof. unfold jsstring_eqb. destruct (list_eq_dec N.eq_dec a b); [auto | discriminate]. Qed.

(** What is checked, by evaluation, for each of the 1001 percents with one
    decimal from 0.0 to 100.0: the text reads back as a Number between 0 and
    100, and both versions of getBar return the bar with [filled_cells] cells
    filled. *)
Definition check_percent (n : Z) : bool :=
  match ToNumber (JStr (fixed1 n)), Shared.getBar (JStr (fixed1 n)),
        Part001a.getBar (JStr (fixed1 n)) with
  | Ok x, Ok b, Ok b' =>
    negb (SFsign x) && Qle_bool (SFmag x) 100
    && jsstring_eqb b (bar (filled_cells n)) && jsstring_eqb b' (bar (filled_cells n))
    && (0 <=? filled_cells n) && (filled_cells n <=? 20)
  | _, _, _ => false
  end.

Lemma check_all_percents : forallb check_percent (map Z.of_nat (seq 0 1001)) = true.
Proof. vm_compute. reflexivity. Qed.

Lemma check_percent_ok n : 0 <= n <= 1000 -> check_percent n = true.
Proof.
  intros Hn. pose proof check_all_percents as H.
  rewrite forallb_forall in H. apply H.
  apply in_map_iff. exists (Z.to_nat n). split; [lia |]. apply in_seq. lia.
Qed.

Lemma getBar_of_tenths n :
  0 <= n <= 1000 ->
  Shared.getBar (JStr (fixed1 n)) = Ok (bar (filled_cells n))
  /\ Part001a.getBar (JStr (fixed1 n)) = Ok (bar (filled_cells n))
  /\ 0 <= filled_cells n <= 20
  /\ exists x, ToNumber (JStr (fixed1 n)) = Ok x
               /\ SFsign x = false /\ (SFmag x <= 100)%Q.
Proof.
  intros Hn. pose proof (check_percent_ok n Hn) as H. unfold check_percent in H.
  destruct (ToNumber (JStr (fixed1 n))) as [x |]; [| discriminate].
  destruct (Shared.getBar (JStr (fixed1 n))) as [b |]; [| discriminate].
  destruct (Part001a.getBar (JStr (fixed1 n))) as [b' |]; [| discriminate].
  repeat (apply andb_prop in H; destruct H as (H & ?)).
  repeat match goal with
         | H : jsstring_eqb _ _ = true |- _ => apply jsstring_eqb_eq in H; subst
         end.
  split; [reflexivity |]. split; [reflexivity |]. split; [lia |].
  exists x. split; [reflexivity |]. split.
  - destruct (SFsign x); [discriminate | reflexivity].
  - apply Qle_bool_iff. assumption.
Qed.


(** *** getPercent *)

Lemma Shared_getPercent_zero stats num :
  total stats = 0 -> Shared.getPercent stats num = Ok (JNum (Z2SF 0)).
Proof. intros H. unfold Shared.getPercent. rewrite H. reflexivity. Qed.

Lemma Part001a_getPercent_zero stats num :
  total stats = 0 -> Part001a.getPercent stats num = Ok (JStr (js "0.0")).
Proof. intros H. unfold Part001a.getPercent. rewrite H. reflexivity. Qed.

(** With a total that is not 0 both versions print the tenths of the same
    Number, [(num / total) * 100]. *)
Lemma getPercent_nonzero stats num :
  0 <= num < 2 ^ 53 -> 0 < total stats < 2 ^ 53 ->
  let n := tenths_of (percent_number num (total stats)) in
  Shared.getPercent stats num = Ok (JStr (fixed1 n))
  /\ Part001a.getPercent stats num = Ok (JStr (fixed1 n))
  /\ 0 <= n
  /\ (num <= total stats -> n <= 1000).
Proof.
  intros Hn Ht n.
  assert (Hz : (total stats =? 0) = false) by (apply Z.eqb_neq; lia).
  unfold Shared.getPercent, Part001a.getPercent. rewrite Hz.
  fold (percent_number num (total stats)).
  pose proof (percent_number_bound num (total stats) 53 Hn Ht ltac:(lia) ltac:(nia)) as Hb.
  destruct (toFixed1_bounded _ _ _ Hb ltac:(lia) ltac:(reflexivity)) as (-> & Hlo & _).
  fold n. simpl. repeat split; try lia.
  intros Hle.
  pose proof (percent_number_bound num (total stats) 0 Hn Ht ltac:(lia) ltac:(lia)) as Hb0.
  destruct (toFixed1_bounded _ _ _ Hb0 ltac:(lia) ltac:(reflexivity)) as (_ & _ & Hhi).
  exact Hhi.
Qed.

(** *** getBar on any Number between 0 and 100 *)

(** A finite Number from 0 (of either sign) to [hi]. *)
Definition in_range (hi : Q) (x : number) : Prop :=
  match x with
  | S754_zero _ => True
  | S754_finite false m e => (dyadic (Z.pos m) e <= hi)%Q
  | _ => False
  end.

Lemma bounded_in_range y k r hi :
  bounded_by false y k r -> (dyadic y k == hi)%Q -> in_range hi r.
Proof.
  intros Hb E. destruct r as [s | s | | s m e]; simpl in *; try tauto.
  destruct Hb as (-> & Hb). rewrite <- E. exact Hb.
Qed.

(** What Math.round returns for the integer [v] reached from sign [s]. *)
Definition rounded (s : bool) (v : Z) : number :=
  if v =? 0 then S754_zero s else Z2SF v.

Definition check_cells (v : Z) : bool :=
  forallb
    (fun s =>
       match String_repeat (js "█") (rounded s v),
             String_repeat (js "░") (num_sub (Z2SF 20) (rounded s v)) with
       | Ok a, Ok b =>
         jsstring_eqb a (glyphs (js "█") v) && jsstring_eqb b (glyphs (js "░") (20 - v))
       | _, _ => false
       end)
    [true; false].

Lemma check_all_cells : forallb check_cells (map Z.of_nat (seq 0 21)) = true.
Proof. vm_compute. reflexivity. Qed.

Lemma cells_of_rounded s v :
  0 <= v <= 20 ->
  String_repeat (js "█") (rounded s v) = Ok (glyphs (js "█") v)
  /\ String_repeat (js "░") (num_sub (Z2SF 20) (rounded s v))
     = Ok (glyphs (js "░") (20 - v)).
Proof.
  intros Hv. pose proof check_all_cells as H. rewrite forallb_forall in H.
  specialize (H v). unfold check_cells in H. rewrite forallb_forall in H.
  assert (Hin : In v (map Z.of_nat (seq 0 21))).
  { apply in_map_iff. exists (Z.to_nat v). split; [lia |]. apply in_seq. lia. }
  specialize (H Hin s ltac:(destruct s; simpl; auto)).
  destruct (String_repeat (js "█") (rounded s v)) as [a |]; [| discriminate].
  destruct (String_repeat (js "░") (num_sub (Z2SF 20) (rounded s v))) as [b |];
    [| discriminate].
  apply andb_prop in H. destruct H as (Ha & Hb).
  apply jsstring_eqb_eq in Ha, Hb. subst. split; reflexivity.
Qed.

(** Math.round of a Number between 0 and 20, and the bar made from it. *)
Lemma Math_round_cells y :
  in_range 20 y ->
  let v := Qfloor (SF2Q y + (1 # 2)) in
  0 <= v <= 20 /\ Math_round y = rounded (SFsign y) v.
Proof.
  intros Hy v. destruct y as [s | s | | s m e]; simpl in Hy; try contradiction.
  - destruct s; (split; [| reflexivity]); subst v; vm_compute; split; discriminate.
  - destruct s; [contradiction |]. split; [| reflexivity].
    pose proof (dyadic_pos m e) as Hpos. subst v. unfold SF2Q. simpl SFsign. cbv iota.
    change (SFmag (S754_finite false m e)) with (dyadic (Z.pos m) e). split.
    + change 0 with (Qfloor 0). apply Qfloor_resp_le. lra.
    + change 20 with (Qfloor (20 + (1 # 2))). apply Qfloor_resp_le. lra.
Qed.

Lemma bar_of_cells y :
  in_range 20 y ->
  let v := Qfloor (SF2Q y + (1 # 2)) in
  0 <= v <= 20
  /\ rbind (String_repeat (js "█") (Math_round y))
       (fun a => rbind (String_repeat (js "░") (num_sub (Z2SF 20) (Math_round y)))
                   (fun b => Ok (a ++ b)))
     = Ok (bar v).
Proof.
  intros Hy v. destruct (Math_round_cells y Hy) as (Hv & ->). fold v.
  destruct (cells_of_rounded (SFsign y) v Hv) as (-> & ->).
  split; [exact Hv | reflexivity].
Qed.

Lemma Z2SF_5 : Z2SF 5 = S754_finite false 5629499534213120 (-50).
Proof. reflexivity. Qed.

Lemma Z2SF_20 : Z2SF 20 = S754_finite false 5629499534213120 (-48).
Proof. reflexivity. Qed.

Lemma percent_over_5 x : in_range 100 x -> in_range 20 (num_div x (Z2SF 5)).
Proof.
  intros Hx. rewrite Z2SF_5.
  destruct x as [s | s | | s m e]; simpl in Hx; try contradiction; [exact I |].
  destruct s; [contradiction |].
  apply (bounded_in_range 5 2); [| reflexivity].
  apply (num_div_bound false m e false _ _ 5 2); try lia.
  assert (E : (dyadic 5 2 * dyadic 5629499534213120 (-50) == 100)%Q) by reflexivity.
  rewrite E. exact Hx.
Qed.

Lemma percent_over_100_times_20 x :
  in_range 100 x -> in_range 20 (num_mul (num_div x (Z2SF 100)) (Z2SF 20)).
Proof.
  intros Hx. rewrite Z2SF_100, Z2SF_20.
  destruct x as [s | s | | s m e]; simpl in Hx; try contradiction; [exact I |].
  destruct s; [contradiction |].
  assert (Hq : bounded_by false 1 0
                 (num_div (S754_finite false m e)
                    (S754_finite false 7036874417766400 (-46)))).
  { apply (num_div_bound false m e false _ _ 1 0); try lia.
    assert (E : (dyadic 1 0 * dyadic 7036874417766400 (-46) == 100)%Q) by reflexivity.
    rewrite E. exact Hx. }
  destruct (num_div _ _) as [sq | sq | | sq mq eq]; simpl in Hq; try contradiction;
    [exact I |].
  destruct Hq as (-> & Hq).
  apply (bounded_in_range 5 2); [| reflexivity].
  apply (num_mul_bound false mq eq false _ _ 5 2); try lia.
  assert (E1 : (dyadic 1 0 == 1)%Q) by reflexivity.
  assert (E20 : (dyadic 5629499534213120 (-48) == 20)%Q) by reflexivity.
  assert (E5 : (dyadic 5 2 == 20)%Q) by reflexivity.
  rewrite E1 in Hq. rewrite E20, E5. lra.
Qed.

(** For every Number from 0 to 100 getBar returns, without throwing, a bar
    of 20 cells whose filled part is Math.round of the quotient. *)
Lemma getBar_of_number x :
  in_range 100 x ->
  let f := Qfloor (SF2Q (num_div x (Z2SF 5)) + (1 # 2)) in
  let f' := Qfloor (SF2Q (num_mul (num_div x (Z2SF 100)) (Z2SF 20)) + (1 # 2)) in
  (0 <= f <= 20 /\ Shared.getBar (JNum x) = Ok (bar f))
  /\ (0 <= f' <= 20 /\ Part001a.getBar (JNum x) = Ok (bar f')).
Proof.
  intros Hx f f'. split.
  - exact (bar_of_cells _ (percent_over_5 x Hx)).
  - exact (bar_of_cells _ (percent_over_100_times_20 x Hx)).
Qed.

(** *** The claims on percents and bars *)

(** C4.  For counts and a total that are integers below 2^53: when the total
    is 0, getPercent returns 0 (the Number 0 in update_gist.js, part_000 and
    the second script of part_001; the text 0.0 in the first script of
    part_001) and the division is not evaluated; when the total is not 0 it
    returns the text with one decimal of n / 10, where n is the integer closest
    to ten times the Number (num / total) * 100, the larger one on a tie; and
    for num <= total <= 2^40 that n is a closest integer to the exact value
    1000 * num / total: the text is the percent rounded to one decimal. *)
Theorem C4_percent_one_decimal (stats : CommitStats) (num : Z) :
  0 <= num < 2 ^ 53 -> 0 <= total stats < 2 ^ 53 ->
  (total stats = 0 ->
     Shared.getPercent stats num = Ok (JNum (Z2SF 0))
     /\ Part001a.getPercent stats num = Ok (JStr (js "0.0")))
  /\ (total stats <> 0 ->
      exists n,
        Shared.getPercent stats num = Ok (JStr (fixed1 n))
        /\ Part001a.getPercent stats num = Ok (JStr (fixed1 n))
        /\ one_decimal (fixed1 n)
        /\ (inject_Z n - (1 # 2)
              <= 10 * SFmag (num_mul (num_div (Z2SF num) (Z2SF (total stats))) (Z2SF 100))
              < inject_Z n + (1 # 2))%Q
        /\ (num <= total stats <= 2 ^ 40 ->
            - total stats <= 2 * (n * total stats - 1000 * num) <= total stats)).
Proof.
  intros Hn Ht. split.
  - intros H0. split; [apply Shared_getPercent_zero | apply Part001a_getPercent_zero];
      exact H0.
  - intros H0.
    destruct (getPercent_nonzero stats num Hn ltac:(lia)) as (H1 & H2 & Hpos & _).
    exists (tenths_of (percent_number num (total stats))).
    split; [exact H1 |]. split; [exact H2 |].
    split; [apply fixed1_one_decimal; exact Hpos |]. split.
    + unfold tenths_of. fold (percent_number num (total stats)).
      set (P := SFmag (percent_number num (total stats))).
      pose proof (Qfloor_le (P * 10 + (1 # 2))) as Hfl.
      pose proof (Qlt_floor (P * 10 + (1 # 2))) as Hfu.
      rewrite inject_Z_plus in Hfu. change (inject_Z 1) with 1%Q in Hfu. lra.
    + intros Hle. apply tenths_nearest; lia.
Qed.

Lemma C4_percent_one_decimal_witness :
  (exists n, Shared.getPercent (stats_of 1 2 0 0 3) 1 = Ok (JStr (fixed1 n))
             /\ - 3 <= 2 * (n * 3 - 1000 * 1) <= 3)
  /\ Shared.getPercent (stats_of 0 0 0 0 0) 0 = Ok (JNum (Z2SF 0)).
Proof.
  split.
  - destruct (C4_percent_one_decimal (stats_of 1 2 0 0 3) 1 ltac:(lia) ltac:(simpl; lia))
      as (_ & H).
    destruct (H ltac:(discriminate)) as (n & Hp & _ & _ & _ & Hnear).
    exists n. split; [exact Hp |]. apply Hnear. simpl. lia.
  - destruct (C4_percent_one_decimal (stats_of 0 0 0 0 0) 0 ltac:(lia) ltac:(simpl; lia))
      as (H & _).
    exact (proj1 (H eq_refl)).
Defined.

(** C5.  For every percent with one decimal from 0.0 to 100.0 (n tenths), as
    getPercent prints them, both versions of getBar return
    round(percent / 100 * 20) full blocks followed by light shade up to 20
    cells: none filled at 0.0, all filled at 100.0, 20 cells for every percent.
    For every Number from 0 to 100, whether getPercent can print it or not,
    getBar returns Math.round of the quotient it computes in full blocks,
    between 0 and 20 of them, followed by light shade up to 20 cells. *)
Theorem C5_bar_of_percent :
  (forall n, 0 <= n <= 1000 ->
     Shared.getBar (JStr (fixed1 n)) = Ok (bar (filled_cells n))
     /\ Part001a.getBar (JStr (fixed1 n)) = Ok (bar (filled_cells n))
     /\ 0 <= filled_cells n <= 20
     /\ length (bar (filled_cells n)) = 20%nat
     /\ (n = 0 -> bar (filled_cells n) = List.repeat 9617%N 20)
     /\ (n = 1000 -> bar (filled_cells n) = List.repeat 9608%N 20))
  /\ (forall x, in_range 100 x ->
      let f := Qfloor (SF2Q (num_div x (Z2SF 5)) + (1 # 2)) in
      let f' := Qfloor (SF2Q (num_mul (num_div x (Z2SF 100)) (Z2SF 20)) + (1 # 2)) in
      Shared.getBar (JNum x) = Ok (bar f)
      /\ Part001a.getBar (JNum x) = Ok (bar f')
      /\ 0 <= f <= 20 /\ 0 <= f' <= 20
      /\ length (bar f) = 20%nat /\ length (bar f') = 20%nat)
  /\ Shared.getBar (JNum (Z2SF 0)) = Ok (List.repeat 9617%N 20)
  /\ Shared.getBar (JNum (Z2SF 100)) = Ok (List.repeat 9608%N 20)
  /\ Part001a.getBar (JNum (Z2SF 100)) = Ok (List.repeat 9608%N 20).
Proof.
  split; [| split; [| repeat split]].
  - intros n Hn. destruct (getBar_of_tenths n Hn) as (H1 & H2 & Hf & _).
    split; [exact H1 |]. split; [exact H2 |]. split; [exact Hf |].
    split; [apply bar_length; exact Hf |].
    split; intros ->; reflexivity.
  - intros x Hx f f'.
    destruct (getBar_of_number x Hx) as ((Hf & H1) & (Hf' & H2)).
    fold f in Hf, H1. fold f' in Hf', H2.
    split; [exact H1 |]. split; [exact H2 |]. split; [exact Hf |]. split; [exact Hf' |].
    split; apply bar_length; assumption.
Qed.

Lemma C5_bar_of_percent_witness :
  Shared.getBar (JStr (js "12.5")) = Ok (bar 3)
  /\ Part001a.getBar (JStr (js "12.5")) = Ok (bar 3)
  /\ Shared.getBar (JNum (Z2SF 50)) = Ok (bar 10).
Proof.
  destruct C5_bar_of_percent as (Htenths & Hnumber & _).
  destruct (Htenths 125 ltac:(lia)) as (H1 & H2 & _).
  destruct (Hnumber (Z2SF 50) ltac:(vm_compute; discriminate)) as (H3 & _).
  split; [exact H1 |]. split; [exact H2 | exact H3].
Defined.

(** C6.  For the stats morning 2, daytime 1, evening 1, night 0, total 4 the
    percents are 50.0, 25.0, 25.0 and 0.0 and the bars have 10, 5, 5 and 0 of
    their 20 cells filled, in every script; generateMarkdown renders the four
    rows accordingly, in the order morning, daytime, evening, night, followed
    by the line of the update time: with the percent at the end of the row in
    update_gist.js and part_000, without it in the two scripts of part_001;
    the update time is the clock of the world in the zone Asia/Shanghai.
    Whatever the date library and the world. *)
Theorem C6_example_render :
  let stats := stats_of 2 1 1 0 4 in
  map (Shared.getPercent stats) [2; 1; 1; 0]
  = map (fun s => Ok (JStr (js s))) ["50.0"; "25.0"; "25.0"; "0.0"]%string
  /\ map (Part001a.getPercent stats) [2; 1; 1; 0]
     = map (fun s => Ok (JStr (js s))) ["50.0"; "25.0"; "25.0"; "0.0"]%string
  /\ map (fun c => rbind (Shared.getPercent stats c) Shared.getBar) [2; 1; 1; 0]
     = map (fun f => Ok (bar f)) [10; 5; 5; 0]
  /\ map (fun c => rbind (Part001a.getPercent stats c) Part001a.getBar) [2; 1; 1; 0]
     = map (fun f => Ok (bar f)) [10; 5; 5; 0]
  /\ map bar [10; 5; 5; 0]
     = map js ["██████████░░░░░░░░░░"; "█████░░░░░░░░░░░░░░░";
               "█████░░░░░░░░░░░░░░░"; "░░░░░░░░░░░░░░░░░░░░"]%string
  /\ forall (dates : DateLib) (w : world),
       let updated :=
         js "> Last Updated: " ++ zonedFormat "Asia/Shanghai" (clock w) ++ nl in
       UpdateGist.generateMarkdown stats w
       = (Ok (js "🌞 Morning    2 commits    ██████████░░░░░░░░░░    50.0%"
              ++ nl ++ js "🏙️ Daytime    1 commits    █████░░░░░░░░░░░░░░░    25.0%"
              ++ nl ++ js "🌆 Evening    1 commits    █████░░░░░░░░░░░░░░░    25.0%"
              ++ nl ++ js "🌙 Night      0 commits    ░░░░░░░░░░░░░░░░░░░░    0.0%"
              ++ nl ++ updated), w)
       /\ Part000.generateMarkdown stats w
          = (Ok (js "🌞 Morning     2 commits   ██████████░░░░░░░░░░    50.0%"
                 ++ nl ++ js "🏙️ Daytime     1 commits   █████░░░░░░░░░░░░░░░    25.0%"
                 ++ nl ++ js "🌆 Evening     1 commits   █████░░░░░░░░░░░░░░░    25.0%"
                 ++ nl ++ js "🌙 Night       0 commits   ░░░░░░░░░░░░░░░░░░░░     0.0%"
                 ++ nl ++ updated), w)
       /\ Part001a.generateMarkdown stats w
          = (Ok (js "🌞 Morning     2 commits   ██████████░░░░░░░░░░"
                 ++ nl ++ js "🏙️ Daytime     1 commits   █████░░░░░░░░░░░░░░░"
                 ++ nl ++ js "🌆 Evening     1 commits   █████░░░░░░░░░░░░░░░"
                 ++ nl ++ js "🌙 Night       0 commits   ░░░░░░░░░░░░░░░░░░░░"
                 ++ nl ++ updated), w)
       /\ Part001b.generateMarkdown stats w
          = (Ok (js "🌞 Morning     2 commits   ██████████░░░░░░░░░░"
                 ++ nl ++ js "🏙️ Daytime     1 commits   █████░░░░░░░░░░░░░░░"
                 ++ nl ++ js "🌆 Evening     1 commits   █████░░░░░░░░░░░░░░░"
                 ++ nl ++ js "🌙 Night       0 commits   ░░░░░░░░░░░░░░░░░░░░"
                 ++ nl ++ updated), w).
Proof.
  intros stats.
  split; [vm_compute; reflexivity |]. split; [vm_compute; reflexivity |].
  split; [vm_compute; reflexivity |]. split; [vm_compute; reflexivity |].
  split; [vm_compute; reflexivity |].
  intros dates w updated.
  unfold UpdateGist.generateMarkdown, Part000.generateMarkdown,
    Part001a.generateMarkdown, Part001b.generateMarkdown, bind, new_Date, lift, ret.
  split; [| split; [| split]].
  - replace (UpdateGist.template_line stats (js "🌞 Morning    ") (morning stats))
      with (Ok (js "🌞 Morning    2 commits    ██████████░░░░░░░░░░    50.0%"))
      by (vm_compute; reflexivity).
    replace (UpdateGist.template_line stats (js "🏙️ Daytime    ") (daytime stats))
      with (Ok (js "🏙️ Daytime    1 commits    █████░░░░░░░░░░░░░░░    25.0%"))
      by (vm_compute; reflexivity).
    replace (UpdateGist.template_line stats (js "🌆 Evening    ") (evening stats))
      with (Ok (js "🌆 Evening    1 commits    █████░░░░░░░░░░░░░░░    25.0%"))
      by (vm_compute; reflexivity).
    replace (UpdateGist.template_line stats (js "🌙 Night      ") (night stats))
      with (Ok (js "🌙 Night      0 commits    ░░░░░░░░░░░░░░░░░░░░    0.0%"))
      by (vm_compute; reflexivity).
    unfold with_update_time, updated. rewrite <- !app_assoc. reflexivity.
  - replace (map_result (Part000.render_row stats (countWidth (lines stats))) (lines stats))
      with (Ok [ js "🌞 Morning     2 commits   ██████████░░░░░░░░░░    50.0%";
                 js "🏙️ Daytime     1 commits   █████░░░░░░░░░░░░░░░    25.0%";
                 js "🌆 Evening     1 commits   █████░░░░░░░░░░░░░░░    25.0%";
                 js "🌙 Night       0 commits   ░░░░░░░░░░░░░░░░░░░░     0.0%" ])
      by (vm_compute; reflexivity).
    unfold with_update_time, updated. cbn [join]. rewrite <- !app_assoc. reflexivity.
  - replace (map_result (Part001a.render_row stats (countWidth (lines stats))) (lines stats))
      with (Ok [ js "🌞 Morning     2 commits   ██████████░░░░░░░░░░";
                 js "🏙️ Daytime     1 commits   █████░░░░░░░░░░░░░░░";
                 js "🌆 Evening     1 commits   █████░░░░░░░░░░░░░░░";
                 js "🌙 Night       0 commits   ░░░░░░░░░░░░░░░░░░░░" ])
      by (vm_compute; reflexivity).
    unfold with_update_time, updated. cbn [join]. rewrite <- !app_assoc. reflexivity.
  - replace (map_result (Part001b.render_row stats (countWidth (lines stats))) (lines stats))
      with (Ok [ js "🌞 Morning     2 commits   ██████████░░░░░░░░░░";
                 js "🏙️ Daytime     1 commits   █████░░░░░░░░░░░░░░░";
                 js "🌆 Evening     1 commits   █████░░░░░░░░░░░░░░░";
                 js "🌙 Night       0 commits   ░░░░░░░░░░░░░░░░░░░░" ])
      by (vm_compute; reflexivity).
    unfold with_update_time, updated. cbn [join]. rewrite <- !app_assoc. reflexivity.
Qed.

(** C9.  When a count is between 0 and the total (below 2^53), the percent
    getPercent hands to getBar is a Number between 0 and 100 once read back,
    the number of filled cells is between 0 and 20, neither repeat count is
    negative, and getBar returns, without throwing, a bar of exactly 20
    glyphs; in every script.  The precondition holds for every bucket of a
    CommitStats that a collector returns, as long as the size fields the API
    answers with are not negative. *)
Theorem C9_getBar_never_throws (stats : CommitStats) :
  (forall num, 0 <= num <= total stats -> total stats < 2 ^ 53 ->
     (exists p x f,
        Shared.getPercent stats num = Ok p
        /\ ToNumber p = Ok x /\ (0 <= SF2Q x <= 100)%Q
        /\ Shared.getBar p = Ok (bar f) /\ 0 <= f <= 20 /\ length (bar f) = 20%nat)
     /\ (exists p x f,
           Part001a.getPercent stats num = Ok p
           /\ ToNumber p = Ok x /\ (0 <= SF2Q x <= 100)%Q
           /\ Part001a.getBar p = Ok (bar f) /\ 0 <= f <= 20
           /\ length (bar f) = 20%nat))
  /\ (forall (dates : DateLib) gh cfg w w',
        sizes_not_negative gh ->
        UpdateGist.getCommitTimes gh cfg w = (Ok stats, w')
        \/ Part000.getCommitTimes gh cfg w = (Ok stats, w')
        \/ Part001a.getCommitTimes gh cfg w = (Ok stats, w')
        \/ Part001b.getCommitTimes gh cfg w = (Ok stats, w') ->
        forall b, 0 <= count_of b stats <= total stats).
Proof.
  split.
  - intros num Hn Ht.
    assert (Hread : forall n, 0 <= n <= 1000 ->
              exists x f,
                ToNumber (JStr (fixed1 n)) = Ok x /\ (0 <= SF2Q x <= 100)%Q
                /\ Shared.getBar (JStr (fixed1 n)) = Ok (bar f)
                /\ Part001a.getBar (JStr (fixed1 n)) = Ok (bar f)
                /\ 0 <= f <= 20 /\ length (bar f) = 20%nat).
    { intros n Hr. destruct (getBar_of_tenths n Hr) as (H1 & H2 & Hf & x & Hx & Hs & Hm).
      exists x, (filled_cells n). split; [exact Hx |]. split.
      - unfold SF2Q. rewrite Hs. split; [apply SFmag_nonneg | exact Hm].
      - split; [exact H1 |]. split; [exact H2 |]. split; [exact Hf |].
        apply bar_length; exact Hf. }
    destruct (Z.eq_dec (total stats) 0) as [H0 | H0].
    + assert (num = 0) by lia. subst num. split.
      * exists (JNum (Z2SF 0)), (Z2SF 0), 0.
        split; [apply Shared_getPercent_zero; exact H0 |].
        split; [reflexivity |]. split; [split; discriminate |].
        split; [reflexivity |]. split; [lia | reflexivity].
      * destruct (Hread 0 ltac:(lia)) as (x & f & Hx & Hr & _ & Hb & Hf & Hl).
        exists (JStr (js "0.0")), x, f.
        split; [apply Part001a_getPercent_zero; exact H0 |]. auto.
    + destruct (getPercent_nonzero stats num ltac:(lia) ltac:(lia))
        as (H1 & H2 & Hlo & Hhi).
      destruct (Hread _ (conj Hlo (Hhi ltac:(lia))))
        as (x & f & Hx & Hr & Hb & Hb' & Hf & Hl).
      split; exists (JStr (fixed1 (tenths_of (percent_number num (total stats))))), x, f;
        auto 10.
  - intros dates gh cfg w w' Hsizes Hrun b.
    apply within_total_counts.
    exact (collected_within_total dates gh cfg w w' stats Hsizes Hrun).
Qed.

Lemma C9_getBar_never_throws_witness :
  (exists p f, Shared.getPercent (stats_of 2 1 1 0 4) 4 = Ok p
               /\ Shared.getBar p = Ok (bar f) /\ length (bar f) = 20%nat)
  /\ 0 <= count_of Daytime (stats_of 2 3 0 0 5) <= 5.
Proof.
  split.
  - destruct (C9_getBar_never_throws (stats_of 2 1 1 0 4)) as (H & _).
    destruct (H 4 ltac:(simpl; lia) ltac:(simpl; lia))
      as ((p & x & f & Hp & _ & _ & Hb & _ & Hl) & _).
    exists p, f. auto.
  - destruct (C9_getBar_never_throws (stats_of 2 3 0 0 5)) as (_ & H).
    apply (H Shanghai.dates sample_github sample_config sample_world
             (snd (@Part000.getCommitTimes Shanghai.dates sample_github sample_config
                     sample_world))).
    + intros u page events e p Hans Hin Hp. simpl in Hans.
      destruct (page =? 1); inversion Hans; subst; [| destruct Hin].
      destruct Hin as [<- | [<- | [<- | []]]]; simpl in Hp; inversion Hp; subst; simpl;
        split; intros n Hn; inversion Hn; lia.
    + right. left. vm_compute. reflexivity.
Defined.

(** C10.  With a total of 0 the getPercent of update_gist.js and part_000
    (and of the second script of part_001) returns the Number 0, which renders
    as the text 0 with no decimal, so that the percent column reads 0%; with a
    total that is not 0 every percent is a text with exactly one decimal, 0.0
    for a count of 0.  The getPercent of the first script of part_001 formats
    the zero-total case too and returns the text 0.0. *)
Theorem C10_zero_percent_format (stats : CommitStats) (num : Z) :
  0 <= num < 2 ^ 53 -> 0 <= total stats < 2 ^ 53 ->
  (total stats = 0 ->
     Shared.getPercent stats num = Ok (JNum (Z2SF 0))
     /\ ToString (JNum (Z2SF 0)) = Ok (js "0")
     /\ ~ one_decimal (js "0")
     /\ Part001a.getPercent stats num = Ok (JStr (js "0.0"))
     /\ one_decimal (js "0.0"))
  /\ (total stats <> 0 ->
      exists s,
        Shared.getPercent stats num = Ok (JStr s)
        /\ ToString (JStr s) = Ok s
        /\ Part001a.getPercent stats num = Ok (JStr s)
        /\ one_decimal s
        /\ (num = 0 -> s = js "0.0"))
  /\ UpdateGist.template_line (stats_of 0 0 0 0 0) (js "Night      ") 0
     = Ok (js "Night      0 commits    ░░░░░░░░░░░░░░░░░░░░    0%")
  /\ UpdateGist.template_line (stats_of 1 0 0 0 1) (js "Night      ") 0
     = Ok (js "Night      0 commits    ░░░░░░░░░░░░░░░░░░░░    0.0%")
  /\ Part000.render_row (stats_of 0 0 0 0 0) 3
       {| emoji := js "N"; label := js "Night"; count := 0 |}
     = Ok (js "N Night       0 commits   ░░░░░░░░░░░░░░░░░░░░       0%")
  /\ Part000.render_row (stats_of 1 0 0 0 1) 3
       {| emoji := js "N"; label := js "Night"; count := 0 |}
     = Ok (js "N Night       0 commits   ░░░░░░░░░░░░░░░░░░░░     0.0%").
Proof.
  intros Hn Ht. split; [| split; [| vm_compute; repeat split]].
  - intros H0.
    split; [apply Shared_getPercent_zero; exact H0 |].
    split; [reflexivity |]. split.
    + intros (i & d & E & _). destruct i as [| c [| c' i]]; discriminate.
    + split; [apply Part001a_getPercent_zero; exact H0 |].
      apply (fixed1_one_decimal 0). lia.
  - intros H0.
    destruct (getPercent_nonzero stats num Hn ltac:(lia)) as (H1 & H2 & Hpos & _).
    exists (fixed1 (tenths_of (percent_number num (total stats)))).
    split; [exact H1 |]. split; [reflexivity |]. split; [exact H2 |].
    split; [apply fixed1_one_decimal; exact Hpos |].
    intros ->. destruct (Z2SF_exact (total stats) ltac:(lia)) as (m & e & E & _).
    unfold percent_number. rewrite E. reflexivity.
Qed.

Lemma C10_zero_percent_format_witness :
  (exists s, Shared.getPercent (stats_of 1 0 0 0 1) 0 = Ok (JStr s) /\ s = js "0.0")
  /\ Shared.getPercent (stats_of 0 0 0 0 0) 0 = Ok (JNum (Z2SF 0)).
Proof.
  destruct (C10_zero_percent_format (stats_of 1 0 0 0 1) 0 ltac:(lia) ltac:(simpl; lia))
    as (_ & H & _).
  destruct (H ltac:(discriminate)) as (s & Hs & _ & _ & _ & H0).
  destruct (C10_zero_percent_format (stats_of 0 0 0 0 0) 0 ltac:(lia) ltac:(simpl; lia))
    as (Hz & _).
  split.
  - exists s. split; [exact Hs | apply H0; reflexivity].
  - exact (proj1 (Hz eq_refl)).
Defined.

(** * Further properties of the scripts

    What follows covers the parts of the scripts that the properties above
    leave out: [main] and the exit status, [updateGist], the guard on the
    environment, the handlers of getCommitTimes, what the returned CommitStats
    counts, the console lines of the collectors, and the layout of the rows
    of generateMarkdown. *)

(** ** Whole runs: exit status and the write to the gist *)

(** The world after one more console line. *)
Definition logged (l : level) (t : string) (a : list Z) (w : world) : world :=
  {| clock := clock w; calls := calls w;
     console := console w ++ [{| lvl := l; text := t; args := a |}] |}.

(** The three steps of [main], without its handler. *)
Definition steps (getCommitTimes : M CommitStats)
    (generateMarkdown : CommitStats -> M jsstring) (update : jsstring -> M unit) : M unit :=
  stats <- getCommitTimes ;; markdown <- generateMarkdown stats ;; update markdown.

Lemma main_outcome gct gm upd w :
  main gct gm upd w
  = match steps gct gm upd w with
    | (Ok _, w') => (Ok 0, w')
    | (Throw _, w') => (Ok 1, logged Error "Program execution failed: " [] w')
    end.
Proof.
  unfold main, steps, try_catch, bind, ret, print, logged.
  destruct (gct w) as [[stats | e] w1]; [| reflexivity].
  destruct (gm stats w1) as [[md | e] w2]; [| reflexivity].
  destruct (upd md w2) as [[[] | e] w3]; reflexivity.
Qed.

(** The first script of part_001 starts only with both variables set to a
    text that is not empty. *)
Definition configured (cfg : config) : bool :=
  match GIST_TOKEN cfg, GIST_ID cfg with
  | Some (String _ _), Some (String _ _) => true
  | _, _ => false
  end.

Lemma Part001a_script_eq {dates : DateLib} gh cfg :
  Part001a.script gh cfg
  = if configured cfg
    then main (Part001a.getCommitTimes gh cfg) Part001a.generateMarkdown
           (Part001a.updateGist gh cfg)
    else (print Error "Missing required env: GIST_TOKEN or GIST_ID" [] ;; ret 1).
Proof.
  unfold Part001a.script, configured.
  destruct (GIST_TOKEN cfg) as [[| c t] |]; try reflexivity.
  destruct (GIST_ID cfg) as [[| c' i] |]; reflexivity.
Qed.

(** What [main] makes of its three steps: the status is 1, after the line
    "Program execution failed", exactly when one of them throws, and 0 when
    all three return; nothing else is logged or sent by [main] itself. *)
Definition exits_by_steps (getCommitTimes : M CommitStats)
    (generateMarkdown : CommitStats -> M jsstring) (update : jsstring -> M unit)
    (script : M Z) (w : world) : Prop :=
  let failed w' := (Ok 1, logged Error "Program execution failed: " [] w') in
  (forall e w1, getCommitTimes w = (Throw e, w1) -> script w = failed w1)
  /\ (forall stats w1 e w2,
        getCommitTimes w = (Ok stats, w1) -> generateMarkdown stats w1 = (Throw e, w2) ->
        script w = failed w2)
  /\ (forall stats w1 text w2 e w3,
        getCommitTimes w = (Ok stats, w1) -> generateMarkdown stats w1 = (Ok text, w2) ->
        update text w2 = (Throw e, w3) ->
        script w = failed w3)
  /\ (forall stats w1 text w2 w3,
        getCommitTimes w = (Ok stats, w1) -> generateMarkdown stats w1 = (Ok text, w2) ->
        update text w2 = (Ok tt, w3) ->
        script w = (Ok 0, w3))
  /\ exists code w', script w = (Ok code, w') /\ (code = 0 \/ code = 1).

Lemma main_exits_by_steps gct gm upd w : exits_by_steps gct gm upd (main gct gm upd) w.
Proof.
  unfold exits_by_steps. rewrite main_outcome. unfold steps, bind.
  split; [| split; [| split; [| split]]].
  - intros e w1 ->. reflexivity.
  - intros stats w1 e w2 -> ->. reflexivity.
  - intros stats w1 text w2 e w3 -> -> ->. reflexivity.
  - intros stats w1 text w2 w3 -> -> ->. reflexivity.
  - destruct (gct w) as [[stats | e] w1]; [| eauto].
    destruct (gm stats w1) as [[text | e] w2]; [| eauto].
    destruct (upd text w2) as [[[] | e] w3]; eauto.
Qed.

(** X1.  No script ends with an uncaught exception, and the exit status tells
    whether a step threw: when getCommitTimes, generateMarkdown or updateGist
    throws, [main] logs "Program execution failed" after what that step left
    and the status is 1; when the three return, the status is 0 and the world
    is the one updateGist left.  The first script of part_001 does so when
    GIST_TOKEN and GIST_ID are both set and not empty; otherwise it ends with
    status 1 after the line "Missing required env", whatever the steps would
    do. *)
Theorem X1_exit_status (dates : DateLib) (gh : github) (cfg : config) (w : world) :
  exits_by_steps (UpdateGist.getCommitTimes gh cfg) UpdateGist.generateMarkdown
    (updateGist gh cfg) (UpdateGist.script gh cfg) w
  /\ exits_by_steps (Part000.getCommitTimes gh cfg) Part000.generateMarkdown
       (updateGist gh cfg) (Part000.script gh cfg) w
  /\ exits_by_steps (Part001b.getCommitTimes gh cfg) Part001b.generateMarkdown
       (updateGist gh cfg) (Part001b.script gh cfg) w
  /\ (configured cfg = true ->
      exits_by_steps (Part001a.getCommitTimes gh cfg) Part001a.generateMarkdown
        (Part001a.updateGist gh cfg) (Part001a.script gh cfg) w)
  /\ (configured cfg = false ->
      Part001a.script gh cfg w
      = (Ok 1, logged Error "Missing required env: GIST_TOKEN or GIST_ID" [] w))
  /\ (configured cfg = true
      <-> (exists t i, GIST_TOKEN cfg = Some t /\ GIST_ID cfg = Some i
                       /\ t <> ""%string /\ i <> ""%string)).
Proof.
  split; [apply main_exits_by_steps |]. split; [apply main_exits_by_steps |].
  split; [apply main_exits_by_steps |].
  rewrite Part001a_script_eq.
  split; [intros ->; apply main_exits_by_steps |].
  split; [intros ->; reflexivity |].
  unfold configured. split.
  - destruct (GIST_TOKEN cfg) as [[| c t] |]; try discriminate.
    destruct (GIST_ID cfg) as [[| c' i] |]; try discriminate.
    intros _. eexists. eexists. repeat split; discriminate.
  - intros (t & i & -> & -> & Ht & Hi).
    destruct t; [contradiction |]. destruct i; [contradiction |]. reflexivity.
Qed.

(** *** The end of a run *)

(** The world after the request that updates the gist. *)
Definition sent (text : jsstring) (w : world) : world :=
  {| clock := clock w; calls := calls w ++ [GistsUpdate text]; console := console w |}.

(** How a run ends once the stats are collected and rendered: the text goes
    to the gist in one request; accepted, the line "Gist updated
    successfully!" follows and the status is 0; rejected, the status is 1
    after the line "Program execution failed", which follows the line "Failed
    to update Gist" when updateGist has a handler ([handled]). *)
Definition ends_with_the_update (gh : github) (cfg : config) (handled : bool)
    (getCommitTimes : M CommitStats) (generateMarkdown : CommitStats -> M jsstring)
    (script : M Z) (w : world) : Prop :=
  forall stats w1 text w2,
    getCommitTimes w = (Ok stats, w1) -> generateMarkdown stats w1 = (Ok text, w2) ->
    (gists_update gh (GIST_ID cfg) text = Ok tt ->
     script w = (Ok 0, logged Info "Gist updated successfully!" [] (sent text w2)))
    /\ (forall e, gists_update gh (GIST_ID cfg) text = Throw e ->
        script w
        = (Ok 1, logged Error "Program execution failed: " []
                   (if handled then logged Error "Failed to update Gist: " [] (sent text w2)
                    else sent text w2))).

Lemma main_ends_with_the_update gh cfg gct gm w :
  ends_with_the_update gh cfg true gct gm (main gct gm (updateGist gh cfg)) w.
Proof.
  intros stats w1 text w2 Hgct Hgm. rewrite main_outcome. unfold steps, bind.
  rewrite Hgct, Hgm. unfold updateGist, try_catch, bind, request, print, throw.
  split; [intros -> | intros e ->]; reflexivity.
Qed.

Lemma Part001a_main_ends_with_the_update {dates : DateLib} gh cfg gct gm w :
  ends_with_the_update gh cfg false gct gm (main gct gm (Part001a.updateGist gh cfg)) w.
Proof.
  intros stats w1 text w2 Hgct Hgm. rewrite main_outcome. unfold steps, bind.
  rewrite Hgct, Hgm. unfold Part001a.updateGist, bind, request, print.
  split; [intros -> | intros e ->]; reflexivity.
Qed.

(** X21.  How a run ends once getCommitTimes and generateMarkdown have
    returned: the script sends one more request, the update of the gist with
    the rendered text.  When the API accepts it, the script logs "Gist updated
    successfully!" and ends with status 0.  When the API rejects it,
    update_gist.js, part_000 and the second script of part_001 log "Failed to
    update Gist", then "Program execution failed", and end with status 1; the
    first script of part_001, whose updateGist has no handler, logs "Program
    execution failed" only.  Nothing else is logged or sent. *)
Theorem X21_end_of_run (dates : DateLib) (gh : github) (cfg : config) (w : world) :
  ends_with_the_update gh cfg true (UpdateGist.getCommitTimes gh cfg)
    UpdateGist.generateMarkdown (UpdateGist.script gh cfg) w
  /\ ends_with_the_update gh cfg true (Part000.getCommitTimes gh cfg)
       Part000.generateMarkdown (Part000.script gh cfg) w
  /\ ends_with_the_update gh cfg true (Part001b.getCommitTimes gh cfg)
       Part001b.generateMarkdown (Part001b.script gh cfg) w
  /\ (configured cfg = true ->
      ends_with_the_update gh cfg false (Part001a.getCommitTimes gh cfg)
        Part001a.generateMarkdown (Part001a.script gh cfg) w).
Proof.
  split; [apply main_ends_with_the_update |].
  split; [apply main_ends_with_the_update |].
  split; [apply main_ends_with_the_update |].
  rewrite Part001a_script_eq. intros ->. apply Part001a_main_ends_with_the_update.
Qed.

(** An API that answers the searches, with no commit, and rejects the update
    of the gist. *)
Definition readonly_github : github :=
  {| users_getAuthenticated := Ok {| login := "octocat" |};
     listPublicEventsForUser := fun _ _ => Ok [];
     listEventsForAuthenticatedUser := fun _ _ _ => Ok [];
     search_commits := fun _ _ _ _ => Ok {| total_count := 0; items := None |};
     gists_update := fun _ _ => Throw (HttpError 404) |}.

Lemma X21_end_of_run_witness :
  (exists w',
     @Part001b.script Shanghai.dates readonly_github sample_config sample_world
     = (Ok 1, logged Error "Program execution failed: " []
                (logged Error "Failed to update Gist: " [] w')))
  /\ (exists w',
        @Part001a.script Shanghai.dates readonly_github sample_config sample_world
        = (Ok 1, logged Error "Program execution failed: " [] w')).
Proof.
  destruct (X21_end_of_run Shanghai.dates readonly_github sample_config sample_world)
    as (_ & _ & Hb & Ha).
  split.
  - eexists.
    eapply (proj2 (Hb _ _ _ _ ltac:(vm_compute; reflexivity) ltac:(vm_compute; reflexivity))).
    reflexivity.
  - eexists.
    eapply (proj2 (Ha eq_refl _ _ _ _ ltac:(vm_compute; reflexivity)
                     ltac:(vm_compute; reflexivity))).
    reflexivity.
Defined.

(** *** The write to the gist *)

Definition is_GistsUpdate (c : call) : bool :=
  match c with GistsUpdate _ => true | _ => false end.

(** What a run sends after the requests [calls w] already sent: requests
    [pre] that do not touch the gist, then either nothing, with exit status 1,
    or one update of the gist with the text rendered from the collected
    stats, with exit status 0 exactly when the update is accepted. *)
Definition writes_last_and_once (gh : github) (cfg : config)
    (getCommitTimes : M CommitStats) (generateMarkdown : CommitStats -> M jsstring)
    (script : M Z) : Prop :=
  forall w, exists pre post,
    calls (snd (script w)) = calls w ++ pre ++ post
    /\ Forall (fun c => is_GistsUpdate c = false) pre
    /\ ((post = [] /\ fst (script w) = Ok 1)
        \/ exists stats w1 text,
             getCommitTimes w = (Ok stats, w1)
             /\ generateMarkdown stats w1 = (Ok text, w1)
             /\ post = [GistsUpdate text]
             /\ (fst (script w) = Ok 0 <-> gists_update gh (GIST_ID cfg) text = Ok tt)).

(** The two versions of [updateGist] send the same single request. *)
Definition sends_update (gh : github) (cfg : config) (update : jsstring -> M unit) : Prop :=
  forall text w,
    calls (snd (update text w)) = calls w ++ [GistsUpdate text]
    /\ (fst (update text w) = Ok tt <-> gists_update gh (GIST_ID cfg) text = Ok tt).

Lemma Shared_updateGist_sends gh cfg : sends_update gh cfg (updateGist gh cfg).
Proof.
  intros text w. unfold updateGist, try_catch, bind, request, print, throw.
  destruct (gists_update gh (GIST_ID cfg) text) as [[] | e]; simpl;
    (split; [reflexivity |]); split; congruence.
Qed.

Lemma Part001a_updateGist_sends {dates : DateLib} gh cfg :
  sends_update gh cfg (Part001a.updateGist gh cfg).
Proof.
  intros text w. unfold Part001a.updateGist, bind, request, print.
  destruct (gists_update gh (GIST_ID cfg) text) as [[] | e]; simpl;
    (split; [reflexivity |]); split; congruence.
Qed.

Lemma main_writes_last_and_once gh cfg gct gm upd :
  (forall w, exists pre,
      calls (snd (gct w)) = calls w ++ pre
      /\ Forall (fun c => is_GistsUpdate c = false) pre) ->
  (forall stats, reads_clock_only (gm stats)) ->
  sends_update gh cfg upd ->
  writes_last_and_once gh cfg gct gm (main gct gm upd).
Proof.
  intros Hgct Hgm Hupd w. destruct (Hgct w) as (pre & Hpre & Hno).
  exists pre. rewrite main_outcome. unfold steps, bind.
  destruct (gct w) as [[stats | e] w1] eqn:Egct; simpl in Hpre.
  - destruct (Hgm stats w1) as (Hw & _).
    destruct (gm stats w1) as [[text | e] w2] eqn:Egm; simpl in Hw; subst w2.
    + destruct (Hupd text w1) as (Hc & Hok).
      exists [GistsUpdate text]. split; [| split; [exact Hno |]].
      * destruct (upd text w1) as [[[] | e] w3]; simpl in *; rewrite Hc, Hpre;
          rewrite <- app_assoc; reflexivity.
      * right. exists stats, w1, text.
        split; [reflexivity |]. split; [exact Egm |]. split; [reflexivity |].
        destruct (upd text w1) as [[[] | e] w3]; simpl in *.
        -- tauto.
        -- split; [discriminate |]. intros H. apply Hok in H. discriminate.
    + exists []. rewrite app_nil_r. simpl. auto.
  - exists []. rewrite app_nil_r. simpl. auto.
Qed.

Lemma no_update_pages {A} (mk : A -> call) (l : list A) :
  (forall a, is_GistsUpdate (mk a) = false) ->
  Forall (fun c => is_GistsUpdate c = false) (map mk l).
Proof. intros H. apply Forall_forall. intros c Hc. apply in_map_iff in Hc.
  destruct Hc as (a & <- & _). apply H. Qed.

(** X2.  In every script the gist is written at most once, by the last
    request of the run, and only once collection and rendering have returned:
    a run sends requests that do not touch the gist and then either nothing
    more, ending with status 1, or the single update of the gist, whose
    content is the text generateMarkdown made of the CommitStats that
    getCommitTimes returned; the status is 0 exactly when that update is
    accepted. *)
Theorem X2_gist_written_last_and_once (dates : DateLib) (gh : github) (cfg : config) :
  writes_last_and_once gh cfg (UpdateGist.getCommitTimes gh cfg)
    UpdateGist.generateMarkdown (UpdateGist.script gh cfg)
  /\ writes_last_and_once gh cfg (Part000.getCommitTimes gh cfg)
       Part000.generateMarkdown (Part000.script gh cfg)
  /\ writes_last_and_once gh cfg (Part001a.getCommitTimes gh cfg)
       Part001a.generateMarkdown (Part001a.script gh cfg)
  /\ writes_last_and_once gh cfg (Part001b.getCommitTimes gh cfg)
       Part001b.generateMarkdown (Part001b.script gh cfg).
Proof.
  split; [| split; [| split]].
  - apply main_writes_last_and_once.
    + intros w. exists [ListPublicEvents 100]. split; [apply UpdateGist_calls |].
      repeat constructor.
    + apply UpdateGist_generateMarkdown_pure.
    + apply Shared_updateGist_sends.
  - apply main_writes_last_and_once.
    + intros w. destruct (Part000_calls gh cfg w) as (k & _ & E & _).
      eexists. split; [exact E |]. constructor; [reflexivity |].
      apply no_update_pages. reflexivity.
    + apply Part000_generateMarkdown_pure.
    + apply Shared_updateGist_sends.
  - rewrite Part001a_script_eq. destruct (configured cfg).
    + apply main_writes_last_and_once.
      * intros w. destruct (Part001a_calls gh cfg w) as (k & _ & E & _).
        eexists. split; [exact E |]. constructor; [reflexivity |].
        apply no_update_pages. reflexivity.
      * apply Part001a_generateMarkdown_pure.
      * apply Part001a_updateGist_sends.
    + intros w. exists [], []. simpl. rewrite app_nil_r.
      split; [reflexivity |]. split; [constructor |]. left. auto.
  - apply main_writes_last_and_once.
    + intros w. destruct (Part001b_calls gh cfg w) as (k & _ & E & _).
      eexists. split; [exact E |]. constructor; [reflexivity |].
      apply no_update_pages. reflexivity.
    + apply Part001b_generateMarkdown_pure.
    + apply Shared_updateGist_sends.
Qed.

(** *** The guard on the environment *)

Lemma main_calls_extend gh cfg gct gm upd w :
  (forall stats, reads_clock_only (gm stats)) ->
  sends_update gh cfg upd ->
  exists post, calls (snd (main gct gm upd w)) = calls (snd (gct w)) ++ post.
Proof.
  intros Hgm Hupd. rewrite main_outcome. unfold steps, bind.
  destruct (gct w) as [[stats | e] w1]; [| exists []; simpl; rewrite app_nil_r; reflexivity].
  destruct (Hgm stats w1) as (Hw & _).
  destruct (gm stats w1) as [[text | e] w2]; simpl in Hw; subst w2;
    [| exists []; simpl; rewrite app_nil_r; reflexivity].
  destruct (Hupd text w1) as (Hc & _). exists [GistsUpdate text].
  destruct (upd text w1) as [[[] | e] w3]; simpl in *; exact Hc.
Qed.

(** X3.  With GIST_TOKEN or GIST_ID unset or empty, the first script of
    part_001 sends no request at all: it logs one error line and ends with
    status 1.  The other three scripts have no such guard: whatever the
    configuration, they send their first request (the public events in
    update_gist.js, the authentication in part_000 and in the second script of
    part_001). *)
Theorem X3_missing_configuration (dates : DateLib) (gh : github) (cfg : config) (w : world) :
  GIST_TOKEN cfg = None \/ GIST_TOKEN cfg = Some ""%string
  \/ GIST_ID cfg = None \/ GIST_ID cfg = Some ""%string ->
  Part001a.script gh cfg w
  = (Ok 1, logged Error "Missing required env: GIST_TOKEN or GIST_ID" [] w)
  /\ (exists rest,
        calls (snd (UpdateGist.script gh cfg w)) = calls w ++ ListPublicEvents 100 :: rest)
  /\ (exists rest,
        calls (snd (Part000.script gh cfg w)) = calls w ++ GetAuthenticated :: rest)
  /\ (exists rest,
        calls (snd (Part001b.script gh cfg w)) = calls w ++ GetAuthenticated :: rest).
Proof.
  intros Hcfg. split; [| split; [| split]].
  - unfold Part001a.script.
    destruct Hcfg as [-> | [-> | [H | H]]]; try reflexivity;
      rewrite H; destruct (GIST_TOKEN cfg) as [[| c t] |]; reflexivity.
  - destruct (main_calls_extend gh cfg (UpdateGist.getCommitTimes gh cfg)
                UpdateGist.generateMarkdown (updateGist gh cfg) w
                UpdateGist_generateMarkdown_pure (Shared_updateGist_sends gh cfg))
      as (post & E).
    exists post. unfold UpdateGist.script. rewrite E, UpdateGist_calls, <- app_assoc.
    reflexivity.
  - destruct (main_calls_extend gh cfg (Part000.getCommitTimes gh cfg)
                Part000.generateMarkdown (updateGist gh cfg) w
                Part000_generateMarkdown_pure (Shared_updateGist_sends gh cfg))
      as (post & E).
    destruct (Part000_calls gh cfg w) as (k & _ & Ec & _).
    eexists. unfold Part000.script. rewrite E, Ec, <- app_assoc. reflexivity.
  - destruct (main_calls_extend gh cfg (Part001b.getCommitTimes gh cfg)
                Part001b.generateMarkdown (updateGist gh cfg) w
                Part001b_generateMarkdown_pure (Shared_updateGist_sends gh cfg))
      as (post & E).
    destruct (Part001b_calls gh cfg w) as (k & _ & Ec & _).
    eexists. unfold Part001b.script. rewrite E, Ec, <- app_assoc. reflexivity.
Qed.

Definition no_config : config :=
  {| GIST_TOKEN := None; GIST_ID := Some "gist"%string; GH_USERNAME := None |}.

Lemma X3_missing_configuration_witness :
  calls (snd (@Part001a.script Shanghai.dates sample_github no_config sample_world)) = []
  /\ fst (@Part001a.script Shanghai.dates sample_github no_config sample_world) = Ok 1.
Proof.
  destruct (X3_missing_configuration Shanghai.dates sample_github no_config sample_world
              (or_introl eq_refl)) as (E & _).
  rewrite E. split; reflexivity.
Defined.

(** ** The collector: what it throws *)

(** The API answered the request [c] with the error [e]. *)
Definition rejected (gh : github) (c : call) (e : exn) : Prop :=
  match c with
  | GetAuthenticated => users_getAuthenticated gh = Throw e
  | ListPublicEvents pp => exists u, listPublicEventsForUser gh u pp = Throw e
  | ListEvents pp page => exists u, listEventsForAuthenticatedUser gh u pp page = Throw e
  | SearchCommits pp page => exists u since, search_commits gh u since pp page = Throw e
  | GistsUpdate text => exists id, gists_update gh id text = Throw e
  end.

(** A computation that throws only the error of the request it sent last. *)
Definition throws_rejections {A} (gh : github) (m : M A) : Prop :=
  forall w e w', m w = (Throw e, w') ->
    exists cs c, calls w' = cs ++ [c] /\ rejected gh c e.

Lemma throws_rejections_returns {A} gh (m : M A) : returns m -> throws_rejections gh m.
Proof. intros Hm w e w' H. destruct (Hm w) as (a & w1 & E). congruence. Qed.

Lemma throws_rejections_request {A} gh c (ans : result A) :
  (forall e, ans = Throw e -> rejected gh c e) -> throws_rejections gh (request c ans).
Proof.
  intros Hans w e w' H. unfold request in H. inversion H; subst; simpl.
  exists (calls w), c. auto.
Qed.

Lemma throws_rejections_bind {A B} gh (m : M A) (k : A -> M B) :
  throws_rejections gh m -> (forall a, throws_rejections gh (k a)) ->
  throws_rejections gh (bind m k).
Proof.
  intros Hm Hk w e w' H. unfold bind in H.
  destruct (m w) as [[a | e1] w1] eqn:E.
  - exact (Hk a w1 e w' H).
  - inversion H; subst. exact (Hm w e w' E).
Qed.

Lemma throws_rejections_for_of {A S} gh (body : A -> S -> M S) (l : list A) :
  (forall a s, throws_rejections gh (body a s)) ->
  forall s, throws_rejections gh (for_of l body s).
Proof.
  intros Hbody. induction l as [| a l IH]; intros s; simpl.
  - apply throws_rejections_returns, returns_ret.
  - apply throws_rejections_bind; auto.
Qed.

Lemma throws_rejections_for_pages {S} gh (body : Z -> S -> M (flow S)) :
  (forall page s, throws_rejections gh (body page s)) ->
  forall fuel page s, throws_rejections gh (for_pages fuel page body s).
Proof.
  intros Hbody fuel. induction fuel as [| fuel IH]; intros page s; simpl.
  - apply throws_rejections_returns, returns_ret.
  - apply throws_rejections_bind; [apply Hbody |].
    intros [s' | s']; [apply IH | apply throws_rejections_returns, returns_ret].
Qed.

(** A handler that logs and throws the error it caught. *)
Definition rethrows {A} (h : exn -> M A) : Prop :=
  forall e w, exists w', h e w = (Throw e, w') /\ calls w' = calls w.

Lemma throws_rejections_try_catch {A} gh (body : M A) (h : exn -> M A) :
  throws_rejections gh body -> rethrows h -> throws_rejections gh (try_catch body h).
Proof.
  intros Hb Hh w e w' H. unfold try_catch in H.
  destruct (body w) as [[a | e1] w1] eqn:E; [discriminate |].
  destruct (Hh e1 w1) as (w2 & E2 & Hc). rewrite E2 in H. inversion H; subst.
  rewrite Hc. exact (Hb w e w1 E).
Qed.

Ltac throws_rejections :=
  repeat match goal with
         | |- throws_rejections _ (try_catch _ _) => apply throws_rejections_try_catch
         | |- throws_rejections _ (bind _ _) => apply throws_rejections_bind; [| intros ?]
         | |- throws_rejections _ (for_of _ _ _) =>
           apply throws_rejections_for_of; intros ? ?
         | |- throws_rejections _ (for_page_upto _ _ _) =>
           unfold for_page_upto; apply throws_rejections_for_pages; intros ? ?
         | |- throws_rejections _ (request _ _) =>
           apply throws_rejections_request; intros ? ?; simpl; eauto
         | |- throws_rejections _ (if ?b then _ else _) => destruct b
         | |- throws_rejections _ _ =>
           apply throws_rejections_returns; solve [auto with returns]
         end.


Lemma rethrows_print {A} t :
  rethrows (fun error => print Error t [] ;; @throw A error).
Proof. intros e w. eexists. split; reflexivity. Qed.

Section Rejections.
Context {dates : DateLib} (gh : github) (cfg : config).

Lemma UpdateGist_throws_rejections : throws_rejections gh (UpdateGist.getCommitTimes gh cfg).
Proof. unfold UpdateGist.getCommitTimes. throws_rejections. apply rethrows_print. Qed.

Lemma Part000_rethrows :
  rethrows (fun error =>
       print Error "Failed to get commit data: " [] ;;
       (match error with
        | HttpError status =>
          if (status =? 401) || (status =? 403)
          then print Error "Token authentication failed. Check GIST_TOKEN in repository secrets." []
          else ret tt
        | _ => ret tt
        end) ;;
       @throw CommitStats error).
Proof.
  intros e w. destruct e as [| status |]; try (eexists; split; reflexivity).
  unfold bind, print, ret, throw. destruct ((status =? 401) || (status =? 403));
    eexists; split; reflexivity.
Qed.

Lemma Part000_throws_rejections : throws_rejections gh (Part000.getCommitTimes gh cfg).
Proof.
  unfold Part000.getCommitTimes, Part000.fetch_page, Part000.count_event.
  throws_rejections. apply Part000_rethrows.
Qed.

Lemma Part001a_throws_rejections : throws_rejections gh (Part001a.getCommitTimes gh cfg).
Proof.
  unfold Part001a.getCommitTimes, Part001a.fetch_page. throws_rejections.
Qed.

Lemma Part001b_throws_rejections : throws_rejections gh (Part001b.getCommitTimes gh cfg).
Proof.
  unfold Part001b.getCommitTimes, Part001b.fetch_page. throws_rejections.
  apply rethrows_print.
Qed.

End Rejections.

Lemma try_catch_Throw {A} (body : M A) (h : exn -> M A) w e w' :
  try_catch body h w = (Throw e, w') ->
  exists e1 w1, body w = (Throw e1, w1) /\ h e1 w1 = (Throw e, w').
Proof.
  unfold try_catch. destruct (body w) as [[a | e1] w1]; [discriminate |]. eauto.
Qed.

(** X4.  getCommitTimes throws nothing of its own: when it throws, the error
    is the one the API answered to the request sent last, so that no request
    follows a rejected one.  update_gist.js, part_000 and the second script of
    part_001 log "Failed to get commit data" before they rethrow; part_000 adds
    the hint about the token exactly when the status of the error is 401 or
    403; the first script of part_001 has no handler and logs nothing. *)
Theorem X4_collector_rethrows_rejection
    (dates : DateLib) (gh : github) (cfg : config) (w : world) (e : exn) (w' : world) :
  let last_request_rejected :=
    exists cs c, calls w' = cs ++ [c] /\ rejected gh c e in
  let failed w1 := logged Error "Failed to get commit data: " [] w1 in
  (UpdateGist.getCommitTimes gh cfg w = (Throw e, w') ->
     last_request_rejected /\ exists w1, w' = failed w1)
  /\ (Part000.getCommitTimes gh cfg w = (Throw e, w') ->
      last_request_rejected
      /\ exists w1,
           (e = HttpError 401 \/ e = HttpError 403)
           /\ w' = logged Error
                     "Token authentication failed. Check GIST_TOKEN in repository secrets."
                     [] (failed w1)
           \/ e <> HttpError 401 /\ e <> HttpError 403 /\ w' = failed w1)
  /\ (Part001a.getCommitTimes gh cfg w = (Throw e, w') -> last_request_rejected)
  /\ (Part001b.getCommitTimes gh cfg w = (Throw e, w') ->
      last_request_rejected /\ exists w1, w' = failed w1).
Proof.
  intros last_request_rejected failed. split; [| split; [| split]].
  - intros H. split; [exact (UpdateGist_throws_rejections gh cfg w e w' H) |].
    apply try_catch_Throw in H. destruct H as (e1 & w1 & _ & H).
    exists w1. inversion H. reflexivity.
  - intros H. split; [exact (Part000_throws_rejections gh cfg w e w' H) |].
    apply try_catch_Throw in H. destruct H as (e1 & w1 & _ & H).
    exists w1. destruct e1 as [| status |];
      try (inversion H; subst; right; repeat split; discriminate).
    unfold bind, print, ret, throw in H.
    destruct (Z.eqb_spec status 401) as [-> | H1]; simpl in H.
    + inversion H; subst. left. auto.
    + destruct (Z.eqb_spec status 403) as [-> | H3]; simpl in H; inversion H; subst.
      * left. auto.
      * right. repeat split; congruence.
  - intros H. exact (Part001a_throws_rejections gh cfg w e w' H).
  - intros H. split; [exact (Part001b_throws_rejections gh cfg w e w' H) |].
    apply try_catch_Throw in H. destruct H as (e1 & w1 & _ & H).
    exists w1. inversion H. reflexivity.
Qed.

(** An API whose token is refused. *)
Definition unauthorized_github : github :=
  {| users_getAuthenticated := Throw (HttpError 401);
     listPublicEventsForUser := fun _ _ => Throw (HttpError 401);
     listEventsForAuthenticatedUser := fun _ _ _ => Throw (HttpError 401);
     search_commits := fun _ _ _ _ => Throw (HttpError 401);
     gists_update := fun _ _ => Throw (HttpError 401) |}.

Lemma X4_collector_rethrows_rejection_witness :
  exists w1,
    snd (@Part000.getCommitTimes Shanghai.dates unauthorized_github sample_config sample_world)
    = logged Error "Token authentication failed. Check GIST_TOKEN in repository secrets." []
        (logged Error "Failed to get commit data: " [] w1).
Proof.
  destruct (X4_collector_rethrows_rejection Shanghai.dates unauthorized_github sample_config
              sample_world (HttpError 401)
              (snd (@Part000.getCommitTimes Shanghai.dates unauthorized_github sample_config
                      sample_world)))
    as (_ & H & _).
  destruct (H eq_refl) as (_ & w1 & [(_ & E) | (Hne & _)]).
  - exists w1. exact E.
  - exfalso. apply Hne. reflexivity.
Defined.

(** ** The collector: what the returned CommitStats counts *)

(** The sum of the weights of the elements of a list. *)
Definition weigh {A} (weight : A -> Z) (l : list A) : Z :=
  fold_right Z.add 0 (map weight l).

Lemma weigh_app {A} (weight : A -> Z) l l' :
  weigh weight (l ++ l') = weigh weight l + weigh weight l'.
Proof. unfold weigh. induction l; simpl; lia. Qed.

Lemma weigh_one {A} (l : list A) : weigh (fun _ => 1) l = Z.of_nat (length l).
Proof.
  unfold weigh. induction l as [| a l IH]; [reflexivity |].
  cbn [map fold_right length]. rewrite Nat2Z.inj_succ. lia.
Qed.

(** The instant falls in the bucket, in the zone of the scripts. *)
Definition falls_in {dates : DateLib} (b : bucket) (t : instant) : bool :=
  bucket_eqb (bucketOfHour (zonedHour TIME_ZONE t)) b.

Lemma bucket_eqb_sym a b : bucket_eqb a b = bucket_eqb b a.
Proof. destruct a, b; reflexivity. Qed.

(** The pages a page loop went through: the requests it sent are those of the
    pages [page .. page + k - 1], [ls] are the answers to them, every answer but
    the last asked for one more page, and the invariant [I] holds of the
    answers seen. *)
Lemma for_pages_collects {St A} (body : Z -> St -> M (flow St)) (mk : Z -> call)
    (ans : Z -> A -> Prop) (more : A -> Prop) (I : Z -> list A -> St -> world -> Prop) :
  (forall page s w r w' seen, I page seen s w -> body page s w = (Ok r, w') ->
     calls w' = calls w ++ [mk page]
     /\ exists a, ans page a /\ I (page + 1) (seen ++ [a]) (flow_state r) w'
                  /\ (forall s1, r = Next s1 -> more a)) ->
  forall fuel page s w s' w' seen,
    I page seen s w -> for_pages fuel page body s w = (Ok s', w') ->
    exists k ls,
      (k <= fuel)%nat /\ (0 < fuel -> 0 < k)%nat
      /\ calls w' = calls w ++ map mk (pages_from page k)
      /\ Forall2 ans (pages_from page k) ls
      /\ Forall more (removelast ls)
      /\ I (page + Z.of_nat k) (seen ++ ls) s' w'.
Proof.
  intros Hbody fuel. induction fuel as [| fuel IH]; intros page s w s' w' seen HI H.
  - simpl in H. inversion H; subst. exists O, []. simpl.
    rewrite !app_nil_r, Z.add_0_r. repeat split; auto; try lia; constructor.
  - simpl in H. bind_inv H.
    destruct (Hbody _ _ _ _ _ _ HI E) as (Hc & a1 & Hans & HI1 & Hmore).
    destruct a as [s1 | s1]; simpl in HI1.
    + destruct (IH _ _ _ _ _ _ HI1 H) as (k & ls & Hk & _ & Hcs & Hf & Hm & HI').
      exists (S k), (a1 :: ls). rewrite pages_from_S.
      split; [lia |]. split; [lia |]. split.
      { rewrite Hcs, Hc, <- app_assoc. reflexivity. }
      split; [constructor; assumption |]. split.
      { destruct ls as [| a2 ls]; [constructor |].
        change (removelast (a1 :: a2 :: ls)) with (a1 :: removelast (a2 :: ls)).
        constructor; [eapply Hmore; reflexivity | exact Hm]. }
      rewrite <- app_assoc in HI'. simpl in HI'.
      replace (page + Z.of_nat (S k)) with (page + 1 + Z.of_nat k) by lia. exact HI'.
    + inversion H; subst. exists 1%nat, [a1]. rewrite pages_from_S.
      unfold pages_from. cbn [seq map removelast].
      split; [lia |]. split; [lia |]. split; [exact Hc |].
      split; [constructor; [exact Hans | constructor] |].
      split; [constructor |]. exact HI1.
Qed.

(** *** update_gist.js *)

Section Tally.
Context {dates : DateLib}.

(** The commits of the push events of a list that fall in a bucket, each
    event weighing [weight]; and those of all its push events. *)
Definition commits_in (weight : event -> Z) (b : bucket) (events : list event) : Z :=
  weigh weight (filter (fun e => is_PushEvent e && falls_in b (created_at e)) events).

Definition commits_of (weight : event -> Z) (events : list event) : Z :=
  weigh weight (filter is_PushEvent events).

Lemma commits_in_app weight b l l' :
  commits_in weight b (l ++ l') = commits_in weight b l + commits_in weight b l'.
Proof. unfold commits_in. rewrite filter_app. apply weigh_app. Qed.

Lemma commits_of_app weight l l' :
  commits_of weight (l ++ l') = commits_of weight l + commits_of weight l'.
Proof. unfold commits_of. rewrite filter_app. apply weigh_app. Qed.

(** The items of a list that fall in a bucket. *)
Definition items_in (b : bucket) (items : list search_item) : Z :=
  Z.of_nat (length (filter (fun i => falls_in b (author_date i)) items)).

Lemma items_in_app b l l' : items_in b (l ++ l') = items_in b l + items_in b l'.
Proof. unfold items_in. rewrite filter_app, length_app. lia. Qed.

Lemma commits_in_cons weight b e l :
  commits_in weight b (e :: l)
  = (if is_PushEvent e && falls_in b (created_at e) then weight e else 0)
    + commits_in weight b l.
Proof.
  unfold commits_in, weigh. simpl.
  destruct (is_PushEvent e && falls_in b (created_at e)); reflexivity.
Qed.

Lemma commits_of_cons weight e l :
  commits_of weight (e :: l)
  = (if is_PushEvent e then weight e else 0) + commits_of weight l.
Proof. unfold commits_of, weigh. simpl. destruct (is_PushEvent e); reflexivity. Qed.

Lemma items_in_cons b i l :
  items_in b (i :: l) = (if falls_in b (author_date i) then 1 else 0) + items_in b l.
Proof.
  unfold items_in. simpl. destruct (falls_in b (author_date i)); [| lia].
  cbn [length]. lia.
Qed.

Lemma UpdateGist_fold events : forall s,
  (forall b, count_of b (fold_left UpdateGist.count_event events s)
             = count_of b s + commits_in UpdateGist.commitCount b events)
  /\ total (fold_left UpdateGist.count_event events s)
     = total s + commits_of UpdateGist.commitCount events.
Proof.
  induction events as [| e events IH]; intros s.
  - unfold commits_in, commits_of, weigh. simpl. split; [intros b |]; lia.
  - simpl fold_left. destruct (IH (UpdateGist.count_event s e)) as (IHb & IHt).
    split.
    + intros b. rewrite IHb, commits_in_cons.
      unfold UpdateGist.count_event, falls_in.
      destruct (is_PushEvent e); simpl; [| lia].
      rewrite count_of_add_to, bucket_eqb_sym.
      destruct (bucket_eqb _ b); lia.
    + rewrite IHt, commits_of_cons. unfold UpdateGist.count_event.
      destruct (is_PushEvent e); simpl; lia.
Qed.

Lemma Part001a_fold items : forall c b,
  count_of b (fold_left Part001a.count_item items c) = count_of b c + items_in b items.
Proof.
  induction items as [| i items IH]; intros c b.
  - unfold items_in. simpl. lia.
  - simpl fold_left. rewrite IH, items_in_cons.
    unfold Part001a.count_item, falls_in.
    rewrite count_of_add_to, bucket_eqb_sym.
    destruct (bucket_eqb _ b); lia.
Qed.

Lemma Part001b_fold items : forall s,
  (forall b, count_of b (fold_left Part001b.count_item items s)
             = count_of b s + items_in b items)
  /\ total (fold_left Part001b.count_item items s) = total s + Z.of_nat (length items).
Proof.
  induction items as [| i items IH]; intros s.
  - unfold items_in. simpl. split; [intros b |]; lia.
  - simpl fold_left. destruct (IH (Part001b.count_item s i)) as (IHb & IHt). split.
    + intros b. rewrite IHb, items_in_cons.
      unfold Part001b.count_item, falls_in. cbn [buckets].
      rewrite count_of_add_to, bucket_eqb_sym.
      destruct (bucket_eqb _ b); lia.
    + rewrite IHt. unfold Part001b.count_item. cbn [total length].
      rewrite Nat2Z.inj_succ. lia.
Qed.

End Tally.

(** X5.  update_gist.js, when the API answers its one request with [events]:
    getCommitTimes returns, having sent that request and logged nothing; each
    bucket holds the sum of the lengths of the commits lists of the push
    events whose hour, in the zone of the script, falls in the bucket, and the
    total holds that sum over all push events; events of other types add
    nothing. *)
Theorem X5_UpdateGist_counts_push_events
    (dates : DateLib) (gh : github) (cfg : config) (w : world) (events : list event) :
  listPublicEventsForUser gh (GH_USERNAME cfg) 100 = Ok events ->
  exists s,
    UpdateGist.getCommitTimes gh cfg w
    = (Ok s, {| clock := clock w; calls := calls w ++ [ListPublicEvents 100];
                console := console w |})
    /\ (forall b, count_of b s = commits_in UpdateGist.commitCount b events)
    /\ total s = commits_of UpdateGist.commitCount events.
Proof.
  intros Hans. eexists. split; [| split].
  - unfold UpdateGist.getCommitTimes, try_catch, bind, request, ret. rewrite Hans.
    reflexivity.
  - intros b.
    destruct (UpdateGist_fold events {| buckets := no_commits; total := 0 |}) as (Hb & _).
    rewrite Hb. destruct b; reflexivity.
  - destruct (UpdateGist_fold events {| buckets := no_commits; total := 0 |}) as (_ & Ht).
    rewrite Ht. reflexivity.
Qed.

Lemma X5_UpdateGist_counts_push_events_witness :
  exists s w',
    @UpdateGist.getCommitTimes Shanghai.dates sample_github sample_config sample_world
    = (Ok s, w')
    /\ morning s = 2 /\ total s = 2.
Proof.
  destruct (X5_UpdateGist_counts_push_events Shanghai.dates sample_github sample_config
              sample_world sample_events eq_refl) as (s & E & Hb & Ht).
  exists s. eexists. split; [exact E |]. split.
  - exact (Hb Morning).
  - exact Ht.
Defined.

(** *** part_000 *)

(** The number of console lines with a given text. *)
Definition count_text (t : string) (ls : list line) : Z :=
  Z.of_nat (length (filter (fun l => String.eqb (text l) t) ls)).

Lemma count_text_app t ls ls' : count_text t (ls ++ ls') = count_text t ls + count_text t ls'.
Proof. unfold count_text. rewrite filter_app, length_app. lia. Qed.

Lemma count_text_logged t l t' a w :
  count_text t (console (logged l t' a w))
  = count_text t (console w) + (if String.eqb t' t then 1 else 0).
Proof.
  unfold logged. simpl. rewrite count_text_app. unfold count_text at 2. simpl.
  destruct (String.eqb t' t); reflexivity.
Qed.

Lemma print_logged l t a w : print l t a w = (Ok tt, logged l t a w).
Proof. reflexivity. Qed.

Section Part000_run.
Context {dates : DateLib} (gh : github) (cfg : config).

(** What the variables of the page loop hold after the pages [seen], when the
    console held [dumps] payload dumps before the loop. *)
Definition Part000_counted (dumps : Z) (seen : list (list event))
    (s : Part000.progress) (w : world) : Prop :=
  (forall b, count_of b (Part000.stats s)
             = commits_in Part000.commitCount b (concat seen))
  /\ total (Part000.stats s) = commits_of Part000.commitCount (concat seen)
  /\ Part000.totalEvents s = Z.of_nat (length (concat seen))
  /\ Part000.pushEventCount s = Z.of_nat (length (filter is_PushEvent (concat seen)))
  /\ count_text "PushEvent payload keys" (console w)
     = dumps + Z.min 3 (Part000.pushEventCount s).

Lemma Part000_count_events events : forall s w s' w',
  for_of events Part000.count_event s w = (Ok s', w') ->
  (forall b, count_of b (Part000.stats s')
             = count_of b (Part000.stats s) + commits_in Part000.commitCount b events)
  /\ total (Part000.stats s')
     = total (Part000.stats s) + commits_of Part000.commitCount events
  /\ Part000.totalEvents s' = Part000.totalEvents s
  /\ Part000.pushEventCount s'
     = Part000.pushEventCount s + Z.of_nat (length (filter is_PushEvent events))
  /\ (0 <= Part000.pushEventCount s ->
      count_text "PushEvent payload keys" (console w')
      - Z.min 3 (Part000.pushEventCount s')
      = count_text "PushEvent payload keys" (console w)
        - Z.min 3 (Part000.pushEventCount s)).
Proof.
  induction events as [| e events IH]; intros s w s' w' H.
  - simpl in H. inversion H; subst. unfold commits_in, commits_of, weigh. simpl.
    repeat split; intros; lia.
  - simpl in H. bind_inv H. apply IH in H. destruct H as (Hb & Ht & He & Hp & Hd).
    rename a into s1. rename w0 into w1.
    assert (Hstep :
      Part000.stats s1
      = (if is_PushEvent e
         then bump (bucketOfHour (zonedHour TIME_ZONE (created_at e)))
                (Part000.commitCount e) (Part000.stats s)
         else Part000.stats s)
      /\ Part000.totalEvents s1 = Part000.totalEvents s
      /\ Part000.pushEventCount s1
         = Part000.pushEventCount s + (if is_PushEvent e then 1 else 0)
      /\ (0 <= Part000.pushEventCount s ->
          count_text "PushEvent payload keys" (console w1)
          - Z.min 3 (Part000.pushEventCount s1)
          = count_text "PushEvent payload keys" (console w)
            - Z.min 3 (Part000.pushEventCount s))).
    { unfold Part000.count_event in E. destruct (is_PushEvent e).
      - destruct (Z.leb_spec (Part000.pushEventCount s + 1) 3) as [Hle | Hgt];
          unfold bind, ret in E; rewrite ?print_logged in E; inversion E; subst;
          cbn [Part000.stats Part000.totalEvents Part000.pushEventCount];
          (split; [reflexivity |]); (split; [reflexivity |]); (split; [reflexivity |]);
          intros H0; rewrite ?count_text_logged; simpl; lia.
      - inversion E; subst. repeat split; try lia. }
    destruct Hstep as (Hs1 & He1 & Hp1 & Hd1).
    split; [| split; [| split; [| split]]].
    + intros b. rewrite Hb, Hs1, commits_in_cons. unfold falls_in.
      destruct (is_PushEvent e); simpl; [| lia].
      rewrite count_of_add_to, bucket_eqb_sym. destruct (bucket_eqb _ b); lia.
    + rewrite Ht, Hs1, commits_of_cons. destruct (is_PushEvent e); simpl; lia.
    + congruence.
    + rewrite Hp, Hp1. simpl. destruct (is_PushEvent e); cbn [length];
        rewrite ?Nat2Z.inj_succ; lia.
    + intros H0. rewrite Hd by (destruct (is_PushEvent e); lia). apply Hd1. exact H0.
Qed.

Lemma Part000_fetch_page_step dumps u page s w r w' seen :
  Part000_counted dumps seen s w ->
  Part000.fetch_page gh u page s w = (Ok r, w') ->
  calls w' = calls w ++ [ListEvents 100 page]
  /\ exists events,
       listEventsForAuthenticatedUser gh u 100 page = Ok events
       /\ Part000_counted dumps (seen ++ [events]) (flow_state r) w'
       /\ (forall s1, r = Next s1 -> events <> []).
Proof.
  intros (Hb & Ht & He & Hp & Hd) H.
  pose proof (Part000_fetch_page_calls gh u page s w) as Hc. rewrite H in Hc.
  split; [exact Hc |].
  unfold Part000.fetch_page in H. bind_inv H. rename a into events.
  assert (Hans : listEventsForAuthenticatedUser gh u 100 page = Ok events)
    by (unfold request in E; congruence).
  assert (Hw0 : count_text "PushEvent payload keys" (console w0)
                = count_text "PushEvent payload keys" (console w))
    by (unfold request in E; inversion E; reflexivity).
  exists events. split; [exact Hans |].
  bind_inv H. rewrite print_logged in E0. inversion E0; subst. clear E0.
  unfold Part000_counted. rewrite concat_app. simpl concat. rewrite app_nil_r.
  destruct events as [| e events].
  - simpl in H. inversion H; subst. simpl flow_state. rewrite app_nil_r.
    split; [| intros s1 Hs1; discriminate].
    rewrite count_text_logged, Hw0. simpl. repeat split; try assumption. lia.
  - cbn [length Nat.eqb] in H. bind_inv H. inversion H; subst. simpl flow_state.
    apply Part000_count_events in E0.
    cbn [Part000.stats Part000.totalEvents Part000.pushEventCount] in E0.
    destruct E0 as (Hb1 & Ht1 & He1 & Hp1 & Hd1).
    split; [| intros s1 _; discriminate].
    split; [| split; [| split; [| split]]].
    + intros b. rewrite Hb1, Hb, commits_in_app. reflexivity.
    + rewrite Ht1, Ht, commits_of_app. reflexivity.
    + rewrite He1, He, length_app, Nat2Z.inj_add. reflexivity.
    + rewrite Hp1, Hp, filter_app, length_app, Nat2Z.inj_add. reflexivity.
    + rewrite count_text_logged, Hw0 in Hd1. simpl in Hd1.
      specialize (Hd1 ltac:(lia)). lia.
Qed.

(** The pages of events a run of part_000 went through. *)
Definition Part000_pages (user : user) (k : nat) (pages : list (list event)) : Prop :=
  (1 <= k <= 3)%nat
  /\ Forall2 (fun page events =>
                listEventsForAuthenticatedUser gh
                  (username_or (GH_USERNAME cfg) (login user)) 100 page = Ok events)
       (pages_from 1 k) pages
  /\ Forall (fun events => events <> []) (removelast pages).

Lemma try_catch_Ok {A} (body : M A) (h : exn -> M A) w a w' :
  (forall e w1, fst (h e w1) <> Ok a) ->
  try_catch body h w = (Ok a, w') -> body w = (Ok a, w').
Proof.
  intros Hh H. unfold try_catch in H. destruct (body w) as [[b | e] w1]; [exact H |].
  exfalso. apply (Hh e w1). rewrite H. reflexivity.
Qed.

Lemma Part000_run w s w' :
  Part000.getCommitTimes gh cfg w = (Ok s, w') ->
  exists user k pages w1,
    users_getAuthenticated gh = Ok user
    /\ Part000_pages user k pages
    /\ calls w' = calls w ++ GetAuthenticated :: map (ListEvents 100) (pages_from 1 k)
    /\ (forall b, count_of b s = commits_in Part000.commitCount b (concat pages))
    /\ total s = commits_of Part000.commitCount (concat pages)
    /\ count_text "PushEvent payload keys" (console w1)
       = count_text "PushEvent payload keys" (console w)
         + Z.min 3 (Z.of_nat (length (filter is_PushEvent (concat pages))))
    /\ let summary :=
         logged Info "Total events, PushEvents, Commits"
           [Z.of_nat (length (concat pages));
            Z.of_nat (length (filter is_PushEvent (concat pages)));
            total s] w1 in
       w' = match concat pages with
            | [] =>
              logged Warn "Or use a Classic PAT with repo + gist scopes" []
                (logged Warn "Fine-grained PAT: set Repository access to All repositories" []
                   (logged Warn "No events found. Token likely needs broader permissions:" []
                      summary))
            | _ :: _ => summary
            end.
Proof.
  intros H. unfold Part000.getCommitTimes in H.
  apply try_catch_Ok in H.
  2: { intros e w1. unfold bind, print, throw.
       destruct e as [| status |]; simpl; try discriminate.
       destruct ((status =? 401) || (status =? 403)); discriminate. }
  bind_inv H. rename a into user.
  assert (Hu : users_getAuthenticated gh = Ok user) by (unfold request in E; congruence).
  assert (Hw0 : calls w0 = calls w ++ [GetAuthenticated]
                /\ console w0 = console w)
    by (unfold request in E; inversion E; split; reflexivity).
  destruct Hw0 as (Hc0 & Hl0).
  bind_inv H. rewrite print_logged in E0. inversion E0; subst. clear E0.
  bind_inv H. rename a into p. rename w1 into w2.
  unfold for_page_upto in E0.
  apply (for_pages_collects
           (Part000.fetch_page gh (username_or (GH_USERNAME cfg) (login user)))
           (ListEvents 100)
           (fun page events =>
              listEventsForAuthenticatedUser gh
                (username_or (GH_USERNAME cfg) (login user)) 100 page = Ok events)
           (fun events => events <> [])
           (fun _ => Part000_counted (count_text "PushEvent payload keys" (console w)))
           (fun page s w r w' seen => Part000_fetch_page_step _ _ page s w r w' seen)
           _ _ _ _ _ _ []) in E0.
  2: { unfold Part000_counted, commits_in, commits_of, weigh. simpl.
       rewrite count_text_app, Hl0. unfold count_text at 2. simpl.
       repeat split; try lia. intros b; destruct b; reflexivity. }
  destruct E0 as (k & pages & Hk & Hk0 & Hcs & Hf & Hm & (Hb & Ht & He & Hp & Hd)).
  simpl app in Hb, Ht, He, Hp. simpl in Hcs.
  exists user, k, pages, w2.
  split; [exact Hu |]. split.
  { split; [| split; assumption]. change (Z.to_nat 3) with 3%nat in Hk, Hk0. lia. }
  bind_inv H. rewrite print_logged in E0. inversion E0; subst. clear E0.
  rewrite He, Hp in H.
  assert (Hret : forall w3, w' = w3 ->
             calls w3 = calls w2 ->
             calls w' = calls w ++ GetAuthenticated :: map (ListEvents 100) (pages_from 1 k)).
  { intros w3 -> Hc3. rewrite Hc3, Hcs, Hc0, <- app_assoc. reflexivity. }
  rewrite Hp in Hd.
  destruct (concat pages) as [| e0 events] eqn:Epages.
  - simpl in H. unfold bind, ret in H. rewrite !print_logged in H. inversion H; subst.
    split; [apply (Hret _ eq_refl); reflexivity |].
    split; [exact Hb |]. split; [exact Ht |]. split; [exact Hd | reflexivity].
  - assert (Hz : (Z.of_nat (length (e0 :: events)) =? 0) = false)
      by (apply Z.eqb_neq; simpl length; lia).
    rewrite Hz in H. unfold bind, ret in H. inversion H; subst.
    split; [apply (Hret _ eq_refl); reflexivity |].
    split; [exact Hb |]. split; [exact Ht |]. split; [exact Hd | reflexivity].
Qed.

End Part000_run.

(** *** part_001: the two search collectors *)

Section Search_run.
Context {dates : DateLib} (gh : github) (cfg : config).

(** All the items of a list of search answers. *)
Definition all_items (pages : list search_data) : list search_item :=
  concat (map items_or_empty pages).

Lemma all_items_app l l' : all_items (l ++ l') = all_items l ++ all_items l'.
Proof. unfold all_items. rewrite map_app, concat_app. reflexivity. Qed.

(** The search answers a run of part_001 went through, for the commits of
    [u] since [since]. *)
Definition search_pages (u : string) (since : instant) (k : nat)
    (pages : list search_data) : Prop :=
  (1 <= k <= 10)%nat
  /\ Forall2 (fun page d => search_commits gh u since 100 page = Ok d) (pages_from 1 k) pages
  /\ Forall (fun d => (100 <= length (items_or_empty d))%nat) (removelast pages).

(** The cap warning is due for the answer to page 1 only. *)
Definition cap_warnings (pages : list search_data) : Z :=
  match pages with
  | d :: _ => if Part001a.SEARCH_API_LIMIT <? total_count d then 1 else 0
  | [] => 0
  end.

Definition Part001a_counted (warned : Z) (page : Z) (seen : list search_data)
    (c : counters) (w : world) : Prop :=
  (forall b, count_of b c = items_in b (all_items seen))
  /\ page = 1 + Z.of_nat (length seen)
  /\ count_text "Total commits, but Search API caps" (console w)
     = warned + cap_warnings seen.

Lemma Part001a_fetch_page_step warned u since page c w r w' seen :
  Part001a_counted warned page seen c w ->
  Part001a.fetch_page gh u since page c w = (Ok r, w') ->
  calls w' = calls w ++ [SearchCommits 100 page]
  /\ exists d,
       search_commits gh u since 100 page = Ok d
       /\ Part001a_counted warned (page + 1) (seen ++ [d]) (flow_state r) w'
       /\ (forall c1, r = Next c1 -> (100 <= length (items_or_empty d))%nat).
Proof.
  intros (Hb & Hpage & Hwarn) H.
  pose proof (Part001a_fetch_page_calls gh u since page c w) as Hc. rewrite H in Hc.
  split; [exact Hc |].
  unfold Part001a.fetch_page, Part001a.PER_PAGE in H. bind_inv H. rename a into d.
  assert (Hans : search_commits gh u since 100 page = Ok d)
    by (unfold request in E; congruence).
  assert (Hw0 : console w0 = console w) by (unfold request in E; inversion E; reflexivity).
  exists d. split; [exact Hans |].
  bind_inv H.
  assert (Hw1 : count_text "Total commits, but Search API caps" (console w1)
                = warned + cap_warnings (seen ++ [d])).
  { destruct (Z.eqb_spec page 1) as [Hp1 | Hne].
    - assert (Hlen : length seen = 0%nat) by lia.
      apply length_zero_iff_nil in Hlen.
      subst seen. simpl in Hwarn |- *.
      unfold bind, ret in E0. rewrite print_logged in E0.
      destruct (Part001a.SEARCH_API_LIMIT <? total_count d);
        rewrite ?print_logged in E0; inversion E0; subst;
        rewrite ?count_text_logged, Hw0, Hwarn; simpl; lia.
    - unfold ret in E0. injection E0 as _ <-. rewrite Hw0, Hwarn.
      destruct seen as [| d0 seen]; [simpl in Hpage; lia | reflexivity]. }
  clear E0.
  fold (items_or_empty d) in H.
  assert (Hnext : Part001a_counted warned (page + 1) (seen ++ [d])
                    (fold_left Part001a.count_item (items_or_empty d) c) w1).
  { split; [| split; [| exact Hw1]].
    - intros b. rewrite Part001a_fold, Hb, all_items_app, items_in_app.
      unfold all_items at 3. simpl. rewrite app_nil_r. reflexivity.
    - rewrite length_app, Nat2Z.inj_add. change (Z.of_nat (length [d])) with 1. lia. }
  destruct (Nat.eqb_spec (length (items_or_empty d)) 0) as [Hlen | Hlen].
  - apply length_zero_iff_nil in Hlen. rewrite Hlen in Hnext.
    unfold ret in H. injection H as <- <-.
    split; [exact Hnext | intros c1 Hc1; discriminate].
  - destruct (Z.ltb_spec (Z.of_nat (length (items_or_empty d))) 100) as [Hlt | Hge];
      unfold ret in H; injection H as <- <-;
      (split; [exact Hnext | intros c1 Hc1; try discriminate; lia]).
Qed.

Definition Part001b_counted (page : Z) (seen : list search_data)
    (s : CommitStats) (w : world) : Prop :=
  (forall b, count_of b s = items_in b (all_items seen))
  /\ total s = Z.of_nat (length (all_items seen)).

Lemma Part001b_fetch_page_step u since page s w r w' seen :
  Part001b_counted page seen s w ->
  Part001b.fetch_page gh u since page s w = (Ok r, w') ->
  calls w' = calls w ++ [SearchCommits 100 page]
  /\ exists d,
       search_commits gh u since 100 page = Ok d
       /\ Part001b_counted (page + 1) (seen ++ [d]) (flow_state r) w'
       /\ (forall s1, r = Next s1 -> (100 <= length (items_or_empty d))%nat).
Proof.
  intros (Hb & Ht) H.
  pose proof (Part001b_fetch_page_calls gh u since page s w) as Hc. rewrite H in Hc.
  split; [exact Hc |].
  unfold Part001b.fetch_page in H. bind_inv H. rename a into d.
  assert (Hans : search_commits gh u since 100 page = Ok d)
    by (unfold request in E; congruence).
  exists d. split; [exact Hans |].
  bind_inv H. clear E0.
  fold (items_or_empty d) in H.
  assert (Hnext : Part001b_counted (page + 1) (seen ++ [d])
                    (fold_left Part001b.count_item (items_or_empty d) s) w1).
  { destruct (Part001b_fold (items_or_empty d) s) as (Hfb & Hft). split.
    - intros b. rewrite Hfb, Hb, all_items_app, items_in_app.
      unfold all_items at 3. simpl. rewrite app_nil_r. reflexivity.
    - rewrite Hft, Ht, all_items_app, length_app, Nat2Z.inj_add.
      unfold all_items at 3. simpl. rewrite app_nil_r. reflexivity. }
  destruct (Nat.eqb_spec (length (items_or_empty d)) 0) as [Hlen | Hlen].
  - apply length_zero_iff_nil in Hlen. rewrite Hlen in Hnext.
    unfold ret in H. injection H as <- <-.
    split; [exact Hnext | intros c1 Hc1; discriminate].
  - destruct (Z.ltb_spec (Z.of_nat (length (items_or_empty d))) 100) as [Hlt | Hge];
      unfold ret in H; injection H as <- <-;
      (split; [exact Hnext | intros c1 Hc1; try discriminate; lia]).
Qed.

Lemma items_in_total l :
  items_in Morning l + items_in Daytime l + items_in Evening l + items_in Night l
  = Z.of_nat (length l).
Proof.
  induction l as [| i l IH]; [reflexivity |].
  rewrite !items_in_cons. cbn [length]. rewrite Nat2Z.inj_succ. unfold falls_in.
  destruct (bucketOfHour (zonedHour TIME_ZONE (author_date i))); cbn [bucket_eqb]; lia.
Qed.

(** What a run of either search collector that returns has done. *)
Definition search_run (w : world) (s : CommitStats) (w' : world) : Prop :=
  exists user since k pages,
    users_getAuthenticated gh = Ok user
    /\ search_pages (username_or (GH_USERNAME cfg) (login user)) since k pages
    /\ calls w' = calls w ++ GetAuthenticated :: map (SearchCommits 100) (pages_from 1 k)
    /\ (forall b, count_of b s = items_in b (all_items pages))
    /\ total s = Z.of_nat (length (all_items pages)).

Lemma Part001a_run w s w' :
  Part001a.getCommitTimes gh cfg w = (Ok s, w') ->
  exists user since k pages,
    users_getAuthenticated gh = Ok user
    /\ search_pages (username_or (GH_USERNAME cfg) (login user)) since k pages
    /\ calls w' = calls w ++ GetAuthenticated :: map (SearchCommits 100) (pages_from 1 k)
    /\ (forall b, count_of b s = items_in b (all_items pages))
    /\ total s = Z.of_nat (length (all_items pages))
    /\ count_text "Total commits, but Search API caps" (console w')
       = count_text "Total commits, but Search API caps" (console w) + cap_warnings pages.
Proof.
  intros H. unfold Part001a.getCommitTimes in H.
  bind_inv H. rename a into user.
  assert (Hu : users_getAuthenticated gh = Ok user) by (unfold request in E; congruence).
  assert (Hw0 : calls w0 = calls w ++ [GetAuthenticated] /\ console w0 = console w)
    by (unfold request in E; inversion E; split; reflexivity).
  destruct Hw0 as (Hc0 & Hl0).
  bind_inv H. rewrite print_logged in E0. inversion E0; subst. clear E0.
  bind_inv H. unfold new_Date in E0. inversion E0; subst. clear E0.
  bind_inv H. rename a into c. rename w1 into w2.
  unfold for_page_upto in E0.
  apply (for_pages_collects _ (SearchCommits 100)
           (fun page d =>
              search_commits gh (username_or (GH_USERNAME cfg) (login user))
                (clock w0 - Part001a.DAYS_LOOKBACK * 86400000) 100 page = Ok d)
           (fun d => (100 <= length (items_or_empty d))%nat)
           (Part001a_counted (count_text "Total commits, but Search API caps" (console w)))
           (fun page s w r w' seen => Part001a_fetch_page_step _ _ _ page s w r w' seen)
           _ _ _ _ _ _ []) in E0.
  2: { unfold Part001a_counted, all_items, items_in. simpl.
       rewrite count_text_app, Hl0. unfold count_text at 2. simpl.
       repeat split; try lia. intros b; destruct b; reflexivity. }
  destruct E0 as (k & pages & Hk & Hk0 & Hcs & Hf & Hm & (Hb & _ & Hw)).
  simpl app in Hb, Hw. simpl in Hcs.
  bind_inv H. rewrite print_logged in E0. inversion E0; subst. clear E0.
  unfold ret in H. injection H as <- <-.
  exists user, (clock w0 - Part001a.DAYS_LOOKBACK * 86400000), k, pages.
  split; [exact Hu |]. split.
  { split; [| split; assumption].
    change (Z.to_nat Part001a.MAX_PAGES) with 10%nat in Hk, Hk0. lia. }
  split; [simpl; rewrite Hcs, Hc0, <- app_assoc; reflexivity |].
  split; [exact Hb |]. split.
  - cbn [total]. rewrite <- items_in_total, <- !Hb. reflexivity.
  - rewrite count_text_logged, Hw. simpl. lia.
Qed.

Lemma Part001b_run w s w' :
  Part001b.getCommitTimes gh cfg w = (Ok s, w') -> search_run w s w'.
Proof.
  intros H. unfold Part001b.getCommitTimes in H.
  apply try_catch_Ok in H; [| intros e w1; discriminate].
  bind_inv H. rename a into user.
  assert (Hu : users_getAuthenticated gh = Ok user) by (unfold request in E; congruence).
  assert (Hc0 : calls w0 = calls w ++ [GetAuthenticated])
    by (unfold request in E; inversion E; reflexivity).
  bind_inv H. rewrite print_logged in E0. inversion E0; subst. clear E0.
  bind_inv H. unfold new_Date in E0. inversion E0; subst. clear E0.
  bind_inv H. rename a into c. rename w1 into w2.
  unfold for_page_upto in E0.
  apply (for_pages_collects _ (SearchCommits 100)
           (fun page d =>
              search_commits gh (username_or (GH_USERNAME cfg) (login user))
                (clock w0 - 365 * 86400000) 100 page = Ok d)
           (fun d => (100 <= length (items_or_empty d))%nat)
           Part001b_counted
           (fun page s w r w' seen => Part001b_fetch_page_step _ _ page s w r w' seen)
           _ _ _ _ _ _ []) in E0.
  2: { unfold Part001b_counted, all_items, items_in. simpl.
       split; [intros b; destruct b |]; reflexivity. }
  destruct E0 as (k & pages & Hk & Hk0 & Hcs & Hf & Hm & (Hb & Ht)).
  simpl app in Hb, Ht. simpl in Hcs.
  bind_inv H. rewrite print_logged in E0. inversion E0; subst. clear E0.
  unfold ret in H. injection H as <- <-.
  exists user, (clock w0 - 365 * 86400000), k, pages.
  split; [exact Hu |]. split.
  { split; [| split; assumption]. change (Z.to_nat 10) with 10%nat in Hk, Hk0. lia. }
  split; [simpl; rewrite Hcs, Hc0, <- app_assoc; reflexivity |].
  split; [exact Hb | exact Ht].
Qed.

End Search_run.

(** *** part_000: the counters as Numbers and as integers *)

Lemma Zdigits2_unique m d : 0 < m -> 2 ^ (d - 1) <= m < 2 ^ d -> Zdigits2 m = d.
Proof.
  intros Hm (Hlo & Hhi). pose proof (Zdigits2_bounds m Hm) as (Dlo & Dhi).
  assert (HD : 0 < Zdigits2 m).
  { destruct m as [| p | p]; try lia.
    change (Zdigits2 (Z.pos p)) with (Z.pos (digits2_pos p)). lia. }
  assert (Hd : 0 < d).
  { destruct (Z_lt_le_dec 0 d) as [H | H]; [exact H |].
    exfalso. assert (2 ^ d <= 2 ^ 0) by (apply Z.pow_le_mono_r; lia).
    change (2 ^ 0) with 1 in *. lia. }
  destruct (Z.lt_trichotomy (Zdigits2 m) d) as [Hlt | [Heq | Hgt]]; [| exact Heq |].
  - exfalso. assert (2 ^ Zdigits2 m <= 2 ^ (d - 1)) by (apply Z.pow_le_mono_r; lia). lia.
  - exfalso. assert (2 ^ d <= 2 ^ (Zdigits2 m - 1)) by (apply Z.pow_le_mono_r; lia). lia.
Qed.

Lemma Zdigits2_mul_pow2 n j : 0 < n -> 0 <= j -> Zdigits2 (n * 2 ^ j) = Zdigits2 n + j.
Proof.
  intros Hn Hj. pose proof (Zdigits2_bounds n Hn) as (Dlo & Dhi).
  assert (HD : 0 < Zdigits2 n).
  { destruct n as [| p | p]; try lia.
    change (Zdigits2 (Z.pos p)) with (Z.pos (digits2_pos p)). lia. }
  assert (Hp : 0 < 2 ^ j) by (apply Z.pow_pos_nonneg; lia).
  apply Zdigits2_unique; [nia |].
  replace (Zdigits2 n + j - 1) with (Zdigits2 n - 1 + j) by lia.
  rewrite !Z.pow_add_r by lia. nia.
Qed.

(** A rounding that only drops zero bits. *)
Lemma binary_round_aux_shift s m e k :
  0 < m -> 0 <= k -> m mod 2 ^ k = 0 ->
  fexp prec emax (Zdigits2 m + e) = e + k -> e + k <= 971 ->
  binary_round_aux prec emax s m e loc_Exact = S754_finite s (Z.to_pos (m / 2 ^ k)) (e + k).
Proof.
  intros Hm Hk Hmod Hf He.
  assert (Hp : 0 < 2 ^ k) by (apply Z.pow_pos_nonneg; lia).
  assert (Hq : 0 < m / 2 ^ k).
  { pose proof (Z.div_mod m (2 ^ k) ltac:(lia)).
    assert (0 <= m / 2 ^ k) by (apply Z.div_pos; lia). nia. }
  assert (Em : m = m / 2 ^ k * 2 ^ k).
  { pose proof (Z.div_mod m (2 ^ k) ltac:(lia)). lia. }
  unfold binary_round_aux, shr_fexp.
  replace (fexp prec emax (Zdigits2 m + e) - e) with k by lia.
  pose proof (shr_spec m e loc_Exact k ltac:(lia)) as H1.
  destruct (shr (shr_record_of_loc m loc_Exact) e k) as [mrs1 e1].
  destruct H1 as (He1 & Hm1 & Hl1).
  replace (Z.max k 0) with k in He1, Hm1 by lia.
  assert (Hloc : loc_of_shr_record mrs1 = loc_Exact).
  { destruct (loc_of_shr_record mrs1) as [| c]; [reflexivity |].
    exfalso. destruct (Hl1 eq_refl) as [H | (_ & H)]; [discriminate | contradiction]. }
  rewrite Hloc, Hm1. cbn [round_nearest_even].
  assert (Hd : Zdigits2 (m / 2 ^ k) + e1 = Zdigits2 m + e).
  { rewrite Em at 2. rewrite Zdigits2_mul_pow2 by lia. lia. }
  rewrite Hd, Hf, He1, Z.sub_diag. cbn [shr]. rewrite shr_m_record_of_loc.
  destruct (m / 2 ^ k) as [| q | q] eqn:Eq; try lia.
  replace (e + k <=? emax - prec) with true
    by (symmetry; apply Z.leb_le; unfold emax, prec; lia).
  reflexivity.
Qed.

Lemma iter_xO_value p d : Z.pos (Pos.iter xO p d) = Z.pos p * 2 ^ Z.pos d.
Proof.
  rewrite Pos2Nat.inj_iter.
  destruct (iter_xO p (Pos.to_nat d)) as [(Hv & _) | H0]; [| lia].
  rewrite positive_nat_Z in Hv. exact Hv.
Qed.

(** The Number of a positive integer below 2^53. *)
Definition canon (n : Z) : number :=
  S754_finite false (Z.to_pos (n * 2 ^ (53 - Zdigits2 n))) (Zdigits2 n - 53).

(** Rounding [n * 2^j * 2^-j] gives the Number of [n]. *)
Lemma binary_round_int n j :
  0 < n < 2 ^ 53 -> 0 <= j ->
  binary_round prec emax false (Z.to_pos (n * 2 ^ j)) (- j) = canon n.
Proof.
  intros Hn Hj. unfold canon.
  pose proof (Zdigits2_bounds n ltac:(lia)) as (Dlo & Dhi).
  set (d := Zdigits2 n) in *.
  assert (Hd1 : 0 < d).
  { unfold d. destruct n as [| p | p]; try lia.
    change (Zdigits2 (Z.pos p)) with (Z.pos (digits2_pos p)). lia. }
  assert (Hd : d <= 53).
  { assert (d - 1 < 53); [| lia]. apply (Z.pow_lt_mono_r_iff 2); lia. }
  assert (Hpj : 0 < 2 ^ j) by (apply Z.pow_pos_nonneg; lia).
  assert (Hpos : 0 < n * 2 ^ j) by nia.
  unfold binary_round.
  change (Z.pos (digits2_pos (Z.to_pos (n * 2 ^ j))))
    with (Zdigits2 (Z.pos (Z.to_pos (n * 2 ^ j)))).
  rewrite Z2Pos.id by lia. rewrite Zdigits2_mul_pow2 by lia. fold d.
  replace (d + j + - j) with d by lia.
  rewrite fexp_eq, Z.max_l by lia.
  unfold shl_align.
  destruct (d - 53 - - j) as [| t | t] eqn:Et.
  - (* the exponent is already the right one *)
    replace (- j) with (d - 53) by lia.
    assert (E : 53 - d = j) by lia. rewrite E.
    rewrite binary_round_aux_exact; [reflexivity | | lia].
    rewrite Z2Pos.id by lia. rewrite Zdigits2_mul_pow2 by lia. fold d.
    rewrite fexp_eq. lia.
  - (* zero bits to drop *)
    rewrite (binary_round_aux_shift false _ (- j) (Z.pos t)); try lia.
    + rewrite Z2Pos.id by lia. replace (- j + Z.pos t) with (d - 53) by lia.
      f_equal. f_equal.
      assert (E : j = (53 - d) + Z.pos t) by lia. rewrite E at 1.
      rewrite Z.pow_add_r, Z.mul_assoc by lia.
      apply Z.div_mul. apply Z.pow_nonzero; lia.
    + rewrite Z2Pos.id by lia.
      assert (E : j = (53 - d) + Z.pos t) by lia. rewrite E.
      rewrite Z.pow_add_r, Z.mul_assoc by lia. apply Z.mod_mul. apply Z.pow_nonzero; lia.
    + rewrite Z2Pos.id by lia. rewrite Zdigits2_mul_pow2 by lia. fold d.
      rewrite fexp_eq. lia.
  - (* the mantissa is shifted left *)
    assert (Ev : Z.pos (Pos.iter xO (Z.to_pos (n * 2 ^ j)) t) = n * 2 ^ (53 - d)).
    { rewrite iter_xO_value, Z2Pos.id by lia.
      rewrite <- Z.mul_assoc, <- Z.pow_add_r by lia. f_equal. f_equal. lia. }
    rewrite binary_round_aux_exact; [| | lia].
    + f_equal. apply Pos2Z.inj. rewrite Ev.
      rewrite Z2Pos.id; [reflexivity |].
      assert (0 < 2 ^ (53 - d)) by (apply Z.pow_pos_nonneg; lia). nia.
    + rewrite Ev, Zdigits2_mul_pow2 by lia. fold d. rewrite fexp_eq. lia.
Qed.

Lemma Z2SF_canon n : 0 < n < 2 ^ 53 -> Z2SF n = canon n.
Proof.
  intros Hn. rewrite <- (binary_round_int n 0 Hn ltac:(lia)).
  unfold Z2SF, binary_normalize. destruct n as [| p | p]; try lia.
  change (2 ^ 0) with 1. rewrite Z.mul_1_r. reflexivity.
Qed.

Lemma shl_align_value m e e' :
  e' <= e -> Z.pos (fst (shl_align m e e')) = Z.pos m * 2 ^ (e - e').
Proof.
  intros H. unfold shl_align. destruct (e' - e) as [| t | t] eqn:Et; try lia.
  - replace (e - e') with 0 by lia. simpl. lia.
  - cbn [fst]. rewrite iter_xO_value. f_equal. f_equal. lia.
Qed.

(** Below 2^53 the addition of Numbers is the addition of integers. *)
Lemma num_add_exact a b :
  0 <= a -> 0 <= b -> a + b < 2 ^ 53 -> num_add (Z2SF a) (Z2SF b) = Z2SF (a + b).
Proof.
  intros Ha Hb Hab.
  destruct (Z.eq_dec a 0) as [-> | Ha0].
  { change (Z2SF 0) with (S754_zero false). rewrite Z.add_0_l.
    destruct (Z.eq_dec b 0) as [-> | Hb0]; [reflexivity |].
    rewrite (Z2SF_canon b) by lia. reflexivity. }
  destruct (Z.eq_dec b 0) as [-> | Hb0].
  { change (Z2SF 0) with (S754_zero false). rewrite Z.add_0_r.
    rewrite (Z2SF_canon a) by lia. reflexivity. }
  rewrite (Z2SF_canon a), (Z2SF_canon b), (Z2SF_canon (a + b)) by lia.
  rewrite <- (binary_round_int (a + b)
                (- Z.min (Zdigits2 a - 53) (Zdigits2 b - 53))).
  2: lia.
  2: { pose proof (Zdigits2_bounds a ltac:(lia)) as (Dlo & _).
       assert (Zdigits2 a - 1 < 53); [| lia].
       apply (Z.pow_lt_mono_r_iff 2); lia. }
  unfold canon, num_add, SFadd. cbn [cond_Zopp].
  set (ea := Zdigits2 a - 53). set (eb := Zdigits2 b - 53).
  set (ez := Z.min ea eb).
  assert (Hda : 0 < Zdigits2 a <= 53).
  { pose proof (Zdigits2_bounds a ltac:(lia)) as (Dlo & _). split.
    - destruct a as [| p | p]; try lia.
      change (Zdigits2 (Z.pos p)) with (Z.pos (digits2_pos p)). lia.
    - assert (Zdigits2 a - 1 < 53); [| lia]. apply (Z.pow_lt_mono_r_iff 2); lia. }
  assert (Hdb : 0 < Zdigits2 b <= 53).
  { pose proof (Zdigits2_bounds b ltac:(lia)) as (Dlo & _). split.
    - destruct b as [| p | p]; try lia.
      change (Zdigits2 (Z.pos p)) with (Z.pos (digits2_pos p)). lia.
    - assert (Zdigits2 b - 1 < 53); [| lia]. apply (Z.pow_lt_mono_r_iff 2); lia. }
  assert (Hpa : 0 < 2 ^ (53 - Zdigits2 a)) by (apply Z.pow_pos_nonneg; lia).
  assert (Hpb : 0 < 2 ^ (53 - Zdigits2 b)) by (apply Z.pow_pos_nonneg; lia).
  rewrite !shl_align_value by (unfold ez; lia).
  rewrite !Z2Pos.id by nia.
  assert (Ea : a * 2 ^ (53 - Zdigits2 a) * 2 ^ (ea - ez) = a * 2 ^ (- ez)).
  { rewrite <- Z.mul_assoc, <- Z.pow_add_r by (unfold ez, ea in *; lia).
    f_equal. f_equal. unfold ea. lia. }
  assert (Eb : b * 2 ^ (53 - Zdigits2 b) * 2 ^ (eb - ez) = b * 2 ^ (- ez)).
  { rewrite <- Z.mul_assoc, <- Z.pow_add_r by (unfold ez, eb in *; lia).
    f_equal. f_equal. unfold eb. lia. }
  rewrite Ea, Eb, <- Z.mul_add_distr_r.
  assert (Hpz : 0 < 2 ^ (- ez)) by (apply Z.pow_pos_nonneg; unfold ez, ea, eb; lia).
  unfold binary_normalize.
  destruct ((a + b) * 2 ^ (- ez)) as [| p | p] eqn:Ep; try nia.
  rewrite Z.opp_involutive. reflexivity.
Qed.

(** The Numbers of the counters of a CommitStats. *)
Definition Numbers_of (s : CommitStats) : Part000N.NumberStats :=
  {| Part000N.morningN := Z2SF (morning s); Part000N.daytimeN := Z2SF (daytime s);
     Part000N.eveningN := Z2SF (evening s); Part000N.nightN := Z2SF (night s);
     Part000N.totalN := Z2SF (total s) |}.

(** No push event of the list counts a negative number of commits, and the
    counts add up to less than 2^53. *)
Definition safe_counts (events : list event) : Prop :=
  (forall e, In e events -> is_PushEvent e = true -> 0 <= Part000.commitCount e)
  /\ commits_of Part000.commitCount events < 2 ^ 53.

Lemma add_count_exact b n s :
  within_total s -> 0 <= n -> total s + n < 2 ^ 53 ->
  Part000N.add_count b (Z2SF n) (Numbers_of s) = Numbers_of (bump b n s).
Proof.
  intros (Hm & Hd & He & Hn & Hc) Hn0 Hlt. unfold consistent in Hc.
  unfold Part000N.add_count, Numbers_of, bump.
  destruct b; cbn [Part000N.morningN Part000N.daytimeN Part000N.eveningN Part000N.nightN Part000N.totalN add_to buckets total
                   morning daytime evening night];
    rewrite !num_add_exact by lia; reflexivity.
Qed.

Lemma commits_of_not_negative weight events :
  (forall e, In e events -> is_PushEvent e = true -> 0 <= weight e) ->
  0 <= commits_of weight events.
Proof.
  induction events as [| e events IH]; intros H; [unfold commits_of, weigh; simpl; lia |].
  rewrite commits_of_cons.
  specialize (IH (fun x Hx => H x (or_intror Hx))).
  pose proof (H e (or_introl eq_refl)) as He.
  destruct (is_PushEvent e); [specialize (He eq_refl) |]; lia.
Qed.

Section Numbers.
Context {dates : DateLib}.

(** The stats [s] after the events of a list have been counted. *)
Definition counted (s : CommitStats) (events : list event) : CommitStats :=
  {| buckets :=
       {| morning := morning s + commits_in Part000.commitCount Morning events;
          daytime := daytime s + commits_in Part000.commitCount Daytime events;
          evening := evening s + commits_in Part000.commitCount Evening events;
          night := night s + commits_in Part000.commitCount Night events |};
     total := total s + commits_of Part000.commitCount events |}.

Lemma counted_nil s : counted s [] = s.
Proof.
  destruct s as [[m d e n] t]. unfold counted, commits_in, commits_of, weigh. simpl.
  rewrite !Z.add_0_r. reflexivity.
Qed.

Lemma counted_cons s e events :
  counted s (e :: events)
  = counted (if is_PushEvent e
             then bump (bucketOfHour (zonedHour TIME_ZONE (created_at e)))
                    (Part000.commitCount e) s
             else s) events.
Proof.
  unfold counted. rewrite !commits_in_cons, commits_of_cons. unfold falls_in.
  destruct (is_PushEvent e); cbn [andb].
  - destruct (bucketOfHour (zonedHour TIME_ZONE (created_at e)));
      cbn [bucket_eqb bump add_to buckets total morning daytime evening night];
      (apply (f_equal2 Build_CommitStats); [apply (f_equal4 Build_counters) |]); lia.
  - (apply (f_equal2 Build_CommitStats); [apply (f_equal4 Build_counters) |]); lia.
Qed.

(** As long as the counts are not negative and the total stays below 2^53,
    the Numbers the loop computes are the integers of the tallies. *)
Lemma count_events_exact events : forall s,
  within_total s ->
  (forall e, In e events -> is_PushEvent e = true -> 0 <= Part000.commitCount e) ->
  total s + commits_of Part000.commitCount events < 2 ^ 53 ->
  fold_left Part000N.count_event events (Numbers_of s) = Numbers_of (counted s events)
  /\ within_total (counted s events).
Proof.
  induction events as [| e events IH]; intros s Hs Hpos Hlt.
  - rewrite counted_nil. split; [reflexivity | exact Hs].
  - rewrite counted_cons. cbn [fold_left]. unfold Part000N.count_event at 2.
    rewrite commits_of_cons in Hlt.
    pose proof (commits_of_not_negative Part000.commitCount events
                  (fun x Hx => Hpos x (or_intror Hx))) as Hrest.
    pose proof (Hpos e (or_introl eq_refl)) as He.
    destruct (is_PushEvent e).
    + specialize (He eq_refl).
      rewrite add_count_exact by (try assumption; lia).
      apply IH.
      * apply within_total_bump; assumption.
      * intros x Hx. apply Hpos. right. exact Hx.
      * cbn [bump total]. lia.
    + apply IH; [exact Hs | intros x Hx; apply Hpos; right; exact Hx | lia].
Qed.

Lemma sum_of_buckets_exact s :
  within_total s -> total s < 2 ^ 53 ->
  Part000N.sum_of_buckets (Numbers_of s) = Part000N.totalN (Numbers_of s).
Proof.
  intros (Hm & Hd & He & Hn & Hc) Hlt. unfold consistent in Hc.
  unfold Part000N.sum_of_buckets, Numbers_of. cbn [Part000N.morningN Part000N.daytimeN Part000N.eveningN Part000N.nightN Part000N.totalN].
  rewrite !num_add_exact by lia. rewrite Hc. reflexivity.
Qed.

(** The tallies of a list of events, from the zero-valued start. *)
Lemma counted_from_zero (s : CommitStats) events :
  (forall b, count_of b s = commits_in Part000.commitCount b events) ->
  total s = commits_of Part000.commitCount events ->
  s = counted {| buckets := no_commits; total := 0 |} events.
Proof.
  intros Hb Ht. destruct s as [[m d e n] t]. unfold counted. simpl in *.
  pose proof (Hb Morning) as H1. pose proof (Hb Daytime) as H2.
  pose proof (Hb Evening) as H3. pose proof (Hb Night) as H4. simpl in *.
  subst. reflexivity.
Qed.

(** What the stats of part_000 are as Numbers, for safe counts. *)
Lemma tallies_as_Numbers (s : CommitStats) events :
  (forall b, count_of b s = commits_in Part000.commitCount b events) ->
  total s = commits_of Part000.commitCount events ->
  safe_counts events ->
  Part000N.count_events events = Numbers_of s /\ within_total s /\ total s < 2 ^ 53.
Proof.
  intros Hb Ht (Hpos & Hlt).
  rewrite (counted_from_zero s events Hb Ht) at 1 2.
  assert (H0 : within_total {| buckets := no_commits; total := 0 |})
    by (unfold within_total, consistent; simpl; lia).
  destruct (count_events_exact events {| buckets := no_commits; total := 0 |} H0 Hpos
              ltac:(simpl; lia)) as (E & Hw).
  split; [exact E |]. split; [exact Hw |]. rewrite Ht. exact Hlt.
Qed.

End Numbers.

(** The size 2^53 in the morning and two events of size 1 in the afternoon. *)
Definition big_events : list event :=
  [ push {| commits := None; size := Some (2 ^ 53); distinct_size := None |} 0;
    push {| commits := None; size := Some 1; distinct_size := None |} (5 * 3600000);
    push {| commits := None; size := Some 1; distinct_size := None |} (5 * 3600000) ].

(** A run of part_000 that returns, the pages it went through, and its stats
    as tallies and as Numbers. *)
Lemma Part000_run_Numbers
    (dates : DateLib) (gh : github) (cfg : config) (w w' : world) (s : CommitStats) :
  Part000.getCommitTimes gh cfg w = (Ok s, w') ->
  exists user k pages,
    users_getAuthenticated gh = Ok user
    /\ Part000_pages gh cfg user k pages
    /\ calls w' = calls w ++ GetAuthenticated :: map (ListEvents 100) (pages_from 1 k)
    /\ (forall b, count_of b s = commits_in Part000.commitCount b (concat pages))
    /\ total s = commits_of Part000.commitCount (concat pages)
    /\ (safe_counts (concat pages) ->
        Part000N.count_events (concat pages) = Numbers_of s
        /\ within_total s /\ total s < 2 ^ 53).
Proof.
  intros H. destruct (Part000_run gh cfg w s w' H)
    as (user & k & pages & w1 & Hu & Hp & Hc & Hb & Ht & _).
  exists user, k, pages.
  split; [exact Hu |]. split; [exact Hp |]. split; [exact Hc |].
  split; [exact Hb |]. split; [exact Ht |].
  apply tallies_as_Numbers; assumption.
Qed.

(** C3.  In update_gist.js and in both scripts of part_001 a CommitStats that
    getCommitTimes returns has its total equal to the sum of its four
    buckets.  In part_000 the counts come from the size fields of the API and
    the counters are the Numbers of binary64: when no count of the push events
    of the pages fetched is negative and the counts add up to less than 2^53,
    the Numbers computed are the integers of the returned CommitStats, its
    total is the sum of its buckets, and so it is as Numbers.  In each loop
    body a record adds its count to the total and to the bucket of its hour
    in the zone Asia/Shanghai, and to no other bucket; the first script of
    part_001 adds 1 to that bucket and makes the total the sum of the buckets
    after the loop. *)
Theorem C3_total_is_sum_of_buckets
    (dates : DateLib) (gh : github) (cfg : config) (w w' : world) (s : CommitStats) :
  (UpdateGist.getCommitTimes gh cfg w = (Ok s, w')
   \/ Part001a.getCommitTimes gh cfg w = (Ok s, w')
   \/ Part001b.getCommitTimes gh cfg w = (Ok s, w') ->
   total s = morning s + daytime s + evening s + night s)
  /\ (Part000.getCommitTimes gh cfg w = (Ok s, w') ->
      exists user k pages,
        users_getAuthenticated gh = Ok user
        /\ Part000_pages gh cfg user k pages
        /\ (safe_counts (concat pages) ->
            let stats := Part000N.count_events (concat pages) in
            total s = morning s + daytime s + evening s + night s
            /\ stats = Numbers_of s
            /\ Part000N.sum_of_buckets stats = Part000N.totalN stats))
  /\ (forall b n (s0 : CommitStats),
        total (bump b n s0) = total s0 + n
        /\ forall b', count_of b' (bump b n s0)
                      = if bucket_eqb b' b then count_of b' s0 + n else count_of b' s0)
  /\ (forall e s0,
        UpdateGist.count_event s0 e
        = if is_PushEvent e
          then bump (bucketOfHour (zonedHour "Asia/Shanghai" (created_at e)))
                 (UpdateGist.commitCount e) s0
          else s0)
  /\ (forall e p0 w0,
        exists p1 w1,
          Part000.count_event e p0 w0 = (Ok p1, w1)
          /\ Part000.stats p1
             = if is_PushEvent e
               then bump (bucketOfHour (zonedHour "Asia/Shanghai" (created_at e)))
                      (Part000.commitCount e) (Part000.stats p0)
               else Part000.stats p0)
  /\ (forall i (s0 : CommitStats),
        Part001b.count_item s0 i
        = bump (bucketOfHour (zonedHour "Asia/Shanghai" (author_date i))) 1 s0)
  /\ (forall i (c : counters),
        Part001a.count_item c i
        = add_to (bucketOfHour (zonedHour "Asia/Shanghai" (author_date i))) 1 c).
Proof.
  split; [| split; [| split; [| split; [| split; [| split]]]]].
  - intros H. change (consistent s).
    assert (Hb : forall b n s0, True -> consistent s0 -> consistent (bump b n s0))
      by (intros; apply consistent_bump; assumption).
    destruct H as [H | [H | H]].
    + exact (UpdateGist_collects gh cfg consistent (fun _ => True) eq_refl Hb
               (fun _ => I) _ _ _ H).
    + exact (Part001a_collects gh cfg consistent (fun _ => True) eq_refl Hb
               (fun _ => I) _ _ _ H).
    + exact (Part001b_collects gh cfg consistent (fun _ => True) eq_refl Hb
               (fun _ => I) _ _ _ H).
  - intros H.
    destruct (Part000_run_Numbers dates gh cfg w w' s H)
      as (user & k & pages & Hu & Hp & _ & _ & _ & Hsafe).
    exists user, k, pages. split; [exact Hu |]. split; [exact Hp |].
    intros Hs stats. destruct (Hsafe Hs) as (E & Hw & Hlt).
    split; [apply Hw |]. split; [exact E |].
    unfold stats. rewrite E. apply sum_of_buckets_exact; assumption.
  - intros b n s0. split; [reflexivity |]. intros b'. apply count_of_add_to.
  - intros e s0. reflexivity.
  - intros e p0 w0. unfold Part000.count_event. destruct (is_PushEvent e).
    + destruct (Part000.pushEventCount p0 + 1 <=? 3);
        unfold bind, print, ret; simpl; eauto.
    + unfold ret. eauto.
  - intros i s0. reflexivity.
  - intros i c. reflexivity.
Qed.

Lemma sample_pages user k pages :
  Part000_pages sample_github sample_config user k pages -> concat pages = sample_events.
Proof.
  intros (Hk & Hf & Hm).
  destruct k as [| [| [| [| k]]]]; try lia; unfold pages_from in Hf; cbn in Hf.
  - inversion Hf as [| p1 e1 ps1 r1 H1 Hr1]; subst. inversion Hr1; subst.
    inversion H1; subst. reflexivity.
  - inversion Hf as [| p1 e1 ps1 r1 H1 Hr1]; subst.
    inversion Hr1 as [| p2 e2 ps2 r2 H2 Hr2]; subst. inversion Hr2; subst.
    inversion H1; subst. inversion H2; subst. reflexivity.
  - exfalso.
    inversion Hf as [| p1 e1 ps1 r1 H1 Hr1]; subst.
    inversion Hr1 as [| p2 e2 ps2 r2 H2 Hr2]; subst.
    inversion Hr2 as [| p3 e3 ps3 r3 H3 Hr3]; subst. inversion Hr3; subst.
    inversion H2; subst. cbn in Hm.
    inversion Hm as [| ? ? _ Hm']; subst. inversion Hm' as [| ? ? Hnil _]; subst.
    apply Hnil. reflexivity.
Qed.

Lemma sample_events_safe : safe_counts sample_events.
Proof.
  split; [| vm_compute; reflexivity].
  intros e [<- | [<- | [<- | []]]] _; vm_compute; discriminate.
Qed.

Lemma C3_total_is_sum_of_buckets_witness :
  exists s w',
    @Part000.getCommitTimes Shanghai.dates sample_github sample_config sample_world
    = (Ok s, w')
    /\ total s = 5
    /\ total s = morning s + daytime s + evening s + night s
    /\ @Part000N.count_events Shanghai.dates sample_events = Numbers_of s.
Proof.
  eexists. eexists. split; [vm_compute; reflexivity |]. split; [reflexivity |].
  destruct (C3_total_is_sum_of_buckets Shanghai.dates sample_github sample_config
              sample_world
              (snd (@Part000.getCommitTimes Shanghai.dates sample_github sample_config
                      sample_world))
              (stats_of 2 3 0 0 5)) as (_ & H & _).
  destruct (H ltac:(vm_compute; reflexivity)) as (user & k & pages & _ & Hp & Hsafe).
  rewrite (sample_pages user k pages Hp) in Hsafe.
  destruct (Hsafe sample_events_safe) as (Hsum & HN & _).
  split; [exact Hsum | exact HN].
Defined.

(** An API that answers the first page of events with [big_events]. *)
Definition big_github : github :=
  {| users_getAuthenticated := Ok {| login := "octocat" |};
     listPublicEventsForUser := fun _ _ => Ok [];
     listEventsForAuthenticatedUser :=
       fun _ _ page => if page =? 1 then Ok big_events else Ok [];
     search_commits := fun _ _ _ _ => Ok {| total_count := 0; items := None |};
     gists_update := fun _ _ => Ok tt |}.

(** C3 as stated fails in part_000, where the counters are Numbers fed by
    the size fields of the API.  The run fetches page 1, with a push event of
    size 2^53 in the morning and two of size 1 in the afternoon (08:00 and
    13:00 at UTC+8), and the empty page 2.  The total is then 2^53, since
    2^53 + 1 rounds to 2^53 twice, while the buckets hold 2^53 and 2, whose sum
    is 2^53 + 2.  The counts add up to 2^53 + 2, which is what the integers of
    the embedding hold: the run is beyond the bound below which the integers
    are the Numbers. *)
Lemma C3_counterexample :
  let run := @Part000.getCommitTimes Shanghai.dates big_github sample_config sample_world in
  let stats := @Part000N.count_events Shanghai.dates (big_events ++ []) in
  calls (snd run) = [GetAuthenticated; ListEvents 100 1; ListEvents 100 2]
  /\ listEventsForAuthenticatedUser big_github "octocat" 100 1 = Ok big_events
  /\ listEventsForAuthenticatedUser big_github "octocat" 100 2 = Ok []
  /\ map Part000.commitCount big_events = [2 ^ 53; 1; 1]
  /\ Part000N.morningN stats = Z2SF (2 ^ 53)
  /\ Part000N.daytimeN stats = Z2SF 2
  /\ Part000N.eveningN stats = Z2SF 0
  /\ Part000N.nightN stats = Z2SF 0
  /\ Part000N.totalN stats = Z2SF (2 ^ 53)
  /\ Part000N.sum_of_buckets stats = Z2SF (2 ^ 53 + 2)
  /\ SFcompare (Part000N.totalN stats) (Part000N.sum_of_buckets stats) = Some Lt
  /\ commits_of Part000.commitCount big_events = 2 ^ 53 + 2
  /\ fst run = Ok (stats_of (2 ^ 53) 2 0 0 (2 ^ 53 + 2)).
Proof. vm_compute. repeat split. Qed.

(** X6.  part_000, when getCommitTimes returns: it has requested the pages
    1..k of the events of the user (GH_USERNAME, or the login of the token's
    owner when that is unset or empty), 1 <= k <= 3, and every page but the
    last was not empty.  When no push event of these pages counts a negative
    number of commits and the counts add up to less than 2^53, each bucket
    holds the sum of commitCount over the push events of these pages whose
    hour falls in the bucket and the total holds that sum over all their push
    events, and these integers are the Numbers the script has computed. *)
Theorem X6_Part000_counts_push_events
    (dates : DateLib) (gh : github) (cfg : config) (w w' : world) (s : CommitStats) :
  Part000.getCommitTimes gh cfg w = (Ok s, w') ->
  exists user k pages,
    users_getAuthenticated gh = Ok user
    /\ Part000_pages gh cfg user k pages
    /\ calls w' = calls w ++ GetAuthenticated :: map (ListEvents 100) (pages_from 1 k)
    /\ (safe_counts (concat pages) ->
        (forall b, count_of b s = commits_in Part000.commitCount b (concat pages))
        /\ total s = commits_of Part000.commitCount (concat pages)
        /\ total s < 2 ^ 53
        /\ Part000N.count_events (concat pages) = Numbers_of s).
Proof.
  intros H.
  destruct (Part000_run_Numbers dates gh cfg w w' s H)
    as (user & k & pages & Hu & Hp & Hc & Hb & Ht & Hsafe).
  exists user, k, pages. split; [exact Hu |]. split; [exact Hp |]. split; [exact Hc |].
  intros Hs. destruct (Hsafe Hs) as (E & _ & Hlt).
  split; [exact Hb |]. split; [exact Ht |]. split; [exact Hlt | exact E].
Qed.

Lemma X6_Part000_counts_push_events_witness :
  exists s w',
    @Part000.getCommitTimes Shanghai.dates sample_github sample_config sample_world
    = (Ok s, w')
    /\ (forall b, count_of b s
                  = @commits_in Shanghai.dates Part000.commitCount b sample_events)
    /\ total s = 5.
Proof.
  destruct (X6_Part000_counts_push_events Shanghai.dates sample_github sample_config
              sample_world
              (snd (@Part000.getCommitTimes Shanghai.dates sample_github sample_config
                      sample_world))
              (stats_of 2 3 0 0 5) ltac:(vm_compute; reflexivity))
    as (user & k & pages & _ & Hp & _ & Hsafe).
  rewrite (sample_pages user k pages Hp) in Hsafe.
  destruct (Hsafe sample_events_safe) as (Hb & _).
  eexists. eexists.
  split; [vm_compute; reflexivity |]. split; [exact Hb | reflexivity].
Defined.

(** X7.  part_000 dumps the payload of the first three push events only: a
    run that returns has added min(3, p) lines "PushEvent payload keys" to the
    console, where p is the number of push events on the pages it went
    through. *)
Theorem X7_Part000_dumps_three_payloads
    (dates : DateLib) (gh : github) (cfg : config) (w w' : world) (s : CommitStats) :
  Part000.getCommitTimes gh cfg w = (Ok s, w') ->
  exists user k pages,
    users_getAuthenticated gh = Ok user
    /\ Part000_pages gh cfg user k pages
    /\ let dumps t := count_text t (console w') - count_text t (console w) in
       let pushes := Z.of_nat (length (filter is_PushEvent (concat pages))) in
       dumps "PushEvent payload keys"%string = Z.min 3 pushes.
Proof.
  intros H. destruct (Part000_run gh cfg w s w' H)
    as (user & k & pages & w1 & Hu & Hp & _ & _ & _ & Hd & Hw').
  exists user, k, pages. split; [exact Hu |]. split; [exact Hp |].
  cbv zeta in Hw' |- *. rewrite Hw'.
  destruct (concat pages); rewrite !count_text_logged, Hd; simpl; lia.
Qed.

Lemma X7_Part000_dumps_three_payloads_witness :
  exists pages,
    count_text "PushEvent payload keys"
      (console (snd (@Part000.getCommitTimes Shanghai.dates sample_github sample_config
                       sample_world)))
    - count_text "PushEvent payload keys" (console sample_world)
    = Z.min 3 (Z.of_nat (length (filter is_PushEvent (concat pages)))).
Proof.
  destruct (X7_Part000_dumps_three_payloads Shanghai.dates sample_github sample_config
              sample_world
              (snd (@Part000.getCommitTimes Shanghai.dates sample_github sample_config
                      sample_world))
              (stats_of 2 3 0 0 5) ltac:(vm_compute; reflexivity))
    as (user & k & pages & _ & _ & H).
  exists pages. exact H.
Defined.

Lemma removelast_nonempty {A} (P : A -> Prop) (a : A) (l : list A) :
  l <> [] -> Forall P (removelast (a :: l)) -> P a.
Proof.
  intros Hl H. destruct l as [| b l]; [contradiction |].
  change (removelast (a :: b :: l)) with (a :: removelast (b :: l)) in H.
  inversion H; assumption.
Qed.

(** X8.  part_000 ends collection with the summary line, whose numbers are
    the number of events of the pages it went through, the number of push
    events among them and the total of the returned stats; the three warning
    lines about the permissions of the token follow exactly when no event was
    fetched, which is exactly when page 1 is empty. *)
Theorem X8_Part000_summary_and_warning
    (dates : DateLib) (gh : github) (cfg : config) (w w' : world) (s : CommitStats) :
  Part000.getCommitTimes gh cfg w = (Ok s, w') ->
  exists user k pages w1,
    users_getAuthenticated gh = Ok user
    /\ Part000_pages gh cfg user k pages
    /\ (concat pages = []
        <-> listEventsForAuthenticatedUser gh
              (username_or (GH_USERNAME cfg) (login user)) 100 1 = Ok [])
    /\ let summary :=
         logged Info "Total events, PushEvents, Commits"
           [Z.of_nat (length (concat pages));
            Z.of_nat (length (filter is_PushEvent (concat pages)));
            total s] w1 in
       w' = match concat pages with
            | [] =>
              logged Warn "Or use a Classic PAT with repo + gist scopes" []
                (logged Warn "Fine-grained PAT: set Repository access to All repositories" []
                   (logged Warn "No events found. Token likely needs broader permissions:" []
                      summary))
            | _ :: _ => summary
            end.
Proof.
  intros H. destruct (Part000_run gh cfg w s w' H)
    as (user & k & pages & w1 & Hu & Hp & _ & _ & _ & _ & Hw').
  exists user, k, pages, w1. split; [exact Hu |]. split; [exact Hp |].
  split; [| exact Hw'].
  destruct Hp as (Hk & Hf & Hm).
  destruct k as [| k]; [lia |]. rewrite pages_from_S in Hf.
  inversion Hf as [| p first ps rest Hfirst Hrest]; subst. split.
  - intros Hnil. rewrite Hfirst. f_equal.
    simpl in Hnil. apply app_eq_nil in Hnil. tauto.
  - intros Hempty. assert (first = []) by congruence. subst first.
    destruct rest as [| second rest]; [reflexivity |].
    exfalso. assert (Hne : second :: rest <> []) by discriminate.
    apply (removelast_nonempty _ _ _ Hne Hm). reflexivity.
Qed.

Lemma X8_Part000_summary_and_warning_witness :
  exists w1 events pushes,
    snd (@Part000.getCommitTimes Shanghai.dates sample_github sample_config sample_world)
    = logged Info "Total events, PushEvents, Commits" [events; pushes; 5] w1.
Proof.
  destruct (X8_Part000_summary_and_warning Shanghai.dates sample_github sample_config
              sample_world
              (snd (@Part000.getCommitTimes Shanghai.dates sample_github sample_config
                      sample_world))
              (stats_of 2 3 0 0 5) ltac:(vm_compute; reflexivity))
    as (user & k & pages & w1 & _ & _ & Hnil & Hw').
  exists w1. cbv zeta in Hw'.
  destruct (concat pages) as [| e l].
  - exfalso. destruct Hnil as (Hnil & _). specialize (Hnil eq_refl). discriminate.
  - eexists. eexists. exact Hw'.
Defined.

(** X9.  In both scripts of part_001, when getCommitTimes returns: it has
    requested the search pages 1..k, 1 <= k <= 10, every page but the last held
    at least 100 items, each bucket holds the number of items of these pages
    whose author date falls in the bucket, and the total is the number of
    items: one commit per record. *)
Theorem X9_search_counts_items
    (dates : DateLib) (gh : github) (cfg : config) (w w' : world) (s : CommitStats) :
  Part001a.getCommitTimes gh cfg w = (Ok s, w')
  \/ Part001b.getCommitTimes gh cfg w = (Ok s, w') ->
  exists user since k pages,
    users_getAuthenticated gh = Ok user
    /\ search_pages gh (username_or (GH_USERNAME cfg) (login user)) since k pages
    /\ calls w' = calls w ++ GetAuthenticated :: map (SearchCommits 100) (pages_from 1 k)
    /\ (forall b, count_of b s = items_in b (all_items pages))
    /\ total s = Z.of_nat (length (all_items pages)).
Proof.
  intros [H | H].
  - destruct (Part001a_run gh cfg w s w' H)
      as (user & since & k & pages & Hu & Hp & Hc & Hb & Ht & _).
    exists user, since, k, pages. auto.
  - exact (Part001b_run gh cfg w s w' H).
Qed.

Lemma X9_search_counts_items_witness :
  exists s w' pages,
    @Part001b.getCommitTimes Shanghai.dates sample_github sample_config sample_world
    = (Ok s, w')
    /\ total s = Z.of_nat (length (all_items pages)) /\ total s = 2.
Proof.
  destruct (X9_search_counts_items Shanghai.dates sample_github sample_config
              sample_world
              (snd (@Part001b.getCommitTimes Shanghai.dates sample_github sample_config
                      sample_world))
              (stats_of 1 0 1 0 2) ltac:(right; vm_compute; reflexivity))
    as (user & since & k & pages & _ & _ & _ & _ & Ht).
  eexists. eexists. exists pages.
  split; [vm_compute; reflexivity |]. split; [exact Ht | reflexivity].
Defined.

Lemma all_items_bound pages :
  Forall (fun d => (length (items_or_empty d) <= 100)%nat) pages ->
  (length (all_items pages) <= 100 * length pages)%nat.
Proof.
  induction 1 as [| d pages Hd _ IH]; [simpl; lia |].
  unfold all_items in *. cbn [map concat length]. rewrite length_app. lia.
Qed.

Lemma items_in_bounds {dates : DateLib} b l : 0 <= items_in b l <= Z.of_nat (length l).
Proof.
  unfold items_in. pose proof (filter_length_le (fun i => falls_in b (author_date i)) l).
  lia.
Qed.

Lemma search_runs
    (dates : DateLib) (gh : github) (cfg : config) (w w' : world) (s : CommitStats) :
  Part001a.getCommitTimes gh cfg w = (Ok s, w')
  \/ Part001b.getCommitTimes gh cfg w = (Ok s, w') ->
  search_run gh cfg w s w'.
Proof.
  intros [H | H].
  - destruct (Part001a_run gh cfg w s w' H)
      as (user & since & k & pages & Hu & Hp & Hc & Hb & Ht & _).
    exists user, since, k, pages. auto.
  - exact (Part001b_run gh cfg w s w' H).
Qed.

Lemma search_run_bound
    (dates : DateLib) (gh : github) (cfg : config) (w w' : world) (s : CommitStats) :
  (forall u since page d,
      search_commits gh u since 100 page = Ok d ->
      (length (items_or_empty d) <= 100)%nat) ->
  search_run gh cfg w s w' ->
  total s <= 1000 /\ forall b, 0 <= count_of b s <= total s.
Proof.
  intros Hapi (user & since & k & pages & _ & (Hk & Hf & _) & _ & Hb & Ht).
  split.
  - rewrite Ht.
    assert (Hlen : length pages = k).
    { apply Forall2_length in Hf. rewrite <- Hf. unfold pages_from.
      rewrite length_map, length_seq. reflexivity. }
    assert (Hall : Forall (fun d => (length (items_or_empty d) <= 100)%nat) pages).
    { clear - Hf Hapi. induction Hf; constructor; eauto. }
    pose proof (all_items_bound pages Hall). lia.
  - intros b. rewrite Hb, Ht. apply items_in_bounds.
Qed.

(** X10.  When no answer of the search holds more items than the page size
    of 100, as the API promises, the CommitStats of either script of part_001
    counts at most SEARCH_API_LIMIT = MAX_PAGES * PER_PAGE = 1000 commits, and
    every bucket is between 0 and the total. *)
Theorem X10_search_counts_at_most_the_cap
    (dates : DateLib) (gh : github) (cfg : config) (w w' : world) (s : CommitStats) :
  (forall u since page d,
      search_commits gh u since 100 page = Ok d ->
      (length (items_or_empty d) <= 100)%nat) ->
  Part001a.getCommitTimes gh cfg w = (Ok s, w')
  \/ Part001b.getCommitTimes gh cfg w = (Ok s, w') ->
  total s <= Part001a.SEARCH_API_LIMIT
  /\ forall b, 0 <= count_of b s <= total s.
Proof.
  intros Hapi H.
  pose proof (search_runs dates gh cfg w w' s H) as Hrun.
  destruct (search_run_bound dates gh cfg w w' s Hapi Hrun) as (Ht & Hb).
  split; [| exact Hb].
  unfold Part001a.SEARCH_API_LIMIT, Part001a.MAX_PAGES, Part001a.PER_PAGE. lia.
Qed.

Lemma X10_search_counts_at_most_the_cap_witness :
  total (stats_of 1 0 1 0 2) <= 1000.
Proof.
  apply (X10_search_counts_at_most_the_cap Shanghai.dates sample_github sample_config
           sample_world
           (snd (@Part001b.getCommitTimes Shanghai.dates sample_github sample_config
                   sample_world))).
  - intros u since page d Hd. simpl in Hd. injection Hd as <-.
    unfold items_or_empty. simpl. destruct (page =? 1); simpl; lia.
  - right. vm_compute. reflexivity.
Defined.

(** X11.  The first script of part_001 warns about the cap of the search
    API exactly once when the answer to page 1 reports a total_count above
    MAX_PAGES * PER_PAGE, and never otherwise: a run that returns has added
    one such warning, or none, to the console accordingly. *)
Theorem X11_Part001a_warns_about_the_cap
    (dates : DateLib) (gh : github) (cfg : config) (w w' : world) (s : CommitStats) :
  Part001a.getCommitTimes gh cfg w = (Ok s, w') ->
  exists user since first,
    users_getAuthenticated gh = Ok user
    /\ search_commits gh (username_or (GH_USERNAME cfg) (login user)) since 100 1 = Ok first
    /\ count_text "Total commits, but Search API caps" (console w')
       - count_text "Total commits, but Search API caps" (console w)
       = if Part001a.MAX_PAGES * Part001a.PER_PAGE <? total_count first then 1 else 0.
Proof.
  intros H. destruct (Part001a_run gh cfg w s w' H)
    as (user & since & k & pages & Hu & (Hk & Hf & _) & _ & _ & _ & Hw).
  destruct k as [| k]; [lia |]. rewrite pages_from_S in Hf.
  inversion Hf as [| p first ps rest Hfirst Hrest]; subst.
  exists user, since, first. split; [exact Hu |]. split; [exact Hfirst |].
  rewrite Hw. unfold cap_warnings, Part001a.SEARCH_API_LIMIT. lia.
Qed.

(** A search that reports more commits than the ten pages hold. *)
Definition busy_github : github :=
  {| users_getAuthenticated := Ok {| login := "octocat" |};
     listPublicEventsForUser := fun _ _ => Ok [];
     listEventsForAuthenticatedUser := fun _ _ _ => Ok [];
     search_commits :=
       fun _ _ _ page =>
         Ok {| total_count := 1500; items := Some [ {| author_date := 0 |} ] |};
     gists_update := fun _ _ => Ok tt |}.

Lemma X11_Part001a_warns_about_the_cap_witness :
  count_text "Total commits, but Search API caps"
    (console (snd (@Part001a.getCommitTimes Shanghai.dates busy_github sample_config
                     sample_world)))
  - count_text "Total commits, but Search API caps" (console sample_world)
  = 1.
Proof.
  destruct (X11_Part001a_warns_about_the_cap Shanghai.dates busy_github sample_config
              sample_world
              (snd (@Part001a.getCommitTimes Shanghai.dates busy_github sample_config
                      sample_world))
              (stats_of 1 0 0 0 1) ltac:(vm_compute; reflexivity))
    as (user & since & first & _ & Hfirst & H).
  assert (E : first = {| total_count := 1500; items := Some [ {| author_date := 0 |} ] |})
    by (simpl in Hfirst; congruence).
  subst first. exact H.
Defined.

(** *** The console of the search collectors *)

Definition a_line (l : level) (t : string) (a : list Z) : line :=
  {| lvl := l; text := t; args := a |}.

(** What the first script of part_001 logs about the answer to page 1. *)
Definition found_and_capped (first : search_data) : list line :=
  a_line Info "Search found commits in the last year" [total_count first]
  :: (if 1000 <? total_count first
      then [a_line Warn "Total commits, but Search API caps" [total_count first; 1000]]
      else []).

(** After page 1 a page loop the body of which logs on page 1 only logs
    nothing. *)
Lemma for_pages_silent_after_1 {St} (body : Z -> St -> M (flow St)) :
  (forall page s w r w', 1 < page -> body page s w = (Ok r, w') -> console w' = console w) ->
  forall fuel page s w s' w', 1 < page ->
    for_pages fuel page body s w = (Ok s', w') -> console w' = console w.
Proof.
  intros Hbody fuel. induction fuel as [| fuel IH]; intros page s w s' w' Hp H.
  - simpl in H. inversion H; reflexivity.
  - simpl in H. bind_inv H. pose proof (Hbody _ _ _ _ _ Hp E) as H1.
    destruct a as [s1 | s1].
    + apply IH in H; [| lia]. rewrite H. exact H1.
    + inversion H; subst. exact H1.
Qed.

Lemma for_pages_console_of_page_1 {St A} (body : Z -> St -> M (flow St))
    (ans : A -> Prop) (lines_of : A -> list line) :
  (forall s w r w', body 1 s w = (Ok r, w') ->
     exists a, ans a /\ console w' = console w ++ lines_of a) ->
  (forall page s w r w', 1 < page -> body page s w = (Ok r, w') -> console w' = console w) ->
  forall fuel s w s' w',
    for_pages (S fuel) 1 body s w = (Ok s', w') ->
    exists a, ans a /\ console w' = console w ++ lines_of a.
Proof.
  intros H1 Hrest fuel s w s' w' H. simpl in H. bind_inv H.
  destruct (H1 _ _ _ _ E) as (a1 & Hans & Hc). exists a1. split; [exact Hans |].
  destruct a as [s1 | s1].
  - apply (for_pages_silent_after_1 body Hrest) in H; [| lia]. rewrite H. exact Hc.
  - inversion H; subst. exact Hc.
Qed.

Section Search_console.
Context {dates : DateLib} (gh : github) (cfg : config).

Lemma Part001a_fetch_page_console u since page c w r w' :
  Part001a.fetch_page gh u since page c w = (Ok r, w') ->
  exists d, search_commits gh u since 100 page = Ok d
    /\ console w' = console w ++ (if page =? 1 then found_and_capped d else []).
Proof.
  intros H. unfold Part001a.fetch_page, Part001a.PER_PAGE in H. bind_inv H. rename a into d.
  assert (Hans : search_commits gh u since 100 page = Ok d)
    by (unfold request in E; congruence).
  assert (Hw0 : console w0 = console w) by (unfold request in E; inversion E; reflexivity).
  exists d. split; [exact Hans |].
  bind_inv H.
  assert (Hw1 : console w1 = console w ++ (if page =? 1 then found_and_capped d else [])).
  { destruct (page =? 1).
    - unfold bind, ret in E0. rewrite print_logged in E0.
      unfold found_and_capped, a_line.
      change Part001a.SEARCH_API_LIMIT with 1000 in E0.
      destruct (1000 <? total_count d);
        rewrite ?print_logged in E0; inversion E0; subst; simpl; rewrite Hw0;
        rewrite <- ?app_assoc; reflexivity.
    - unfold ret in E0. injection E0 as _ <-. rewrite Hw0, app_nil_r. reflexivity. }
  clear E0. cbv zeta in H.
  destruct (length _ =? 0)%nat; [unfold ret in H; injection H as _ <-; exact Hw1 |].
  destruct (_ <? 100); unfold ret in H; injection H as _ <-; exact Hw1.
Qed.

Lemma Part001b_fetch_page_console u since page s w r w' :
  Part001b.fetch_page gh u since page s w = (Ok r, w') ->
  exists d, search_commits gh u since 100 page = Ok d
    /\ console w' = console w
         ++ (if page =? 1
             then [a_line Info "Search found commits in the last year" [total_count d]]
             else []).
Proof.
  intros H. unfold Part001b.fetch_page in H. bind_inv H. rename a into d.
  assert (Hans : search_commits gh u since 100 page = Ok d)
    by (unfold request in E; congruence).
  assert (Hw0 : console w0 = console w) by (unfold request in E; inversion E; reflexivity).
  exists d. split; [exact Hans |].
  bind_inv H.
  assert (Hw1 : console w1 = console w
                ++ (if page =? 1
                    then [a_line Info "Search found commits in the last year" [total_count d]]
                    else [])).
  { destruct (page =? 1).
    - rewrite print_logged in E0. inversion E0; subst; simpl; rewrite Hw0. reflexivity.
    - unfold ret in E0. injection E0 as _ <-. rewrite Hw0, app_nil_r. reflexivity. }
  clear E0. cbv zeta in H.
  destruct (length _ =? 0)%nat; [unfold ret in H; injection H as _ <-; exact Hw1 |].
  destruct (_ <? 100); unfold ret in H; injection H as _ <-; exact Hw1.
Qed.

End Search_console.

(** X22.  What the search collectors of part_001 write to the console when
    they return, in this order and nothing else: "Authenticated as"; "Search
    found commits in the last year" with the total_count of the answer to
    page 1 of the search for the commits of the user (GH_USERNAME, else the
    login) since 365 days before the clock; in the first script only, when
    that total_count is above 1000, the warning "Total commits, but Search API
    caps" with that total_count and 1000; and "Counted commits" with the
    total and the four buckets of the stats the collector returns.  The later
    pages add no line. *)
Theorem X22_search_console
    (dates : DateLib) (gh : github) (cfg : config) (w w' : world) (s : CommitStats) :
  let first_page user d :=
    search_commits gh (username_or (GH_USERNAME cfg) (login user))
      (clock w - 365 * 86400000) 100 1 = Ok d in
  let authenticated := a_line Info "Authenticated as" [] in
  let found d := a_line Info "Search found commits in the last year" [total_count d] in
  let capped d :=
    a_line Warn "Total commits, but Search API caps" [total_count d; 1000] in
  let counted :=
    a_line Info "Counted commits" [total s; morning s; daytime s; evening s; night s] in
  (Part001a.getCommitTimes gh cfg w = (Ok s, w') ->
   exists user d,
     users_getAuthenticated gh = Ok user /\ first_page user d
     /\ console w'
        = console w ++ [authenticated; found d]
            ++ (if 1000 <? total_count d then [capped d] else []) ++ [counted])
  /\ (Part001b.getCommitTimes gh cfg w = (Ok s, w') ->
      exists user d,
        users_getAuthenticated gh = Ok user /\ first_page user d
        /\ console w' = console w ++ [authenticated; found d; counted]).
Proof.
  intros first_page authenticated found capped counted. split.
  - intros H. unfold Part001a.getCommitTimes in H.
    bind_inv H. rename a into user.
    assert (Hu : users_getAuthenticated gh = Ok user) by (unfold request in E; congruence).
    assert (Hw0 : console w0 = console w /\ clock w0 = clock w)
      by (unfold request in E; inversion E; split; reflexivity).
    destruct Hw0 as (Hl0 & Hk0).
    bind_inv H. rewrite print_logged in E0. inversion E0; subst. clear E0.
    bind_inv H. unfold new_Date in E0. inversion E0; subst. clear E0.
    bind_inv H. rename a into c. rename w1 into w2.
    unfold for_page_upto in E0. change (Z.to_nat Part001a.MAX_PAGES) with 10%nat in E0.
    apply (for_pages_console_of_page_1 _
             (fun d => search_commits gh (username_or (GH_USERNAME cfg) (login user))
                         (clock w0 - Part001a.DAYS_LOOKBACK * 86400000) 100 1 = Ok d)
             found_and_capped) in E0.
    + destruct E0 as (d & Hd & Hc).
      bind_inv H. rewrite print_logged in E0. inversion E0; subst. clear E0.
      unfold ret in H. injection H as <- <-.
      exists user, d. split; [exact Hu |]. split.
      { unfold first_page. rewrite <- Hk0. exact Hd. }
      cbn [logged console] in *. rewrite Hc, Hl0. unfold found_and_capped.
      subst authenticated found capped counted. cbn [total buckets].
      destruct (1000 <? total_count d); rewrite <- !app_assoc; reflexivity.
    + intros s0 wa r wb Hb.
      destruct (Part001a_fetch_page_console gh _ _ _ _ _ _ _ Hb) as (d & Hd & Hc).
      exists d. split; [exact Hd | exact Hc].
    + intros page s0 wa r wb Hp Hb.
      destruct (Part001a_fetch_page_console gh _ _ _ _ _ _ _ Hb) as (d & _ & Hc).
      destruct (Z.eqb_spec page 1); [lia |]. rewrite app_nil_r in Hc. exact Hc.
  - intros H. unfold Part001b.getCommitTimes in H.
    apply try_catch_Ok in H; [| intros e w1; discriminate].
    bind_inv H. rename a into user.
    assert (Hu : users_getAuthenticated gh = Ok user) by (unfold request in E; congruence).
    assert (Hw0 : console w0 = console w /\ clock w0 = clock w)
      by (unfold request in E; inversion E; split; reflexivity).
    destruct Hw0 as (Hl0 & Hk0).
    bind_inv H. rewrite print_logged in E0. inversion E0; subst. clear E0.
    bind_inv H. unfold new_Date in E0. inversion E0; subst. clear E0.
    bind_inv H. rename a into c. rename w1 into w2.
    unfold for_page_upto in E0. change (Z.to_nat 10) with 10%nat in E0.
    apply (for_pages_console_of_page_1 _
             (fun d => search_commits gh (username_or (GH_USERNAME cfg) (login user))
                         (clock w0 - 365 * 86400000) 100 1 = Ok d)
             (fun d => [a_line Info "Search found commits in the last year"
                          [total_count d]])) in E0.
    + destruct E0 as (d & Hd & Hc).
      bind_inv H. rewrite print_logged in E0. inversion E0; subst. clear E0.
      unfold ret in H. injection H as <- <-.
      exists user, d. split; [exact Hu |]. split.
      { unfold first_page. rewrite <- Hk0. exact Hd. }
      cbn [logged console] in *. rewrite Hc, Hl0.
      subst authenticated found counted. rewrite <- !app_assoc. reflexivity.
    + intros s0 wa r wb Hb.
      destruct (Part001b_fetch_page_console gh _ _ _ _ _ _ _ Hb) as (d & Hd & Hc).
      exists d. split; [exact Hd | exact Hc].
    + intros page s0 wa r wb Hp Hb.
      destruct (Part001b_fetch_page_console gh _ _ _ _ _ _ _ Hb) as (d & _ & Hc).
      destruct (Z.eqb_spec page 1); [lia |]. rewrite app_nil_r in Hc. exact Hc.
Qed.

(** A search that reports more commits than the ten pages hold, in one page
    of two commits. *)
Definition capped_github : github :=
  {| users_getAuthenticated := Ok {| login := "octocat" |};
     listPublicEventsForUser := fun _ _ => Ok [];
     listEventsForAuthenticatedUser := fun _ _ _ => Ok [];
     search_commits :=
       fun _ _ _ page =>
         Ok {| total_count := 1500;
               items := Some [ {| author_date := 0 |}; {| author_date := 36000000 |} ] |};
     gists_update := fun _ _ => Ok tt |}.

Lemma X22_search_console_witness :
  console (snd (@Part001a.getCommitTimes Shanghai.dates capped_github sample_config
                  sample_world))
  = [ a_line Info "Authenticated as" [];
      a_line Info "Search found commits in the last year" [1500];
      a_line Warn "Total commits, but Search API caps" [1500; 1000];
      a_line Info "Counted commits" [2; 1; 0; 1; 0] ].
Proof.
  destruct (X22_search_console Shanghai.dates capped_github sample_config sample_world
              (snd (@Part001a.getCommitTimes Shanghai.dates capped_github sample_config
                      sample_world))
              (stats_of 1 0 1 0 2)) as (H & _).
  destruct (H ltac:(vm_compute; reflexivity)) as (user & d & _ & Hd & Hc).
  assert (E : d = {| total_count := 1500;
                     items := Some [ {| author_date := 0 |};
                                     {| author_date := 36000000 |} ] |})
    by (simpl in Hd; congruence).
  subst d. exact Hc.
Defined.

(** *** The two search collectors agree *)

(** Two outcomes that are the same error, or two values related by [R]. *)
Definition same_outcome {A B} (R : A -> B -> Prop) (x : result A) (y : result B) : Prop :=
  match x, y with
  | Ok a, Ok b => R a b
  | Throw e, Throw e' => e = e'
  | _, _ => False
  end.

Definition same_flow {A B} (R : A -> B -> Prop) (x : flow A) (y : flow B) : Prop :=
  match x, y with
  | Next a, Next b | Break a, Break b => R a b
  | _, _ => False
  end.

Lemma for_pages_same {S1 S2} (R : S1 -> S2 -> Prop)
    (body1 : Z -> S1 -> M (flow S1)) (body2 : Z -> S2 -> M (flow S2)) :
  (forall page s1 s2 w1 w2, R s1 s2 ->
     same_outcome (same_flow R) (fst (body1 page s1 w1)) (fst (body2 page s2 w2))) ->
  forall fuel page s1 s2 w1 w2, R s1 s2 ->
    same_outcome R (fst (for_pages fuel page body1 s1 w1))
      (fst (for_pages fuel page body2 s2 w2)).
Proof.
  intros Hbody fuel. induction fuel as [| fuel IH]; intros page s1 s2 w1 w2 HR.
  - exact HR.
  - simpl. unfold bind. specialize (Hbody page s1 s2 w1 w2 HR).
    destruct (body1 page s1 w1) as [[[a | a] | e] w1'];
      destruct (body2 page s2 w2) as [[[b | b] | e'] w2']; simpl in Hbody;
      try contradiction; try exact Hbody.
    apply IH. exact Hbody.
Qed.

(** The stats of the first script, completed with the total it computes at
    the end, are the stats of the second. *)
Definition with_total (c : counters) (s : CommitStats) : Prop :=
  s = {| buckets := c; total := sum_of c |}.

Section Agreement.
Context {dates : DateLib} (gh : github) (cfg : config).

Lemma count_items_same items : forall c s,
  with_total c s ->
  with_total (fold_left Part001a.count_item items c) (fold_left Part001b.count_item items s).
Proof.
  induction items as [| i items IH]; intros c s H; [exact H |].
  simpl. apply IH. unfold with_total in *. subst s.
  unfold Part001b.count_item, Part001a.count_item. cbn [buckets total].
  rewrite sum_of_add_to. reflexivity.
Qed.

Lemma fetch_page_same u since page c s w1 w2 :
  with_total c s ->
  same_outcome (same_flow with_total)
    (fst (Part001a.fetch_page gh u since page c w1))
    (fst (Part001b.fetch_page gh u since page s w2)).
Proof.
  intros H. unfold Part001a.fetch_page, Part001b.fetch_page, Part001a.PER_PAGE.
  unfold bind at 1 3. unfold request.
  destruct (search_commits gh u since 100 page) as [d | e]; [| reflexivity].
  unfold bind, print, ret, Part001a.SEARCH_API_LIMIT.
  set (items := match items d with Some l => l | None => [] end).
  pose proof (count_items_same items c s H) as Hfold.
  destruct (page =? 1); [destruct (_ <? total_count d) |]; simpl;
    (destruct (length items =? 0)%nat; [exact H |]);
    (destruct (Z.of_nat (length items) <? 100); exact Hfold).
Qed.

Lemma try_catch_rethrow_fst {A} (body : M A) t w :
  fst (try_catch body (fun error => print Error t [] ;; throw error) w) = fst (body w).
Proof. unfold try_catch. destruct (body w) as [[a | e] w']; reflexivity. Qed.

End Agreement.

(** X12.  The two scripts of part_001 collect the same: against the same
    API, with the same configuration and at the same instant, the two
    versions of getCommitTimes return the same CommitStats or throw the same
    error, whatever else differs in the two worlds.  Summing the buckets at
    the end, as the first script does, gives the total that the second one
    counts item by item. *)
Theorem X12_search_collectors_agree
    (dates : DateLib) (gh : github) (cfg : config) (w1 w2 : world) :
  clock w1 = clock w2 ->
  fst (Part001a.getCommitTimes gh cfg w1) = fst (Part001b.getCommitTimes gh cfg w2).
Proof.
  intros Hclock. unfold Part001b.getCommitTimes. rewrite try_catch_rethrow_fst.
  unfold Part001a.getCommitTimes, for_page_upto, Part001a.MAX_PAGES,
    Part001a.DAYS_LOOKBACK, bind, request, print, new_Date, ret.
  destruct (users_getAuthenticated gh) as [user | e]; [| reflexivity].
  cbn [clock]. rewrite Hclock.
  match goal with
  | |- context [for_pages ?n ?p (Part001a.fetch_page gh ?u ?since) ?c ?wa] =>
    match goal with
    | |- context [for_pages n p (Part001b.fetch_page gh u since) ?s ?wb] =>
      pose proof (for_pages_same with_total
                    (Part001a.fetch_page gh u since) (Part001b.fetch_page gh u since)
                    (fun page s1 s2 w1 w2 => fetch_page_same gh u since page s1 s2 w1 w2)
                    n p c s wa wb eq_refl) as Hloop;
      destruct (for_pages n p (Part001a.fetch_page gh u since) c wa) as [[c' | e] wa'];
      destruct (for_pages n p (Part001b.fetch_page gh u since) s wb) as [[s' | e'] wb'];
      simpl in Hloop; try contradiction
    end
  end.
  - unfold with_total in Hloop. subst s'. reflexivity.
  - simpl. congruence.
Qed.

Lemma X12_search_collectors_agree_witness :
  fst (@Part001a.getCommitTimes Shanghai.dates sample_github sample_config sample_world)
  = fst (@Part001b.getCommitTimes Shanghai.dates sample_github sample_config
           {| clock := 0; calls := [GetAuthenticated]; console := [] |}).
Proof.
  apply (X12_search_collectors_agree Shanghai.dates sample_github sample_config).
  reflexivity.
Defined.

(** ** The renderer: rows and columns *)

(** The text of a percent from 0.0 to 100.0 has at most five code units. *)
Definition check_width (n : Z) : bool := (length (fixed1 n) <=? 5)%nat.

Lemma check_all_widths : forallb check_width (map Z.of_nat (seq 0 1001)) = true.
Proof. vm_compute. reflexivity. Qed.

Lemma fixed1_width n : 0 <= n <= 1000 -> (length (fixed1 n) <= 5)%nat.
Proof.
  intros Hn. pose proof check_all_widths as H. rewrite forallb_forall in H.
  apply Nat.leb_le. apply (H n).
  apply in_map_iff. exists (Z.to_nat n). split; [lia |]. apply in_seq. lia.
Qed.

(** The percent of a count between 0 and the total, its text, and the bar
    both versions of getBar make of it. *)
Lemma percent_and_bar stats num :
  0 <= num <= total stats -> total stats < 2 ^ 53 ->
  exists p p' f t,
    Shared.getPercent stats num = Ok p
    /\ Shared.getBar p = Ok (bar f)
    /\ ToString p = Ok t /\ (length t <= 5)%nat
    /\ Part001a.getPercent stats num = Ok p'
    /\ Part001a.getBar p' = Ok (bar f)
    /\ 0 <= f <= 20.
Proof.
  intros Hn Ht. destruct (Z.eq_dec (total stats) 0) as [H0 | H0].
  - exists (JNum (Z2SF 0)), (JStr (js "0.0")), 0, (js "0").
    split; [apply Shared_getPercent_zero; exact H0 |].
    split; [reflexivity |]. split; [reflexivity |]. split; [simpl; lia |].
    split; [apply Part001a_getPercent_zero; exact H0 |].
    split; [reflexivity | lia].
  - destruct (getPercent_nonzero stats num ltac:(lia) ltac:(lia)) as (H1 & H2 & Hlo & Hhi).
    set (n := tenths_of (percent_number num (total stats))) in *.
    assert (Hr : 0 <= n <= 1000) by (split; [exact Hlo | apply Hhi; lia]).
    destruct (getBar_of_tenths n Hr) as (Hb & Hb' & Hf & _).
    exists (JStr (fixed1 n)), (JStr (fixed1 n)), (filled_cells n), (fixed1 n).
    split; [exact H1 |]. split; [exact Hb |]. split; [reflexivity |].
    split; [apply fixed1_width; exact Hr |]. split; [exact H2 |].
    split; [exact Hb' | exact Hf].
Qed.

Lemma padStart_length s n : (length s <= n)%nat -> length (padStart s n) = n.
Proof. intros H. unfold padStart. rewrite length_app, repeat_length. lia. Qed.

Lemma padEnd_length s n : (length s <= n)%nat -> length (padEnd s n) = n.
Proof. intros H. unfold padEnd. rewrite length_app, repeat_length. lia. Qed.

Lemma fold_left_max l : forall a,
  (a <= fold_left Nat.max l a)%nat
  /\ (forall x, In x l -> (x <= fold_left Nat.max l a)%nat)
  /\ (fold_left Nat.max l a = a \/ In (fold_left Nat.max l a) l).
Proof.
  induction l as [| y l IH]; intros a; simpl.
  - split; [lia |]. split; [intros x [] | left; reflexivity].
  - destruct (IH (Nat.max a y)) as (H1 & H2 & H3). split; [lia |]. split.
    + intros x [<- | Hx]; [lia | apply H2; exact Hx].
    + destruct H3 as [H3 | H3]; [| right; right; exact H3].
      rewrite H3. destruct (Nat.max_spec a y) as [(_ & E) | (_ & E)]; rewrite E; auto.
Qed.

(** [countWidth] is the least width from 3 on that fits every count. *)
Lemma countWidth_fits ls :
  (3 <= countWidth ls)%nat
  /\ (forall l, In l ls -> (length (NumberToString (count l)) <= countWidth ls)%nat)
  /\ (countWidth ls = 3%nat
      \/ exists l, In l ls /\ countWidth ls = length (NumberToString (count l))).
Proof.
  unfold countWidth.
  destruct (fold_left_max (map (fun l => length (NumberToString (count l))) ls) 3)
    as (H1 & H2 & H3).
  split; [exact H1 |]. split.
  - intros l Hl. apply H2. apply in_map_iff. exists l. auto.
  - destruct H3 as [H3 | H3]; [left; exact H3 | right].
    apply in_map_iff in H3. destruct H3 as (l & E & Hl). exists l. auto.
Qed.

Lemma lines_counts stats l :
  within_total stats -> In l (lines stats) -> 0 <= count l <= total stats.
Proof.
  intros Hs Hl. unfold lines in Hl. simpl in Hl.
  destruct Hl as [<- | [<- | [<- | [<- | []]]]]; simpl.
  - exact (within_total_counts stats Morning Hs).
  - exact (within_total_counts stats Daytime Hs).
  - exact (within_total_counts stats Evening Hs).
  - exact (within_total_counts stats Night Hs).
Qed.

Lemma lines_labels stats l :
  In l (lines stats) -> length (padEnd (label l) 7) = 7%nat.
Proof.
  intros Hl. unfold lines in Hl. simpl in Hl.
  destruct Hl as [<- | [<- | [<- | [<- | []]]]]; reflexivity.
Qed.

(** The three versions of a row, for a count between 0 and the total. *)
Lemma render_rows stats width l :
  0 <= count l <= total stats -> total stats < 2 ^ 53 ->
  exists f t,
    0 <= f <= 20 /\ (length t <= 5)%nat
    /\ let row :=
         emoji l ++ js " " ++ padEnd (label l) 7 ++ js "   "
           ++ padStart (NumberToString (count l)) width ++ js " commits"
           ++ js "   " ++ bar f in
       Part001a.render_row stats width l = Ok row
       /\ Part001b.render_row stats width l = Ok row
       /\ Part000.render_row stats width l
          = Ok (row ++ js "   " ++ padStart t 5 ++ js "%").
Proof.
  intros Hc Ht.
  destruct (percent_and_bar stats (count l) Hc Ht)
    as (p & p' & f & t & Hp & Hb & Hs & Hlen & Hp' & Hb' & Hf).
  exists f, t. split; [exact Hf |]. split; [exact Hlen |].
  unfold Part001a.render_row, Part001b.render_row, Part000.render_row.
  rewrite Hp, Hp'. cbn [rbind]. rewrite Hb, Hb'. cbn [rbind]. rewrite Hs. cbn [rbind].
  repeat split; f_equal; repeat rewrite <- app_assoc; reflexivity.
Qed.

Lemma map_result_ext {A B} (f g : A -> result B) l :
  (forall a, In a l -> f a = g a) -> map_result f l = map_result g l.
Proof.
  induction l as [| a l IH]; intros H; [reflexivity |].
  simpl. rewrite (H a (or_introl eq_refl)).
  rewrite IH by (intros; apply H; right; assumption). reflexivity.
Qed.

Lemma map_result_returns {A B} (f : A -> result B) l :
  (forall a, In a l -> exists b, f a = Ok b) -> exists bs, map_result f l = Ok bs.
Proof.
  induction l as [| a l IH]; intros H; [exists []; reflexivity |].
  destruct (H a (or_introl eq_refl)) as (b & Hb).
  destruct IH as (bs & Hbs); [intros; apply H; right; assumption |].
  exists (b :: bs). simpl. rewrite Hb, Hbs. reflexivity.
Qed.

Lemma template_line_returns stats head num :
  0 <= num <= total stats -> total stats < 2 ^ 53 ->
  exists f t,
    0 <= f <= 20 /\ (length t <= 5)%nat
    /\ UpdateGist.template_line stats head num
       = Ok (head ++ NumberToString num ++ js " commits    " ++ bar f ++ js "    "
               ++ t ++ js "%").
Proof.
  intros Hc Ht.
  destruct (percent_and_bar stats num Hc Ht)
    as (p & p' & f & t & Hp & Hb & Hs & Hlen & _ & _ & Hf).
  exists f, t. split; [exact Hf |]. split; [exact Hlen |].
  unfold UpdateGist.template_line. rewrite Hp. cbn [rbind]. rewrite Hb. cbn [rbind].
  rewrite Hs. reflexivity.
Qed.

(** The text that ends with the line of the update time. *)
Definition updated {dates : DateLib} (w : world) (body : jsstring) : jsstring :=
  body ++ nl ++ js "> Last Updated: " ++ zonedFormat TIME_ZONE (clock w) ++ nl.

Section Rendering.
Context {dates : DateLib} (stats : CommitStats) (w : world).
Hypothesis stats_within_total : within_total stats.
Hypothesis total_below_2_53 : total stats < 2 ^ 53.

Lemma UpdateGist_generateMarkdown_returns :
  exists body, UpdateGist.generateMarkdown stats w = (Ok (updated w body), w).
Proof.
  unfold UpdateGist.generateMarkdown, bind, new_Date, lift, ret.
  destruct (template_line_returns stats (js "🌞 Morning    ") (morning stats)
              (within_total_counts stats Morning stats_within_total) total_below_2_53)
    as (f1 & t1 & _ & _ & ->).
  destruct (template_line_returns stats (js "🏙️ Daytime    ") (daytime stats)
              (within_total_counts stats Daytime stats_within_total) total_below_2_53)
    as (f2 & t2 & _ & _ & ->).
  destruct (template_line_returns stats (js "🌆 Evening    ") (evening stats)
              (within_total_counts stats Evening stats_within_total) total_below_2_53)
    as (f3 & t3 & _ & _ & ->).
  destruct (template_line_returns stats (js "🌙 Night      ") (night stats)
              (within_total_counts stats Night stats_within_total) total_below_2_53)
    as (f4 & t4 & _ & _ & ->).
  eexists. reflexivity.
Qed.

Lemma Part000_generateMarkdown_returns :
  exists body, Part000.generateMarkdown stats w = (Ok (updated w body), w).
Proof.
  unfold Part000.generateMarkdown, bind, new_Date, lift, ret.
  destruct (map_result_returns (Part000.render_row stats (countWidth (lines stats)))
              (lines stats)) as (rows & ->).
  { intros l Hl.
    destruct (render_rows stats (countWidth (lines stats)) l
                (lines_counts stats l stats_within_total Hl) total_below_2_53)
      as (f & t & _ & _ & _ & _ & E).
    eexists. exact E. }
  eexists. reflexivity.
Qed.

Lemma Part001_generateMarkdown_returns :
  exists body,
    Part001a.generateMarkdown stats w = (Ok (updated w body), w)
    /\ Part001b.generateMarkdown stats w = (Ok (updated w body), w).
Proof.
  unfold Part001a.generateMarkdown, Part001b.generateMarkdown, bind, new_Date, lift, ret.
  rewrite (map_result_ext (Part001b.render_row stats (countWidth (lines stats)))
             (Part001a.render_row stats (countWidth (lines stats))) (lines stats)).
  2: { intros l Hl.
       destruct (render_rows stats (countWidth (lines stats)) l
                   (lines_counts stats l stats_within_total Hl) total_below_2_53)
         as (f & t & _ & _ & Ea & Eb & _).
       rewrite Ea, Eb. reflexivity. }
  destruct (map_result_returns (Part001a.render_row stats (countWidth (lines stats)))
              (lines stats)) as (rows & ->).
  { intros l Hl.
    destruct (render_rows stats (countWidth (lines stats)) l
                (lines_counts stats l stats_within_total Hl) total_below_2_53)
      as (f & t & _ & _ & E & _).
    eexists. exact E. }
  eexists. split; reflexivity.
Qed.

End Rendering.

(** X13.  generateMarkdown returns, and throws nothing, for every
    CommitStats whose buckets are not negative and add up to a total below
    2^53, in each script; the text ends with the line "> Last Updated: "
    followed by the instant of the clock, formatted in the zone of the
    scripts, and the two scripts of part_001 render the same text. *)
Theorem X13_render_returns
    (dates : DateLib) (stats : CommitStats) (w : world) :
  within_total stats -> total stats < 2 ^ 53 ->
  let with_time body :=
    body ++ nl ++ js "> Last Updated: " ++ zonedFormat TIME_ZONE (clock w) ++ nl in
  (exists body, UpdateGist.generateMarkdown stats w = (Ok (with_time body), w))
  /\ (exists body, Part000.generateMarkdown stats w = (Ok (with_time body), w))
  /\ (exists body,
        Part001a.generateMarkdown stats w = (Ok (with_time body), w)
        /\ Part001b.generateMarkdown stats w = (Ok (with_time body), w)).
Proof.
  intros Hs Ht with_time. split; [| split].
  - exact (UpdateGist_generateMarkdown_returns stats w Hs Ht).
  - exact (Part000_generateMarkdown_returns stats w Hs Ht).
  - exact (Part001_generateMarkdown_returns stats w Hs Ht).
Qed.

Lemma X13_render_returns_witness :
  exists body,
    @Part001a.generateMarkdown Shanghai.dates (stats_of 2 1 1 0 4) sample_world
    = (Ok (body ++ nl ++ js "> Last Updated: 1970-01-01 08:00:00" ++ nl), sample_world)
    /\ @Part001b.generateMarkdown Shanghai.dates (stats_of 2 1 1 0 4) sample_world
       = (Ok (body ++ nl ++ js "> Last Updated: 1970-01-01 08:00:00" ++ nl), sample_world).
Proof.
  destruct (X13_render_returns Shanghai.dates (stats_of 2 1 1 0 4) sample_world)
    as (_ & _ & H).
  - unfold within_total, consistent. simpl. lia.
  - simpl. lia.
  - exact H.
Defined.

(** X14.  The columns of part_000 and part_001 line up.  For every
    CommitStats whose buckets are not negative and add up to a total below
    2^53, with width = countWidth: width is 3, or the length
    of the longest count when that is more; in each of the four rows the
    label fills exactly 7 code units, the count is right-justified in exactly
    width code units, the bar has 20 cells and, in part_000, the percent is
    right-justified in exactly 5 code units; the rows of the two scripts of
    part_001 are the same, and the row of part_000 is that row followed by the
    percent column. *)
Theorem X14_columns_align (stats : CommitStats) :
  within_total stats -> total stats < 2 ^ 53 ->
  let width := countWidth (lines stats) in
  (3 <= width)%nat
  /\ (width = 3%nat
      \/ exists l, In l (lines stats) /\ width = length (NumberToString (count l)))
  /\ forall l, In l (lines stats) ->
       exists f t,
         let label_column := padEnd (label l) 7 in
         let count_column := padStart (NumberToString (count l)) width in
         let percent_column := padStart t 5 in
         let row :=
           emoji l ++ js " " ++ label_column ++ js "   " ++ count_column ++ js " commits"
             ++ js "   " ++ bar f in
         length label_column = 7%nat
         /\ length count_column = width
         /\ length (bar f) = 20%nat
         /\ length percent_column = 5%nat
         /\ Part001a.render_row stats width l = Ok row
         /\ Part001b.render_row stats width l = Ok row
         /\ Part000.render_row stats width l = Ok (row ++ js "   " ++ percent_column ++ js "%").
Proof.
  intros Hs Ht width.
  destruct (countWidth_fits (lines stats)) as (H3 & Hfit & Hleast).
  split; [exact H3 |]. split; [exact Hleast |].
  intros l Hl.
  destruct (render_rows stats width l (lines_counts stats l Hs Hl) Ht)
    as (f & t & Hf & Hlen & Ea & Eb & E0).
  exists f, t. cbv zeta.
  split; [exact (lines_labels stats l Hl) |].
  split; [apply padStart_length, Hfit; exact Hl |].
  split; [apply bar_length; exact Hf |].
  split; [apply padStart_length; exact Hlen |].
  split; [exact Ea |]. split; [exact Eb | exact E0].
Qed.

Lemma X14_columns_align_witness :
  countWidth (lines (stats_of 1200 30 4 0 1234)) = 4%nat
  /\ forall l, In l (lines (stats_of 1200 30 4 0 1234)) ->
       length (padStart (NumberToString (count l)) 4) = 4%nat.
Proof.
  destruct (X14_columns_align (stats_of 1200 30 4 0 1234)) as (_ & _ & H).
  - unfold within_total, consistent. simpl. lia.
  - simpl. lia.
  - split; [reflexivity |]. intros l Hl.
    destruct (H l Hl) as (f & t & _ & Hc & _). exact Hc.
Defined.

(** The four rows of a rendering, in the order of the template. *)
Lemma lines_in_order (stats : CommitStats) :
  map (fun l => (label l, count l)) (lines stats)
  = [ (js "Morning", morning stats); (js "Daytime", daytime stats);
      (js "Evening", evening stats); (js "Night", night stats) ].
Proof. reflexivity. Qed.

Lemma map_result_four {A B} (f : A -> result B) a1 a2 a3 a4 b1 b2 b3 b4 :
  f a1 = Ok b1 -> f a2 = Ok b2 -> f a3 = Ok b3 -> f a4 = Ok b4 ->
  map_result f [a1; a2; a3; a4] = Ok [b1; b2; b3; b4].
Proof. intros H1 H2 H3 H4. cbn [map_result]. rewrite H1, H2, H3, H4. reflexivity. Qed.

Section Layout.
Context {dates : DateLib} (stats : CommitStats) (w : world).
Hypothesis stats_within_total : within_total stats.
Hypothesis total_below_2_53 : total stats < 2 ^ 53.

Lemma rows_return (render : CommitStats -> nat -> row -> result jsstring) :
  (forall l, In l (lines stats) ->
     exists r, render stats (countWidth (lines stats)) l = Ok r) ->
  exists r1 r2 r3 r4,
    map (render stats (countWidth (lines stats))) (lines stats) = [Ok r1; Ok r2; Ok r3; Ok r4]
    /\ map_result (render stats (countWidth (lines stats))) (lines stats)
       = Ok [r1; r2; r3; r4].
Proof.
  intros H. unfold lines in *.
  set (width := countWidth _) in *.
  destruct (H _ (or_introl eq_refl)) as (r1 & E1).
  destruct (H _ (or_intror (or_introl eq_refl))) as (r2 & E2).
  destruct (H _ (or_intror (or_intror (or_introl eq_refl)))) as (r3 & E3).
  destruct (H _ (or_intror (or_intror (or_intror (or_introl eq_refl))))) as (r4 & E4).
  exists r1, r2, r3, r4. split.
  - cbn [map]. rewrite E1, E2, E3, E4. reflexivity.
  - apply map_result_four; assumption.
Qed.

Lemma Part000_rows_return l :
  In l (lines stats) -> exists r, Part000.render_row stats (countWidth (lines stats)) l = Ok r.
Proof.
  intros Hl.
  destruct (render_rows stats (countWidth (lines stats)) l
              (lines_counts stats l stats_within_total Hl) total_below_2_53)
    as (f & t & _ & _ & _ & _ & E).
  eexists. exact E.
Qed.

Lemma Part001a_rows_return l :
  In l (lines stats) -> exists r, Part001a.render_row stats (countWidth (lines stats)) l = Ok r.
Proof.
  intros Hl.
  destruct (render_rows stats (countWidth (lines stats)) l
              (lines_counts stats l stats_within_total Hl) total_below_2_53)
    as (f & t & _ & _ & E & _).
  eexists. exact E.
Qed.

Lemma Part001b_rows_return l :
  In l (lines stats) -> exists r, Part001b.render_row stats (countWidth (lines stats)) l = Ok r.
Proof.
  intros Hl.
  destruct (render_rows stats (countWidth (lines stats)) l
              (lines_counts stats l stats_within_total Hl) total_below_2_53)
    as (f & t & _ & _ & _ & E & _).
  eexists. exact E.
Qed.

End Layout.

(** X20.  The text of generateMarkdown, for every CommitStats whose buckets
    are not negative and add up to a total below 2^53: the rows of morning,
    daytime, evening and night, in that order and each followed by a newline,
    then the line "> Last Updated: " with the instant of the clock in the zone
    Asia/Shanghai and a last newline.  In part_000 and part_001 each row is what render_row makes of
    the entry of [lines] for that bucket, at the width countWidth; in
    update_gist.js it is the template line of that bucket. *)
Theorem X20_rows_in_order (dates : DateLib) (stats : CommitStats) (w : world) :
  within_total stats -> total stats < 2 ^ 53 ->
  let width := countWidth (lines stats) in
  let text r1 r2 r3 r4 :=
    r1 ++ nl ++ r2 ++ nl ++ r3 ++ nl ++ r4 ++ nl
      ++ js "> Last Updated: " ++ zonedFormat "Asia/Shanghai" (clock w) ++ nl in
  map (fun l => (label l, count l)) (lines stats)
  = [ (js "Morning", morning stats); (js "Daytime", daytime stats);
      (js "Evening", evening stats); (js "Night", night stats) ]
  /\ (exists r1 r2 r3 r4,
        map (Part000.render_row stats width) (lines stats) = [Ok r1; Ok r2; Ok r3; Ok r4]
        /\ Part000.generateMarkdown stats w = (Ok (text r1 r2 r3 r4), w))
  /\ (exists r1 r2 r3 r4,
        map (Part001a.render_row stats width) (lines stats) = [Ok r1; Ok r2; Ok r3; Ok r4]
        /\ Part001a.generateMarkdown stats w = (Ok (text r1 r2 r3 r4), w))
  /\ (exists r1 r2 r3 r4,
        map (Part001b.render_row stats width) (lines stats) = [Ok r1; Ok r2; Ok r3; Ok r4]
        /\ Part001b.generateMarkdown stats w = (Ok (text r1 r2 r3 r4), w))
  /\ (exists r1 r2 r3 r4,
        UpdateGist.template_line stats (js "🌞 Morning    ") (morning stats) = Ok r1
        /\ UpdateGist.template_line stats (js "🏙️ Daytime    ") (daytime stats) = Ok r2
        /\ UpdateGist.template_line stats (js "🌆 Evening    ") (evening stats) = Ok r3
        /\ UpdateGist.template_line stats (js "🌙 Night      ") (night stats) = Ok r4
        /\ UpdateGist.generateMarkdown stats w = (Ok (text r1 r2 r3 r4), w)).
Proof.
  intros Hs Ht width text.
  split; [apply lines_in_order |]. split; [| split; [| split]].
  - destruct (rows_return stats Part000.render_row (Part000_rows_return stats Hs Ht))
      as (r1 & r2 & r3 & r4 & Hmap & Hrows).
    exists r1, r2, r3, r4. split; [exact Hmap |].
    unfold Part000.generateMarkdown, bind, new_Date, lift, ret. rewrite Hrows.
    unfold with_update_time, text. cbn [join]. rewrite <- !app_assoc. reflexivity.
  - destruct (rows_return stats Part001a.render_row (Part001a_rows_return stats Hs Ht))
      as (r1 & r2 & r3 & r4 & Hmap & Hrows).
    exists r1, r2, r3, r4. split; [exact Hmap |].
    unfold Part001a.generateMarkdown, bind, new_Date, lift, ret. rewrite Hrows.
    unfold with_update_time, text. cbn [join]. rewrite <- !app_assoc. reflexivity.
  - destruct (rows_return stats Part001b.render_row (Part001b_rows_return stats Hs Ht))
      as (r1 & r2 & r3 & r4 & Hmap & Hrows).
    exists r1, r2, r3, r4. split; [exact Hmap |].
    unfold Part001b.generateMarkdown, bind, new_Date, lift, ret. rewrite Hrows.
    unfold with_update_time, text. cbn [join]. rewrite <- !app_assoc. reflexivity.
  - destruct (template_line_returns stats (js "🌞 Morning    ") (morning stats)
                (within_total_counts stats Morning Hs) Ht) as (f1 & t1 & _ & _ & E1).
    destruct (template_line_returns stats (js "🏙️ Daytime    ") (daytime stats)
                (within_total_counts stats Daytime Hs) Ht) as (f2 & t2 & _ & _ & E2).
    destruct (template_line_returns stats (js "🌆 Evening    ") (evening stats)
                (within_total_counts stats Evening Hs) Ht) as (f3 & t3 & _ & _ & E3).
    destruct (template_line_returns stats (js "🌙 Night      ") (night stats)
                (within_total_counts stats Night Hs) Ht) as (f4 & t4 & _ & _ & E4).
    eexists. eexists. eexists. eexists.
    split; [exact E1 |]. split; [exact E2 |]. split; [exact E3 |]. split; [exact E4 |].
    unfold UpdateGist.generateMarkdown, bind, new_Date, lift, ret.
    rewrite E1, E2, E3, E4.
    unfold with_update_time, text. rewrite <- !app_assoc. reflexivity.
Qed.

Lemma X20_rows_in_order_witness :
  exists r1 r2 r3 r4,
    @Part000.generateMarkdown Shanghai.dates (stats_of 2 1 1 0 4) sample_world
    = (Ok (r1 ++ nl ++ r2 ++ nl ++ r3 ++ nl ++ r4 ++ nl
             ++ js "> Last Updated: 1970-01-01 08:00:00" ++ nl), sample_world).
Proof.
  destruct (X20_rows_in_order Shanghai.dates (stats_of 2 1 1 0 4) sample_world)
    as (_ & (r1 & r2 & r3 & r4 & _ & H) & _).
  - unfold within_total, consistent. simpl. lia.
  - simpl. lia.
  - exists r1, r2, r3, r4. exact H.
Defined.

(** ** Whole runs of the search scripts *)

(** The API accepts the token and answers every search with at most a page of
    items. *)
Definition search_answers (gh : github) : Prop :=
  (exists u, users_getAuthenticated gh = Ok u)
  /\ forall u since page,
       exists d, search_commits gh u since 100 page = Ok d
                 /\ (length (items_or_empty d) <= 100)%nat.

Lemma search_collectors_return (dates : DateLib) (gh : github) (cfg : config) :
  search_answers gh ->
  returns (Part001a.getCommitTimes gh cfg) /\ returns (Part001b.getCommitTimes gh cfg).
Proof.
  intros ((u & Hu) & Hsearch). split.
  - unfold Part001a.getCommitTimes, Part001a.fetch_page, Part001a.PER_PAGE.
    rewrite Hu. returns.
    match goal with
    | |- returns (request _ (search_commits _ ?a ?b _ ?d)) =>
      destruct (Hsearch a b d) as (data & -> & _)
    end.
    returns.
  - unfold Part001b.getCommitTimes, Part001b.fetch_page.
    rewrite Hu. returns.
    match goal with
    | |- returns (request _ (search_commits _ ?a ?b _ ?d)) =>
      destruct (Hsearch a b d) as (data & -> & _)
    end.
    returns.
Qed.

Lemma search_answers_pages gh :
  search_answers gh ->
  forall u since page d,
    search_commits gh u since 100 page = Ok d -> (length (items_or_empty d) <= 100)%nat.
Proof.
  intros (_ & H) u since page d Hd. destruct (H u since page) as (d' & E & Hlen).
  congruence.
Qed.

(** X15.  A whole run of the search scripts.  When the API accepts the
    token, answers every search with at most 100 items and accepts the
    update of the gist, the second script of part_001 ends with status 0, and
    so does the first one when GIST_TOKEN and GIST_ID are set and not
    empty. *)
Theorem X15_search_scripts_succeed
    (dates : DateLib) (gh : github) (cfg : config) (w : world) :
  search_answers gh ->
  (forall text, gists_update gh (GIST_ID cfg) text = Ok tt) ->
  fst (Part001b.script gh cfg w) = Ok 0
  /\ (GIST_TOKEN cfg <> None -> GIST_TOKEN cfg <> Some ""%string ->
      GIST_ID cfg <> None -> GIST_ID cfg <> Some ""%string ->
      fst (Part001a.script gh cfg w) = Ok 0).
Proof.
  intros Hgh Hup.
  destruct (search_collectors_return dates gh cfg Hgh) as (Hra & Hrb).
  assert (Hstats : forall s w1,
             Part001a.getCommitTimes gh cfg w = (Ok s, w1)
             \/ Part001b.getCommitTimes gh cfg w = (Ok s, w1) ->
             within_total s /\ total s < 2 ^ 53).
  { intros s w1 H. split.
    - assert (H0 : within_total {| buckets := no_commits; total := 0 |})
        by (unfold within_total, consistent; simpl; lia).
      assert (Hb : forall b n s0, 0 <= n -> within_total s0 -> within_total (bump b n s0))
        by (intros; apply within_total_bump; assumption).
      assert (Hl : forall k : nat, 0 <= Z.of_nat k) by (intros; lia).
      destruct H as [H | H].
      + exact (Part001a_collects gh cfg within_total (fun n => 0 <= n) H0 Hb Hl _ _ _ H).
      + exact (Part001b_collects gh cfg within_total (fun n => 0 <= n) H0 Hb Hl _ _ _ H).
    - destruct (search_run_bound dates gh cfg w w1 s (search_answers_pages gh Hgh)
                  (search_runs dates gh cfg w w1 s H)) as (Hle & _).
      lia. }
  split.
  - unfold Part001b.script. rewrite main_outcome. unfold steps, bind.
    destruct (Hrb w) as (s & w1 & E). rewrite E.
    destruct (Hstats s w1 (or_intror E)) as (Hs & Ht).
    destruct (Part001_generateMarkdown_returns s w1 Hs Ht) as (body & _ & ->).
    unfold updateGist, try_catch, bind, request, print. rewrite Hup. reflexivity.
  - intros H1 H2 H3 H4. rewrite Part001a_script_eq.
    assert (Hcfg : configured cfg = true).
    { unfold configured. destruct (GIST_TOKEN cfg) as [[| c t] |]; try congruence.
      destruct (GIST_ID cfg) as [[| c' i] |]; congruence. }
    rewrite Hcfg, main_outcome. unfold steps, bind.
    destruct (Hra w) as (s & w1 & E). rewrite E.
    destruct (Hstats s w1 (or_introl E)) as (Hs & Ht).
    destruct (Part001_generateMarkdown_returns s w1 Hs Ht) as (body & -> & _).
    unfold Part001a.updateGist, bind, request, print. rewrite Hup. reflexivity.
Qed.

Lemma X15_search_scripts_succeed_witness :
  fst (@Part001b.script Shanghai.dates sample_github sample_config sample_world) = Ok 0.
Proof.
  assert (Hgh : search_answers sample_github).
  { split; [eexists; reflexivity |]. intros u since page. eexists. split; [reflexivity |].
    unfold items_or_empty. simpl. destruct (page =? 1); simpl; lia. }
  destruct (X15_search_scripts_succeed Shanghai.dates sample_github sample_config
              sample_world Hgh (fun text => eq_refl)) as (H & _).
  exact H.
Defined.

(** ** part_000: a push event never counts as 0 *)

Lemma or_else_not_zero a b : b <> 0 -> or_else a b <> 0.
Proof.
  intros Hb. unfold or_else. destruct a as [z |]; [| exact Hb].
  destruct (Z.eqb_spec z 0); assumption.
Qed.

Lemma Part000_commitCount_not_zero e : Part000.commitCount e <> 0.
Proof.
  unfold Part000.commitCount.
  destruct (commits _) as [[| c l] |];
    try (apply or_else_not_zero, or_else_not_zero; discriminate).
  cbn [length]. lia.
Qed.

Lemma Forall2_concat_In {A B} (R : A -> list B -> Prop) l ls b :
  Forall2 R l ls -> In b (concat ls) -> exists a bs, R a bs /\ In b bs.
Proof.
  induction 1 as [| a bs l ls HR _ IH]; simpl; [intros [] |].
  intros Hin. apply in_app_or in Hin. destruct Hin as [Hin | Hin]; eauto.
Qed.

Lemma weigh_at_least {A} (weight : A -> Z) (l : list A) :
  (forall a, In a l -> 1 <= weight a) -> Z.of_nat (length l) <= weigh weight l.
Proof.
  induction l as [| a l IH]; intros H; [unfold weigh; simpl; lia |].
  unfold weigh in *. cbn [map fold_right length]. rewrite Nat2Z.inj_succ.
  pose proof (H a (or_introl eq_refl)).
  specialize (IH (fun x Hx => H x (or_intror Hx))). lia.
Qed.

(** X16.  In part_000 a push event never counts as 0 commits: commitCount
    is the length of a list that is not empty, or a size field that is not 0,
    or 1.  When the size fields the API answers with are not negative, every
    push event counts at least 1, so that the total of the returned stats is
    at least the number of push events on the pages the run went through. *)
Theorem X16_Part000_push_counts_at_least_one
    (dates : DateLib) (gh : github) (cfg : config) (w w' : world) (s : CommitStats) :
  sizes_not_negative gh ->
  Part000.getCommitTimes gh cfg w = (Ok s, w') ->
  (forall e, Part000.commitCount e <> 0)
  /\ exists user k pages,
       users_getAuthenticated gh = Ok user
       /\ Part000_pages gh cfg user k pages
       /\ (forall e, In e (concat pages) -> 1 <= Part000.commitCount e)
       /\ Z.of_nat (length (filter is_PushEvent (concat pages))) <= total s.
Proof.
  intros Hsizes H. split; [exact Part000_commitCount_not_zero |].
  destruct (Part000_run gh cfg w s w' H)
    as (user & k & pages & w1 & Hu & Hp & _ & _ & Ht & _).
  exists user, k, pages. split; [exact Hu |]. split; [exact Hp |].
  assert (Hone : forall e, In e (concat pages) -> 1 <= Part000.commitCount e).
  { intros e He. destruct Hp as (_ & Hf & _).
    destruct (Forall2_concat_In _ _ _ _ Hf He) as (page & events & Hans & Hin).
    pose proof (Part000_commitCount_not_zero e).
    assert (0 <= Part000.commitCount e); [| lia].
    apply Part000_commitCount_not_negative. intros p Hpay.
    exact (Hsizes _ page events e p Hans Hin Hpay). }
  split; [exact Hone |].
  rewrite Ht. unfold commits_of. apply weigh_at_least.
  intros e He. apply filter_In in He. apply Hone. tauto.
Qed.

Lemma sample_sizes : sizes_not_negative sample_github.
Proof.
  intros u page events e p Hans Hin Hp. simpl in Hans.
  destruct (page =? 1); inversion Hans; subst; [| destruct Hin].
  destruct Hin as [<- | [<- | [<- | []]]]; simpl in Hp; inversion Hp; subst; simpl;
    split; intros n Hn; inversion Hn; lia.
Qed.

Lemma X16_Part000_push_counts_at_least_one_witness :
  exists pages,
    Z.of_nat (length (filter is_PushEvent (concat pages))) <= 5.
Proof.
  destruct (X16_Part000_push_counts_at_least_one Shanghai.dates sample_github sample_config
              sample_world
              (snd (@Part000.getCommitTimes Shanghai.dates sample_github sample_config
                      sample_world))
              (stats_of 2 3 0 0 5) sample_sizes ltac:(vm_compute; reflexivity))
    as (_ & user & k & pages & _ & _ & _ & H).
  exists pages. exact H.
Defined.

(** ** The renderer: bars follow the counts *)

Lemma filled_cells_bounds n : 50 * filled_cells n - 25 <= n < 50 * filled_cells n + 25.
Proof.
  unfold filled_cells.
  set (x := ((n # 10) / 100 * 20 + (1 # 2))%Q).
  pose proof (Qfloor_le x) as Hl. pose proof (Qlt_floor x) as Hu.
  set (f := Qfloor x) in *. clearbody f.
  assert (Ex : (x * 100 == inject_Z (2 * n + 50))%Q).
  { unfold x. rewrite (Qmake_Qdiv n 10), inject_Z_plus, inject_Z_mult.
    change (inject_Z (Z.pos 10)) with 10%Q. change (inject_Z 2) with 2%Q.
    change (inject_Z 50) with 50%Q. field. }
  clearbody x. rewrite inject_Z_plus in Hu. change (inject_Z 1) with 1%Q in Hu.
  assert (H1 : (inject_Z (f * 100) <= inject_Z (2 * n + 50))%Q).
  { rewrite inject_Z_mult. change (inject_Z 100) with 100%Q.
    set (y := inject_Z (2 * n + 50)) in *. lra. }
  assert (H2 : (inject_Z (2 * n + 50) < inject_Z ((f + 1) * 100))%Q).
  { set (y := inject_Z (2 * n + 50)) in *. rewrite inject_Z_mult, inject_Z_plus.
    change (inject_Z 100) with 100%Q. change (inject_Z 1) with 1%Q. lra. }
  rewrite <- Zle_Qle in H1. rewrite <- Zlt_Qlt in H2. lia.
Qed.

Lemma filled_cells_le n m : n <= m -> filled_cells n <= filled_cells m.
Proof.
  intros H. pose proof (filled_cells_bounds n). pose proof (filled_cells_bounds m). lia.
Qed.

(** The bar of a count, in both versions of getPercent and getBar. *)
Definition bar_of (stats : CommitStats) (num : Z) (filled : Z) : Prop :=
  rbind (Shared.getPercent stats num) Shared.getBar = Ok (bar filled)
  /\ rbind (Part001a.getPercent stats num) Part001a.getBar = Ok (bar filled).

Lemma bar_of_count stats num :
  0 <= num <= total stats -> 0 < total stats <= 2 ^ 40 ->
  let n := tenths_of (percent_number num (total stats)) in
  bar_of stats num (filled_cells n)
  /\ 0 <= n <= 1000
  /\ - total stats <= 2 * (n * total stats - 1000 * num) <= total stats.
Proof.
  intros Hn Ht n.
  destruct (getPercent_nonzero stats num ltac:(lia) ltac:(lia)) as (H1 & H2 & Hlo & Hhi).
  fold n in H1, H2, Hlo, Hhi.
  assert (Hr : 0 <= n <= 1000) by (split; [exact Hlo | apply Hhi; lia]).
  destruct (getBar_of_tenths n Hr) as (Hb & Hb' & _).
  split; [| split; [exact Hr | apply tenths_nearest; lia]].
  unfold bar_of. rewrite H1, H2. cbn [rbind]. split; assumption.
Qed.

Lemma cells_near T num n f :
  0 < T -> - T <= 2 * (n * T - 1000 * num) <= T -> 50 * f - 25 <= n < 50 * f + 25 ->
  - 51 * T <= 100 * (f * T - 20 * num) <= 51 * T.
Proof.
  intros HT Hn Hf.
  assert (H1 : (50 * f - 25) * T <= n * T) by (apply Z.mul_le_mono_nonneg_r; lia).
  assert (H2 : n * T <= (50 * f + 24) * T) by (apply Z.mul_le_mono_nonneg_r; lia).
  lia.
Qed.

Lemma cells_of_product T f c :
  0 < T -> - 51 * T <= 100 * (f * T - c * T) <= 51 * T -> f = c.
Proof.
  intros HT H.
  assert (H1 : (100 * (f - c) - 51) * T <= 0) by lia.
  assert (H2 : 0 <= (100 * (f - c) + 51) * T) by lia.
  assert (100 * (f - c) - 51 <= 0).
  { destruct (Z.le_gt_cases (100 * (f - c) - 51) 0) as [Hle | Hgt]; [exact Hle |].
    pose proof (Z.mul_pos_pos _ _ Hgt HT). lia. }
  assert (0 <= 100 * (f - c) + 51).
  { destruct (Z.le_gt_cases 0 (100 * (f - c) + 51)) as [Hle | Hgt]; [exact Hle |].
    pose proof (Z.mul_neg_pos _ _ Hgt HT). lia. }
  lia.
Qed.

Lemma tenths_monotone T a b na nb :
  0 < T -> a < b ->
  - T <= 2 * (na * T - 1000 * a) <= T -> - T <= 2 * (nb * T - 1000 * b) <= T ->
  na <= nb.
Proof.
  intros HT Hab Ha Hb.
  assert (H : na * T < (nb + 1) * T) by lia.
  apply Z.mul_lt_mono_pos_r in H; [lia | exact HT].
Qed.

(** X17.  Bars follow the counts.  For a total from 1 to 2^40 and counts
    a <= b up to the total, both versions of getPercent and getBar give a the
    bar with fa cells filled and b the bar with fb cells filled, where
    fa <= fb <= 20; fb is within 0.51 of the exact 20 * b / total (the bar is
    made from the percent rounded to one decimal, so that it can be off the
    rounding of the exact value); a count of 0 fills no cell and a count equal
    to the total fills all 20. *)
Theorem X17_bars_follow_counts (stats : CommitStats) (a b : Z) :
  0 < total stats <= 2 ^ 40 -> 0 <= a <= b -> b <= total stats ->
  exists fa fb,
    bar_of stats a fa /\ bar_of stats b fb
    /\ 0 <= fa <= fb /\ fb <= 20
    /\ - 51 * total stats <= 100 * (fb * total stats - 20 * b) <= 51 * total stats
    /\ (a = 0 -> fa = 0)
    /\ (b = total stats -> fb = 20).
Proof.
  intros Ht Hab Hb.
  destruct (bar_of_count stats a ltac:(lia) Ht) as (Ha1 & Ha2 & Ha3).
  destruct (bar_of_count stats b ltac:(lia) Ht) as (Hb1 & Hb2 & Hb3).
  assert (Hmono : tenths_of (percent_number a (total stats))
                  <= tenths_of (percent_number b (total stats))).
  { destruct (Z.eq_dec a b) as [-> | Hne]; [lia |].
    apply (tenths_monotone (total stats) a b); try assumption; lia. }
  set (na := tenths_of (percent_number a (total stats))) in *.
  set (nb := tenths_of (percent_number b (total stats))) in *.
  clearbody na nb.
  exists (filled_cells na), (filled_cells nb).
  pose proof (filled_cells_bounds na) as Fa. pose proof (filled_cells_bounds nb) as Fb.
  pose proof (filled_cells_le na nb Hmono) as Hf.
  pose proof (cells_near (total stats) a na _ ltac:(lia) Ha3 Fa) as Na.
  pose proof (cells_near (total stats) b nb _ ltac:(lia) Hb3 Fb) as Nb.
  split; [exact Ha1 |]. split; [exact Hb1 |].
  split; [lia |]. split; [lia |]. split; [exact Nb |].
  split; intros ->.
  - apply (cells_of_product (total stats)); [lia |].
    replace (0 * total stats) with (20 * 0) by lia. exact Na.
  - apply (cells_of_product (total stats)); [lia |]. exact Nb.
Qed.

Lemma X17_bars_follow_counts_witness :
  exists fa fb,
    bar_of (stats_of 1 2 0 0 3) 1 fa /\ bar_of (stats_of 1 2 0 0 3) 2 fb
    /\ fa <= fb.
Proof.
  destruct (X17_bars_follow_counts (stats_of 1 2 0 0 3) 1 2)
    as (fa & fb & Ha & Hb & Hle & _).
  - simpl. lia.
  - lia.
  - simpl. lia.
  - exists fa, fb. split; [exact Ha |]. split; [exact Hb | lia].
Defined.

(** ** The renderer: a count above the total *)

Definition is_RangeError {A} (r : result A) : bool :=
  match r with Throw RangeError => true | _ => false end.

(** What is checked, by evaluation, for each percent with one decimal from 0.0
    to 200.0: both versions of getBar return the bar of [filled_cells] cells
    when that is at most 20, and throw a RangeError when it is more. *)
Definition check_overflow (n : Z) : bool :=
  if filled_cells n <=? 20
  then match Shared.getBar (JStr (fixed1 n)), Part001a.getBar (JStr (fixed1 n)) with
       | Ok b, Ok b' =>
         jsstring_eqb b (bar (filled_cells n)) && jsstring_eqb b' (bar (filled_cells n))
       | _, _ => false
       end
  else is_RangeError (Shared.getBar (JStr (fixed1 n)))
       && is_RangeError (Part001a.getBar (JStr (fixed1 n))).

Lemma check_all_overflows : forallb check_overflow (map Z.of_nat (seq 0 2001)) = true.
Proof. vm_compute. reflexivity. Qed.

Lemma is_RangeError_eq {A} (r : result A) : is_RangeError r = true -> r = Throw RangeError.
Proof. destruct r as [a | []]; try discriminate. reflexivity. Qed.

(** X18.  A count above the total.  For a count up to twice the total,
    getPercent returns the text of n tenths with n <= 2000; getBar, in both
    versions, still returns the bar when n < 1025 (up to 102.4 percent, 20
    cells are filled), and throws the RangeError of String.prototype.repeat
    from n = 1025 on (102.5 percent), where 20 - filled is negative. *)
Theorem X18_bar_of_a_count_above_the_total (stats : CommitStats) (num : Z) :
  0 < total stats < 2 ^ 53 -> 0 <= num <= 2 * total stats -> num < 2 ^ 53 ->
  exists n,
    0 <= n <= 2000
    /\ Shared.getPercent stats num = Ok (JStr (fixed1 n))
    /\ Part001a.getPercent stats num = Ok (JStr (fixed1 n))
    /\ (n < 1025 ->
        0 <= filled_cells n <= 20
        /\ Shared.getBar (JStr (fixed1 n)) = Ok (bar (filled_cells n))
        /\ Part001a.getBar (JStr (fixed1 n)) = Ok (bar (filled_cells n)))
    /\ (1025 <= n ->
        Shared.getBar (JStr (fixed1 n)) = Throw RangeError
        /\ Part001a.getBar (JStr (fixed1 n)) = Throw RangeError).
Proof.
  intros Ht Hn Hn53.
  destruct (getPercent_nonzero stats num ltac:(lia) ltac:(lia)) as (H1 & H2 & Hlo & _).
  set (n := tenths_of (percent_number num (total stats))) in *.
  assert (Hhi : n <= 2000).
  { pose proof (percent_number_bound num (total stats) 1 ltac:(lia) ltac:(lia)
                  ltac:(lia) ltac:(lia)) as Hb.
    destruct (toFixed1_bounded _ _ _ Hb ltac:(lia) ltac:(reflexivity)) as (_ & _ & Hh).
    exact Hh. }
  exists n. split; [lia |]. split; [exact H1 |]. split; [exact H2 |].
  pose proof check_all_overflows as Hall. rewrite forallb_forall in Hall.
  assert (Hc : check_overflow n = true).
  { apply Hall. apply in_map_iff. exists (Z.to_nat n). split; [lia |]. apply in_seq. lia. }
  clearbody n. unfold check_overflow in Hc.
  pose proof (filled_cells_bounds n) as Hf.
  split.
  - intros Hlt. destruct (Z.leb_spec (filled_cells n) 20) as [Hle | Hgt]; [| lia].
    destruct (Shared.getBar (JStr (fixed1 n))) as [b |]; [| discriminate].
    destruct (Part001a.getBar (JStr (fixed1 n))) as [b' |]; [| discriminate].
    apply andb_prop in Hc. destruct Hc as (E & E').
    apply jsstring_eqb_eq in E, E'. subst. split; [lia |]. split; reflexivity.
  - intros Hge. destruct (Z.leb_spec (filled_cells n) 20) as [Hle | Hgt]; [lia |].
    apply andb_prop in Hc. destruct Hc as (E & E').
    split; apply is_RangeError_eq; assumption.
Qed.

(** Twice the total: 200.0 percent, and no bar. *)
Example twice_the_total :
  Shared.getPercent (stats_of 1 0 0 0 1) 2 = Ok (JStr (js "200.0"))
  /\ rbind (Shared.getPercent (stats_of 1 0 0 0 1) 2) Shared.getBar = Throw RangeError
  /\ rbind (Part001a.getPercent (stats_of 1 0 0 0 1) 2) Part001a.getBar = Throw RangeError.
Proof. vm_compute. repeat split. Qed.

Lemma X18_bar_of_a_count_above_the_total_witness :
  exists n,
    Shared.getPercent (stats_of 1 0 0 0 1) 2 = Ok (JStr (fixed1 n))
    /\ (1025 <= n -> Shared.getBar (JStr (fixed1 n)) = Throw RangeError).
Proof.
  destruct (X18_bar_of_a_count_above_the_total (stats_of 1 0 0 0 1) 2)
    as (n & _ & Hp & _ & _ & Hthrow).
  - simpl. lia.
  - simpl. lia.
  - lia.
  - exists n. split; [exact Hp |]. intros Hn. apply Hthrow. exact Hn.
Defined.

(** ** Whole runs of the event scripts *)

(** At most a page of events, each push event counting between 0 and 2^40
    commits. *)
Definition page_of_events (weight : event -> Z) (events : list event) : Prop :=
  (length events <= 100)%nat
  /\ forall e, In e events -> is_PushEvent e = true -> 0 <= weight e <= 2 ^ 40.

Lemma weigh_bounds {A} (weight : A -> Z) (B : Z) (l : list A) :
  (forall a, In a l -> 0 <= weight a <= B) ->
  0 <= weigh weight l <= B * Z.of_nat (length l).
Proof.
  induction l as [| a l IH]; intros H; [unfold weigh; simpl; lia |].
  unfold weigh in *. cbn [map fold_right length]. rewrite Nat2Z.inj_succ.
  pose proof (H a (or_introl eq_refl)).
  specialize (IH (fun x Hx => H x (or_intror Hx))). lia.
Qed.

Lemma commits_of_bounds weight events :
  (forall e, In e events -> is_PushEvent e = true -> 0 <= weight e <= 2 ^ 40) ->
  0 <= commits_of weight events <= 2 ^ 40 * Z.of_nat (length events).
Proof.
  intros H. unfold commits_of.
  pose proof (weigh_bounds weight (2 ^ 40) (filter is_PushEvent events)) as Hw.
  pose proof (filter_length_le is_PushEvent events) as Hl.
  assert (Hin : forall e, In e (filter is_PushEvent events) -> 0 <= weight e <= 2 ^ 40).
  { intros e He. apply filter_In in He. apply H; tauto. }
  specialize (Hw Hin). nia.
Qed.

Lemma commits_in_bounds {dates : DateLib} weight b events :
  (forall e, In e events -> is_PushEvent e = true -> 0 <= weight e <= 2 ^ 40) ->
  0 <= commits_in weight b events.
Proof.
  intros H. unfold commits_in.
  apply (weigh_bounds weight (2 ^ 40)).
  intros e He. apply filter_In in He. destruct He as (He & Hb).
  apply andb_prop in Hb. apply H; tauto.
Qed.

Lemma commits_in_total {dates : DateLib} weight events :
  commits_in weight Morning events + commits_in weight Daytime events
  + commits_in weight Evening events + commits_in weight Night events
  = commits_of weight events.
Proof.
  induction events as [| e events IH]; [reflexivity |].
  rewrite !commits_in_cons, commits_of_cons. unfold falls_in.
  destruct (is_PushEvent e); cbn [andb]; [| lia].
  destruct (bucketOfHour (zonedHour TIME_ZONE (created_at e))); cbn [bucket_eqb]; lia.
Qed.

Lemma concat_length_bound {A} (ls : list (list A)) :
  Forall (fun l => (length l <= 100)%nat) ls ->
  (length (concat ls) <= 100 * length ls)%nat.
Proof.
  induction 1 as [| l ls Hl _ IH]; [simpl; lia |].
  cbn [concat length]. rewrite length_app. lia.
Qed.

(** Stats whose buckets are the given tallies. *)
Lemma tallies_within_total {dates : DateLib} weight events (s : CommitStats) :
  (forall e, In e events -> is_PushEvent e = true -> 0 <= weight e <= 2 ^ 40) ->
  (forall b, count_of b s = commits_in weight b events) ->
  total s = commits_of weight events ->
  within_total s.
Proof.
  intros Hw Hb Ht. unfold within_total, consistent.
  pose proof (Hb Morning) as Hm. pose proof (Hb Daytime) as Hd.
  pose proof (Hb Evening) as He. pose proof (Hb Night) as Hn. simpl in Hm, Hd, He, Hn.
  pose proof (commits_in_bounds weight Morning events Hw).
  pose proof (commits_in_bounds weight Daytime events Hw).
  pose proof (commits_in_bounds weight Evening events Hw).
  pose proof (commits_in_bounds weight Night events Hw).
  pose proof (commits_in_total weight events).
  repeat split; lia.
Qed.

(** X19.  A whole run of the event scripts.  When the API accepts the
    update of the gist and answers with at most 100 events per page, each
    push event counting between 0 and 2^40 commits, update_gist.js ends with
    status 0; so does part_000 when the API also accepts the token. *)
Theorem X19_event_scripts_succeed
    (dates : DateLib) (gh : github) (cfg : config) (w : world) :
  (forall text, gists_update gh (GIST_ID cfg) text = Ok tt) ->
  ((exists events,
       listPublicEventsForUser gh (GH_USERNAME cfg) 100 = Ok events
       /\ page_of_events UpdateGist.commitCount events) ->
   fst (UpdateGist.script gh cfg w) = Ok 0)
  /\ ((exists user, users_getAuthenticated gh = Ok user) ->
      (forall u page,
          exists events,
            listEventsForAuthenticatedUser gh u 100 page = Ok events
            /\ page_of_events Part000.commitCount events) ->
      fst (Part000.script gh cfg w) = Ok 0).
Proof.
  intros Hup. split.
  - intros (events & Hans & Hlen & Hw).
    unfold UpdateGist.script. rewrite main_outcome. unfold steps, bind.
    assert (Hrun : exists s w1,
               UpdateGist.getCommitTimes gh cfg w = (Ok s, w1)
               /\ (forall b, count_of b s = commits_in UpdateGist.commitCount b events)
               /\ total s = commits_of UpdateGist.commitCount events).
    { eexists. eexists. split; [| split].
      - unfold UpdateGist.getCommitTimes, try_catch, bind, request, ret. rewrite Hans.
        reflexivity.
      - intros b.
        destruct (UpdateGist_fold events {| buckets := no_commits; total := 0 |})
          as (Hb & _).
        rewrite Hb. destruct b; reflexivity.
      - destruct (UpdateGist_fold events {| buckets := no_commits; total := 0 |})
          as (_ & Ht).
        rewrite Ht. reflexivity. }
    destruct Hrun as (s & w1 & E & Hb & Ht). rewrite E.
    assert (Hs : within_total s) by (eapply tallies_within_total; eassumption).
    assert (Hlt : total s < 2 ^ 53).
    { rewrite Ht. pose proof (commits_of_bounds _ events Hw). nia. }
    destruct (UpdateGist_generateMarkdown_returns s w1 Hs Hlt) as (body & ->).
    unfold updateGist, try_catch, bind, request, print. rewrite Hup. reflexivity.
  - intros (user & Hu) Hev.
    unfold Part000.script. rewrite main_outcome. unfold steps, bind.
    assert (Hret : returns (Part000.getCommitTimes gh cfg)).
    { unfold Part000.getCommitTimes, Part000.fetch_page, Part000.count_event.
      rewrite Hu. returns.
      match goal with
      | |- returns (request _ (listEventsForAuthenticatedUser _ ?a _ ?c)) =>
        destruct (Hev a c) as (events & -> & _)
      end.
      returns. }
    destruct (Hret w) as (s & w1 & E). rewrite E.
    destruct (Part000_run gh cfg w s w1 E)
      as (user' & k & pages & w2 & _ & (Hk & Hf & _) & _ & Hb & Ht & _).
    assert (Hpages : Forall (page_of_events Part000.commitCount) pages).
    { clear - Hf Hev. induction Hf as [| page events l ls Hans _ IH]; constructor; [| exact IH].
      destruct (Hev (username_or (GH_USERNAME cfg) (login user')) page)
        as (events' & E' & Hp).
      congruence. }
    assert (Hw : forall e, In e (concat pages) -> is_PushEvent e = true ->
                           0 <= Part000.commitCount e <= 2 ^ 40).
    { intros e He. apply in_concat in He. destruct He as (events & Hin & He).
      rewrite Forall_forall in Hpages. destruct (Hpages events Hin) as (_ & H).
      apply H. exact He. }
    assert (Hs : within_total s) by (eapply tallies_within_total; eassumption).
    assert (Hlt : total s < 2 ^ 53).
    { rewrite Ht. pose proof (commits_of_bounds _ (concat pages) Hw).
      assert (Hlen : (length (concat pages) <= 100 * length pages)%nat).
      { apply concat_length_bound. eapply Forall_impl; [| exact Hpages].
        intros events (Hl & _). exact Hl. }
      assert (Hk' : length pages = k).
      { apply Forall2_length in Hf. rewrite <- Hf. unfold pages_from.
        rewrite length_map, length_seq. reflexivity. }
      assert (Z.of_nat (length (concat pages)) <= 300) by lia.
      nia. }
    destruct (Part000_generateMarkdown_returns s w1 Hs Hlt) as (body & ->).
    unfold updateGist, try_catch, bind, request, print. rewrite Hup. reflexivity.
Qed.

Lemma X19_event_scripts_succeed_witness :
  fst (@UpdateGist.script Shanghai.dates sample_github sample_config sample_world) = Ok 0.
Proof.
  destruct (X19_event_scripts_succeed Shanghai.dates sample_github sample_config
              sample_world (fun text => eq_refl)) as (H & _).
  apply H. exists sample_events. split; [reflexivity |]. split; [simpl; lia |].
  intros e [<- | [<- | [<- | []]]] Hp; vm_compute; split; discriminate.
Defined.
